(** * Filter-highlight overlay of the PDF viewer: model and properties

    Shallow embedding of [FilterHighlightOverlay] (the overlay projector)
    and of [PDFFilterView.#navigateToHighlight] (the panel item that
    issues the highlight-selection event), followed by the rest of the
    panel ([PDFFilterView], [PDFFilterViewer]), the tab switcher
    ([PDFTabManager]) and the icon generator script.

    Numbers.  A JavaScript Number is modelled by [number]: either [NaN]
    or a finite value carried exactly as a rational.  Rounding and the
    infinities are outside the model; two finite numbers are the same
    number when their rationals are equal ([==]).

    Values.  The data that reaches the two components comes from a JSON
    file, so a value is a non-string primitive, an object whose
    properties are such primitives, or an array of them. *)

From Stdlib Require Import List String ZArith QArith Qminmax Qabs Lia Lqa Bool PeanoNat Sorted DecimalString Ascii.
Import ListNotations.
Local Open Scope string_scope.
Local Open Scope list_scope.

(** ** Numbers and values *)

Inductive number : Type :=
| NaN
| Fin (q : Q).

Definition num_eq (a b : number) : Prop :=
  match a, b with
  | NaN, NaN => True
  | Fin p, Fin q => p == q
  | _, _ => False
  end.

Definition num_nonneg (a : number) : Prop :=
  match a with
  | NaN => False
  | Fin q => 0 <= q
  end.

(** [a + b] on numbers *)
Definition num_add (a b : number) : number :=
  match a, b with
  | Fin p, Fin q => Fin (p + q)
  | _, _ => NaN
  end.

(** [a - b] on numbers *)
Definition num_sub (a b : number) : number :=
  match a, b with
  | Fin p, Fin q => Fin (p - q)
  | _, _ => NaN
  end.

(** [a / 2] *)
Definition num_half (a : number) : number :=
  match a with
  | Fin p => Fin (p / 2)
  | NaN => NaN
  end.

(** [Math.min(a, b)]: NaN when either argument is NaN *)
Definition Math_min (a b : number) : number :=
  match a, b with
  | Fin p, Fin q => Fin (Qmin p q)
  | _, _ => NaN
  end.

(** [Math.abs(a)] *)
Definition Math_abs (a : number) : number :=
  match a with
  | Fin p => Fin (Qabs p)
  | NaN => NaN
  end.

(** Non-string primitives. *)
Inductive prim : Type :=
| PUndefined
| PNull
| PNumber (n : number).

(** Values: a primitive, an object (its own properties in order), or an
    array. *)
Inductive jsvalue : Type :=
| VPrim (p : prim)
| VObject (props : list (string * prim))
| VArray (items : list prim).

(** ToNumber on primitives: [undefined] is NaN, [null] is 0. *)
Definition ToNumber (p : prim) : number :=
  match p with
  | PUndefined => NaN
  | PNull => Fin 0
  | PNumber n => n
  end.

(** The binary [+] and [/ 2] of the language on non-string primitives:
    both operands are converted with ToNumber. *)
Definition js_add (a b : prim) : number := num_add (ToNumber a) (ToNumber b).
Definition js_half (a : prim) : number := num_half (ToNumber a).

(** Truthiness ([ToBoolean]): [0] and [NaN] are falsy; every object and
    array is truthy. *)
Definition truthy (v : jsvalue) : bool :=
  match v with
  | VPrim PUndefined | VPrim PNull | VPrim (PNumber NaN) => false
  | VPrim (PNumber (Fin q)) => negb (Qeq_bool q 0)
  | VObject _ | VArray _ => true
  end.

Definition Array_isArray (v : jsvalue) : bool :=
  match v with
  | VArray _ => true
  | _ => false
  end.

(** Property read [o.k] on an object's property list. *)
Fixpoint get_prop (k : string) (props : list (string * prim)) : prim :=
  match props with
  | [] => PUndefined
  | (k', v) :: rest => if String.eqb k k' then v else get_prop k rest
  end.

Inductive error : Type :=
| TypeError.

(** Outcome of evaluating code that may throw. *)
Inductive completion (A : Type) : Type :=
| Normal (a : A)
| Throw (e : error).
Arguments Normal {A} a.
Arguments Throw {A} e.

(** Object destructuring [const { x, y, width, height } = v]:
    throws on [undefined] and [null]; on any other value each name is a
    property read (an array or a number has none of the four). *)
Definition destructure_location (v : jsvalue)
  : completion (prim * prim * prim * prim) :=
  match v with
  | VPrim PUndefined | VPrim PNull => Throw TypeError
  | VPrim (PNumber _) | VArray _ =>
      Normal (PUndefined, PUndefined, PUndefined, PUndefined)
  | VObject props =>
      Normal (get_prop "x" props, get_prop "y" props,
              get_prop "width" props, get_prop "height" props)
  end.

(** A well-formed location record [{x, y, width, height}]. *)
Definition location_record (x y width height : prim) : jsvalue :=
  VObject [("x", x); ("y", y); ("width", width); ("height", height)].

Definition rect (x y width height : Q) : jsvalue :=
  location_record (PNumber (Fin x)) (PNumber (Fin y))
                  (PNumber (Fin width)) (PNumber (Fin height)).

(** ** The viewer as seen by the overlay *)

(** The page viewport.  Its point transform belongs to the rendering
    code and is taken as given: any function on finite points.  It
    computes with its arguments arithmetically, so they are converted
    with ToNumber and a NaN coordinate gives a NaN point. *)
Record PageViewport : Type := {
  convertToViewportPoint : Q -> Q -> Q * Q
}.

Definition viewport_point (vp : PageViewport) (a b : prim) : number * number :=
  match ToNumber a, ToNumber b with
  | Fin p, Fin q =>
      let (u, v) := convertToViewportPoint vp p q in (Fin u, Fin v)
  | _, _ => (NaN, NaN)
  end.

(** A page view: its container node (absent until the page has one) and
    its viewport. *)
Record PageView : Type := {
  div : option nat;
  viewport : PageViewport
}.

Record PDFViewer : Type := {
  _pages : option (list PageView)
}.

Record PDFSidebar : Type := {
  sidebar_pdfViewer : option PDFViewer
}.

Record Application : Type := {
  app_pdfViewer : option PDFViewer;
  pdfSidebar : option PDFSidebar
}.

Record Window : Type := {
  PDFViewerApplication : option Application
}.

(** ** Elements and the document *)

(** A length written by the template [`${n}px`]. *)
Inductive css_length : Type :=
| Px (n : number).

Record Style : Type := {
  style_position : string;
  style_left : css_length;
  style_top : css_length;
  style_width : css_length;
  style_height : css_length;
  style_backgroundColor : string;
  style_border : string;
  style_pointerEvents : string;
  style_zIndex : string;
  style_transition : string;
  style_opacity : string
}.

Record Element : Type := {
  className : string;
  style : Style
}.

Definition set_opacity (v : string) (e : Element) : Element :=
  {| className := className e;
     style :=
       {| style_position := style_position (style e);
          style_left := style_left (style e);
          style_top := style_top (style e);
          style_width := style_width (style e);
          style_height := style_height (style e);
          style_backgroundColor := style_backgroundColor (style e);
          style_border := style_border (style e);
          style_pointerEvents := style_pointerEvents (style e);
          style_zIndex := style_zIndex (style e);
          style_transition := style_transition (style e);
          style_opacity := v |} |}.

(** Callbacks handed to [setTimeout] by the overlay. *)
Inductive Callback : Type :=
| CreateOverlay (pageNumber : Z) (location : jsvalue)
| RemoveOverlay.

Record Timer : Type := {
  due : nat;
  callback : Callback
}.

(** The state the overlay runs in.  An element is referred to by its
    index in [elements]; a created element keeps its index for ever, so
    two references are the same object exactly when they are equal.
    [children] lists the overlay nodes attached under page containers,
    as (container, element), in document order. *)
Record World : Type := {
  window : Window;
  elements : list Element;
  children : list (nat * nat);
  currentOverlay : option nat;
  timers : list Timer;
  frames : list nat;
  now : nat;
  uncaught : list error
}.

Definition with_elements (els : list Element) (w : World) : World :=
  {| window := window w; elements := els; children := children w;
     currentOverlay := currentOverlay w; timers := timers w;
     frames := frames w; now := now w; uncaught := uncaught w |}.

Definition with_children (ch : list (nat * nat)) (w : World) : World :=
  {| window := window w; elements := elements w; children := ch;
     currentOverlay := currentOverlay w; timers := timers w;
     frames := frames w; now := now w; uncaught := uncaught w |}.

Definition with_currentOverlay (o : option nat) (w : World) : World :=
  {| window := window w; elements := elements w; children := children w;
     currentOverlay := o; timers := timers w;
     frames := frames w; now := now w; uncaught := uncaught w |}.

Definition with_timers (ts : list Timer) (w : World) : World :=
  {| window := window w; elements := elements w; children := children w;
     currentOverlay := currentOverlay w; timers := ts;
     frames := frames w; now := now w; uncaught := uncaught w |}.

Definition with_frames (fs : list nat) (w : World) : World :=
  {| window := window w; elements := elements w; children := children w;
     currentOverlay := currentOverlay w; timers := timers w;
     frames := fs; now := now w; uncaught := uncaught w |}.

Definition with_now (t : nat) (w : World) : World :=
  {| window := window w; elements := elements w; children := children w;
     currentOverlay := currentOverlay w; timers := timers w;
     frames := frames w; now := t; uncaught := uncaught w |}.

Definition with_uncaught (es : list error) (w : World) : World :=
  {| window := window w; elements := elements w; children := children w;
     currentOverlay := currentOverlay w; timers := timers w;
     frames := frames w; now := now w; uncaught := es |}.

(** Replace the element at reference [r]. *)
Fixpoint update_element (r : nat) (f : Element -> Element)
  (els : list Element) : list Element :=
  match els, r with
  | [], _ => []
  | e :: rest, O => f e :: rest
  | e :: rest, S r' => e :: update_element r' f rest
  end.

(** [element.remove()]: detach the node from its parent, if it has one. *)
Definition remove_node (r : nat) (ch : list (nat * nat)) : list (nat * nat) :=
  filter (fun c => negb (Nat.eqb (snd c) r)) ch.

(** [setTimeout(cb, delay)]: the callback runs once the clock reaches
    [now + delay], after every callback due no later that was set before. *)
Fixpoint insert_timer (t : Timer) (ts : list Timer) : list Timer :=
  match ts with
  | [] => [t]
  | u :: rest =>
      if (due u <=? due t)%nat then u :: insert_timer t rest
      else t :: u :: rest
  end.

Definition setTimeout (cb : Callback) (delay : nat) (w : World) : World :=
  with_timers (insert_timer {| due := (now w + delay)%nat; callback := cb |} (timers w)) w.

(** [requestAnimationFrame]: the fade-in of element [r] is queued for the
    next frame. *)
Definition requestAnimationFrame (r : nat) (w : World) : World :=
  with_frames (frames w ++ [r]) w.

(** ** FilterHighlightOverlay *)

Definition SETTLE_DELAY : nat := 500.
Definition FADE_DELAY : nat := 300.

(** [#getPageView(pageNumber)] *)
Definition getPageView (win : Window) (pageNumber : Z) : option PageView :=
  let pdfViewer :=
    match PDFViewerApplication win with
    | None => None
    | Some app =>
        match app_pdfViewer app with
        | Some v => Some v
        | None =>
            match pdfSidebar app with
            | None => None
            | Some sb => sidebar_pdfViewer sb
            end
        end
    end in
  match pdfViewer with
  | None => None
  | Some v =>
      match _pages v with
      | None => None
      | Some pages =>
          if (0 <=? pageNumber - 1)%Z
          then nth_error pages (Z.to_nat (pageNumber - 1))
          else None
      end
  end.

(** The inline style given to a new overlay from the two transformed
    corner points. *)
Definition overlay_style (topLeft bottomRight : number * number) : Style :=
  {| style_position := "absolute";
     style_left := Px (Math_min (fst topLeft) (fst bottomRight));
     style_top := Px (Math_min (snd topLeft) (snd bottomRight));
     style_width := Px (Math_abs (num_sub (fst bottomRight) (fst topLeft)));
     style_height := Px (Math_abs (num_sub (snd bottomRight) (snd topLeft)));
     style_backgroundColor := "rgba(255, 255, 0, 0.3)";
     style_border := "2px solid rgba(255, 200, 0, 0.8)";
     style_pointerEvents := "none";
     style_zIndex := "1000";
     style_transition := "opacity 0.3s ease-in-out";
     style_opacity := EmptyString |}.

(** The two corner points handed to the style: [(left, top)] and
    [(right, bottom)] after the viewport transform. *)
Definition corner_points (vp : PageViewport) (x y width height : prim)
  : (number * number) * (number * number) :=
  let left := x in
  let bottom := y in
  let right := js_add x width in
  let top := js_add y height in
  let topLeft := viewport_point vp left (PNumber top) in
  let bottomRight := viewport_point vp (PNumber right) bottom in
  (topLeft, bottomRight).

(** [#createOverlayElement(pageView, location)].  Returns the reference
    of the new element ([None] for the source's [null]) and the new
    state; a throw leaves the state as it was. *)
Definition createOverlayElement (pageView : PageView) (location : jsvalue)
  (w : World) : completion (option nat * World) :=
  match div pageView with
  | None => Normal (None, w)
  | Some container =>
      match destructure_location location with
      | Throw e => Throw e
      | Normal (x, y, width, height) =>
          let (topLeft, bottomRight) :=
            corner_points (viewport pageView) x y width height in
          let overlay := List.length (elements w) in
          let el := {| className := "filterHighlightOverlay";
                       style := overlay_style topLeft bottomRight |} in
          let w1 := with_elements (elements w ++ [el]) w in
          let w2 := with_children (children w1 ++ [(container, overlay)]) w1 in
          Normal (Some overlay, requestAnimationFrame overlay w2)
      end
  end.

(** [clearHighlight()] *)
Definition clearHighlight (w : World) : World :=
  match currentOverlay w with
  | Some o =>
      let w1 := with_elements (update_element o (set_opacity "0") (elements w)) w in
      setTimeout RemoveOverlay FADE_DELAY w1
  | None => w
  end.

(** [showHighlight(pageNumber, location)]: the part that runs in the
    caller's turn. *)
Definition showHighlight (pageNumber : Z) (location : jsvalue) (w : World)
  : World :=
  setTimeout (CreateOverlay pageNumber location) SETTLE_DELAY (clearHighlight w).

(** The body of the settle-delay callback of [showHighlight]. *)
Definition create_callback (pageNumber : Z) (location : jsvalue) (w : World)
  : World :=
  match getPageView (window w) pageNumber with
  | None => w
  | Some pageView =>
      match createOverlayElement pageView location w with
      | Throw e => with_uncaught (uncaught w ++ [e]) w
      | Normal (None, w') => w'
      | Normal (Some overlay, w') => with_currentOverlay (Some overlay) w'
      end
  end.

(** The body of the fade-delay callback of [clearHighlight]: it reads
    [#currentOverlay] when it runs. *)
Definition remove_callback (w : World) : World :=
  let w1 :=
    match currentOverlay w with
    | Some o => with_children (remove_node o (children w)) w
    | None => w
    end in
  with_currentOverlay None w1.

Definition run_callback (cb : Callback) (w : World) : World :=
  match cb with
  | CreateOverlay pageNumber location => create_callback pageNumber location w
  | RemoveOverlay => remove_callback w
  end.

(** The listener registered on the event bus. *)
Record HighlightEvent : Type := {
  evt_pageNumber : Z;
  evt_location : jsvalue
}.

Definition on_filterhighlightselected (evt : HighlightEvent) (w : World) : World :=
  showHighlight (evt_pageNumber evt) (evt_location evt) w.

(** ** The event loop *)

(** The fade-in callbacks of the pending animation frame. *)
Definition run_frame (w : World) : World :=
  with_frames []
    (with_elements
       (fold_left (fun els r => update_element r (set_opacity "1") els)
                  (frames w) (elements w)) w).

(** Run, in queue order, the timer callbacks due at clock value [t].  A
    callback sets no timer, so the number of pending timers bounds the
    number of turns. *)
Fixpoint fire_due (fuel : nat) (t : nat) (w : World) : World :=
  match fuel with
  | O => w
  | S fuel' =>
      match timers w with
      | [] => w
      | tm :: rest =>
          if (due tm <=? t)%nat
          then fire_due fuel' t
                 (run_callback (callback tm)
                    (with_now (Nat.max (now w) (due tm)) (with_timers rest w)))
          else w
      end
  end.

(** Let the clock reach [t]. *)
Definition advance (t : nat) (w : World) : World :=
  let w' := fire_due (List.length (timers w)) t w in
  with_now (Nat.max (now w') t) w'.

(** What the page does to the overlay from outside. *)
Inductive Call : Type :=
| ShowHighlight (pageNumber : Z) (location : jsvalue)
| ClearHighlight
| AnimationFrame.

Definition do_call (c : Call) (w : World) : World :=
  match c with
  | ShowHighlight pageNumber location => showHighlight pageNumber location w
  | ClearHighlight => clearHighlight w
  | AnimationFrame => run_frame w
  end.

(** A script of calls, each at a clock value. *)
Fixpoint run (script : list (nat * Call)) (w : World) : World :=
  match script with
  | [] => w
  | (t, c) :: rest => run rest (do_call c (advance t w))
  end.

(** The state right after [new FilterHighlightOverlay(eventBus)]. *)
Definition initial (win : Window) : World :=
  {| window := win; elements := []; children := []; currentOverlay := None;
     timers := []; frames := []; now := 0%nat; uncaught := [] |}.

(** Overlay nodes in the document. *)
Definition overlay_count (w : World) : nat := List.length (children w).

Definition attached (r : nat) (w : World) : Prop := In r (map snd (children w)).

(** ** PDFFilterView *)

Record HighlightData : Type := {
  page : Z;
  text : string;
  location : jsvalue
}.

Record LinkService : Type := {
  pdfViewer : option PDFViewer
}.

(** Entries of a destination array. *)
Inductive dest_entry : Type :=
| DNull
| DName (name : string)
| DNumber (n : number).

Record ScrollArgs : Type := {
  scroll_pageNumber : Z;
  destArray : list dest_entry;
  allowNegativeOffset : bool;
  center : string
}.

(** What [#navigateToHighlight] does to its collaborators, in order. *)
Inductive Effect : Type :=
| GoToPage (pageNumber : Z)
| ScrollPageIntoView (args : ScrollArgs)
| Dispatch (eventName : string) (evt : HighlightEvent).

Definition array_items (v : jsvalue) : list prim :=
  match v with
  | VArray items => items
  | _ => []
  end.

(** [location.length === 4] *)
Definition length_is_4 (v : jsvalue) : bool :=
  Nat.eqb (List.length (array_items v)) 4.

(** [#navigateToHighlight()] *)
Definition navigateToHighlight (highlightData : HighlightData)
  (linkService : LinkService) : list Effect :=
  let page := page highlightData in
  let location := location highlightData in
  match pdfViewer linkService with
  | None => [GoToPage page]
  | Some _ =>
      if truthy location && Array_isArray location && length_is_4 location
      then
        let x := nth 0 (array_items location) PUndefined in
        let y := nth 1 (array_items location) PUndefined in
        let width := nth 2 (array_items location) PUndefined in
        let height := nth 3 (array_items location) PUndefined in
        let top := js_add y height in
        let bottom := y in
        let centerX := num_add (ToNumber x) (js_half width) in
        let centerY := num_half (num_add top (ToNumber bottom)) in
        [ScrollPageIntoView
           {| scroll_pageNumber := page;
              destArray := [DNull; DName "XYZ"; DNumber centerX;
                            DNumber centerY; DNull];
              allowNegativeOffset := true;
              center := "both" |};
         Dispatch "filterhighlightselected"
           {| evt_pageNumber := page;
              evt_location := location_record x y width height |}]
      else [GoToPage page]
  end.

(** The event bus hands a dispatched event to the overlay's listener. *)
Definition deliver (eff : Effect) (w : World) : World :=
  match eff with
  | Dispatch name evt =>
      if String.eqb name "filterhighlightselected"
      then on_filterhighlightselected evt w
      else w
  | _ => w
  end.

(** A click on the panel item, at the overlay's end. *)
Definition click (highlightData : HighlightData) (linkService : LinkService)
  (w : World) : World :=
  fold_left (fun w' eff => deliver eff w')
            (navigateToHighlight highlightData linkService) w.

(** ** Fixtures *)

Definition identity_viewport : PageViewport :=
  {| convertToViewportPoint := fun x y => (x, y) |}.

(** A viewer whose single page has container [0] and viewport [vp]. *)
Definition one_page_window (vp : PageViewport) : Window :=
  {| PDFViewerApplication :=
       Some {| app_pdfViewer :=
                 Some {| _pages := Some [ {| div := Some 0%nat; viewport := vp |} ] |};
               pdfSidebar := None |} |}.

Definition sample_location : jsvalue := rect 10 (-50) 20 (-30).

Definition fresh_world : World := initial (one_page_window identity_viewport).

(** The state half a second after a first highlight was requested on
    page 1: one overlay, attached and current. *)
Definition world_with_overlay : World :=
  advance 500 (showHighlight 1 sample_location fresh_world).

(** ** Geometry of the overlay *)

Definition px_eq (a b : css_length) : Prop :=
  match a, b with
  | Px m, Px n => num_eq m n
  end.

(** Two styles describe the same on-screen box. *)
Definition same_box (s t : Style) : Prop :=
  px_eq (style_left s) (style_left t) /\ px_eq (style_top s) (style_top t) /\
  px_eq (style_width s) (style_width t) /\ px_eq (style_height s) (style_height t).

Definition fin_point (p : Q * Q) : number * number := (Fin (fst p), Fin (snd p)).

(** ** Vocabulary of the statements *)

(** The document is the same in two states: same elements with the same
    styles, same attached nodes. *)
Definition same_document (w w' : World) : Prop :=
  elements w' = elements w /\ children w' = children w.

(** The inline opacity of the element behind a reference. *)
Definition opacity_of (r : nat) (w : World) : option string :=
  option_map (fun e => style_opacity (style e)) (nth_error (elements w) r).

Definition due_le (a b : Timer) : Prop := (due a <= due b)%nat.

(** The timer queue is in firing order. *)
Definition timers_sorted (w : World) : Prop := StronglySorted due_le (timers w).

(** The timer set by [clearHighlight] in state [w], and the one set by
    [showHighlight]. *)
Definition fade_timer (w : World) : Timer :=
  {| due := (now w + FADE_DELAY)%nat; callback := RemoveOverlay |}.

Definition settle_timer (pageNumber : Z) (location : jsvalue) (w : World) : Timer :=
  {| due := (now w + SETTLE_DELAY)%nat; callback := CreateOverlay pageNumber location |}.

(** Two requests a tenth of a second apart, on a viewer showing nothing. *)
Definition two_quick_calls : list (nat * Call) :=
  [(0%nat, ShowHighlight 1 sample_location);
   (100%nat, ShowHighlight 1 sample_location)].

(** A location is nullish when it is [null] or [undefined]. *)
Definition nullish (v : jsvalue) : bool :=
  match v with
  | VPrim PUndefined | VPrim PNull => true
  | _ => false
  end.

(** A non-null array of exactly four entries. *)
Definition four_entries (v : jsvalue) : Prop :=
  exists x y width height : prim, v = VArray [x; y; width; height].

(** ** States the overlay can reach *)

(** The states reached from a new overlay by calls and the passing of
    time. *)
Inductive reachable (win : Window) : World -> Prop :=
| reach_initial : reachable win (initial win)
| reach_call (c : Call) (w : World) :
    reachable win w -> reachable win (do_call c w)
| reach_advance (t : nat) (w : World) :
    reachable win w -> reachable win (advance t w).

(** References point into the element heap, no node is attached twice,
    and the current overlay, when there is one, is attached. *)
Definition well_formed (w : World) : Prop :=
  Forall (fun c => (snd c < List.length (elements w))%nat) (children w)
  /\ NoDup (map snd (children w))
  /\ Forall (fun r => (r < List.length (elements w))%nat) (frames w)
  /\ (forall o, currentOverlay w = Some o -> In o (map snd (children w))).

(** Nothing is pending and the document shows the current overlay and
    no other. *)
Definition settled (w : World) : Prop :=
  timers w = []
  /\ match currentOverlay w with
     | Some o => exists container, children w = [(container, o)]
     | None => children w = []
     end.

(** How long a call keeps the timer queue busy. *)
Definition busy_time (c : Call) : nat :=
  match c with
  | ShowHighlight _ _ => SETTLE_DELAY
  | ClearHighlight => FADE_DELAY
  | AnimationFrame => 0%nat
  end.

(** A script whose every call comes when the one before has settled:
    not before [ready]. *)
Fixpoint spaced (ready : nat) (script : list (nat * Call)) : Prop :=
  match script with
  | [] => True
  | (t, c) :: rest => (ready <= t)%nat /\ spaced (t + busy_time c) rest
  end.

(** ** The filter panel: PDFFilterView and PDFFilterViewer *)

Definition FILTER_WIDTH : Z := 98.

(** The text a template literal gives for an integer. *)
Definition number_text (z : Z) : string := NilZero.string_of_int (Z.to_int z).

(** What the constructor of [PDFFilterView] builds: an anchor holding a
    [div] of class "thumbnail" with a header and a text. *)
Record FilterItemNode : Type := {
  anchor_href : string;
  anchor_l10n_id : string;
  div_className : string;
  div_data_page_number : string;
  div_data_filter_id : string;
  div_thumbnail_width : string;
  div_thumbnail_height : string;
  header_textContent : string;
  text_textContent : string
}.

(** A child of the panel's container.  An anchor carries the identity of
    its node. *)
Inductive PanelNode : Type :=
| ItemAnchor (node : nat) (item : FilterItemNode)
| NoHighlightsMessage
| ErrorMessage (message : string).

(** A [PDFFilterView] object: its id, its highlight and its anchor. *)
Record FilterView : Type := {
  view_id : nat;
  view_highlightData : HighlightData;
  view_anchor : nat
}.

(** The parsed content of the highlights file: [null] or an array whose
    entries are highlight records or [null]. *)
Inductive HighlightsJson : Type :=
| JNull
| JArray (entries : list (option HighlightData)).

(** The state of a [PDFFilterViewer] and of its container element.
    [panel_console] counts the calls of [console.error]. *)
Record FilterViewer : Type := {
  panel_children : list PanelNode;
  panel_highlightsData : HighlightsJson;
  panel_filterItems : list FilterView;
  panel_next_node : nat;
  panel_console : nat
}.

Definition new_FilterViewer : FilterViewer :=
  {| panel_children := []; panel_highlightsData := JNull;
     panel_filterItems := []; panel_next_node := 0%nat; panel_console := 0%nat |}.

Definition with_panel_children (ch : list PanelNode) (s : FilterViewer) : FilterViewer :=
  {| panel_children := ch; panel_highlightsData := panel_highlightsData s;
     panel_filterItems := panel_filterItems s;
     panel_next_node := panel_next_node s; panel_console := panel_console s |}.

Definition with_panel_items (items : list FilterView) (s : FilterViewer) : FilterViewer :=
  {| panel_children := panel_children s;
     panel_highlightsData := panel_highlightsData s;
     panel_filterItems := items;
     panel_next_node := panel_next_node s; panel_console := panel_console s |}.

Definition with_panel_data (d : HighlightsJson) (s : FilterViewer) : FilterViewer :=
  {| panel_children := panel_children s; panel_highlightsData := d;
     panel_filterItems := panel_filterItems s;
     panel_next_node := panel_next_node s; panel_console := panel_console s |}.

(** The subtree built by [new PDFFilterView({container, eventBus, id,
    highlightData, linkService})], with [#updateDims()] applied.  The link
    service's [getAnchorUrl] is taken as given. *)
Definition filter_item_node (getAnchorUrl : string -> string) (id : nat)
  (highlightData : HighlightData) : FilterItemNode :=
  {| anchor_href := getAnchorUrl ("#page=" ++ number_text (page highlightData))%string;
     anchor_l10n_id := "pdfjs-filter-item-title";
     div_className := "thumbnail";
     div_data_page_number := number_text (page highlightData);
     div_data_filter_id := number_text (Z.of_nat id);
     div_thumbnail_width := (number_text FILTER_WIDTH ++ "px")%string;
     div_thumbnail_height := "auto";
     header_textContent := ("Page " ++ number_text (page highlightData))%string;
     text_textContent := text highlightData |}.

(** [new PDFFilterView(...)]: build the subtree, append the anchor to the
    container, return the object. *)
Definition new_PDFFilterView (getAnchorUrl : string -> string) (id : nat)
  (highlightData : HighlightData) (s : FilterViewer) : FilterView * FilterViewer :=
  let anchor := panel_next_node s in
  ({| view_id := id; view_highlightData := highlightData; view_anchor := anchor |},
   {| panel_children :=
        panel_children s ++ [ItemAnchor anchor (filter_item_node getAnchorUrl id highlightData)];
      panel_highlightsData := panel_highlightsData s;
      panel_filterItems := panel_filterItems s;
      panel_next_node := S anchor;
      panel_console := panel_console s |}).

(** The getter [pageNumber]. *)
Definition view_pageNumber (v : FilterView) : Z := page (view_highlightData v).

(** The [onclick] handler of the anchor: navigate; the handler returns
    [false], so the link itself is not followed. *)
Definition view_onclick (v : FilterView) (linkService : LinkService)
  : list Effect * bool :=
  (navigateToHighlight (view_highlightData v) linkService, false).

Definition is_anchor_of (node : nat) (n : PanelNode) : bool :=
  match n with
  | ItemAnchor node' _ => Nat.eqb node' node
  | _ => false
  end.

(** [destroy()]: [this.anchor?.remove()]. *)
Definition view_destroy (v : FilterView) (s : FilterViewer) : FilterViewer :=
  with_panel_children
    (filter (fun n => negb (is_anchor_of (view_anchor v) n)) (panel_children s)) s.

(** The [forEach] over the highlights in [#render()].  The constructor
    throws a TypeError on a [null] entry, reading its [page]; the flag
    tells whether that happened. *)
Fixpoint render_items (getAnchorUrl : string -> string)
  (entries : list (option HighlightData)) (index : nat) (s : FilterViewer)
  : FilterViewer * bool :=
  match entries with
  | [] => (s, false)
  | None :: _ => (s, true)
  | Some highlight :: rest =>
      let (filterView, s1) := new_PDFFilterView getAnchorUrl (index + 1) highlight s in
      render_items getAnchorUrl rest (S index)
        (with_panel_items (panel_filterItems s1 ++ [filterView]) s1)
  end.

(** [#render()] *)
Definition panel_render (getAnchorUrl : string -> string) (s : FilterViewer)
  : FilterViewer * bool :=
  let s1 := with_panel_children [] s in
  let s2 := fold_left (fun s' item => view_destroy item s') (panel_filterItems s1) s1 in
  let s3 := with_panel_items [] s2 in
  match panel_highlightsData s3 with
  | JNull | JArray [] => (with_panel_children [NoHighlightsMessage] s3, false)
  | JArray entries => render_items getAnchorUrl entries 0 s3
  end.

(** [#renderError(message)] *)
Definition panel_renderError (message : string) (s : FilterViewer) : FilterViewer :=
  with_panel_children (panel_children s ++ [ErrorMessage message]) s.

(** How the request of [loadHighlights()] ends. *)
Inductive JsonOutcome : Type :=
| JsonRejected (message : string)
| JsonValue (v : HighlightsJson).

Inductive FetchOutcome : Type :=
| FetchRejected (message : string)
| FetchResponse (ok : bool) (statusText : string) (json : JsonOutcome).

(** The [catch] branch of [loadHighlights()]. *)
Definition panel_catch (message : string) (s : FilterViewer) : FilterViewer :=
  panel_renderError message
    {| panel_children := panel_children s;
       panel_highlightsData := panel_highlightsData s;
       panel_filterItems := panel_filterItems s;
       panel_next_node := panel_next_node s;
       panel_console := S (panel_console s) |}.

(** [loadHighlights()], once the request has ended with [outcome].
    [typeErrorMessage] is the text the engine gives the TypeError of a
    [null] entry. *)
Definition loadHighlights (getAnchorUrl : string -> string)
  (typeErrorMessage : string) (outcome : FetchOutcome) (s : FilterViewer)
  : FilterViewer :=
  match outcome with
  | FetchRejected message => panel_catch message s
  | FetchResponse false statusText _ =>
      panel_catch ("Failed to load highlights: " ++ statusText)%string s
  | FetchResponse true _ (JsonRejected message) => panel_catch message s
  | FetchResponse true _ (JsonValue v) =>
      let (s', threw) := panel_render getAnchorUrl (with_panel_data v s) in
      if threw then panel_catch typeErrorMessage s' else s'
  end.

(** [reset()] *)
Definition panel_reset (s : FilterViewer) : FilterViewer :=
  let s1 := with_panel_data JNull s in
  let s2 := fold_left (fun s' item => view_destroy item s') (panel_filterItems s1) s1 in
  with_panel_children [] (with_panel_items [] s2).

(** The anchor of a view, as it stands in the container. *)
Definition anchor_of (getAnchorUrl : string -> string) (v : FilterView) : PanelNode :=
  ItemAnchor (view_anchor v)
             (filter_item_node getAnchorUrl (view_id v) (view_highlightData v)).

(** The views [#render()] makes for a list of highlights, the first with
    id [index + 1] and anchor node [node]. *)
Fixpoint views_for (index node : nat) (highlights : list HighlightData)
  : list FilterView :=
  match highlights with
  | [] => []
  | h :: rest =>
      {| view_id := (index + 1)%nat; view_highlightData := h; view_anchor := node |}
      :: views_for (S index) (S node) rest
  end.

(** ** The tab switcher: PDFTabManager *)

(** The elements the tab manager works on.  A class list is a list of
    tokens without repetition. *)
Record TabButton : Type := {
  button_classList : list string;
  button_opacity : string;
  button_borderBottom : string;
  button_fontWeight : string;
  button_click : list Z
}.

Record TabFrame : Type := {
  frame_display : string;
  frame_src : string
}.

(** The document by element id; [None] when [getElementById] finds
    nothing.  For the two containers only [style.display] matters. *)
Record TabDocument : Type := {
  tabModeContainer : option string;
  outerContainer : option string;
  tab1 : option TabButton;
  tab2 : option TabButton;
  viewerFrame1 : option TabFrame;
  viewerFrame2 : option TabFrame
}.

(** References to the elements of the two tabs. *)
Inductive TabRef : Type :=
| FirstTab
| SecondTab.

Definition get_button (r : TabRef) (doc : TabDocument) : option TabButton :=
  match r with
  | FirstTab => tab1 doc
  | SecondTab => tab2 doc
  end.

Definition get_frame (r : TabRef) (doc : TabDocument) : option TabFrame :=
  match r with
  | FirstTab => viewerFrame1 doc
  | SecondTab => viewerFrame2 doc
  end.

Definition set_button (r : TabRef) (b : TabButton) (doc : TabDocument) : TabDocument :=
  match r with
  | FirstTab =>
      {| tabModeContainer := tabModeContainer doc; outerContainer := outerContainer doc;
         tab1 := Some b; tab2 := tab2 doc;
         viewerFrame1 := viewerFrame1 doc; viewerFrame2 := viewerFrame2 doc |}
  | SecondTab =>
      {| tabModeContainer := tabModeContainer doc; outerContainer := outerContainer doc;
         tab1 := tab1 doc; tab2 := Some b;
         viewerFrame1 := viewerFrame1 doc; viewerFrame2 := viewerFrame2 doc |}
  end.

Definition set_frame (r : TabRef) (f : TabFrame) (doc : TabDocument) : TabDocument :=
  match r with
  | FirstTab =>
      {| tabModeContainer := tabModeContainer doc; outerContainer := outerContainer doc;
         tab1 := tab1 doc; tab2 := tab2 doc;
         viewerFrame1 := Some f; viewerFrame2 := viewerFrame2 doc |}
  | SecondTab =>
      {| tabModeContainer := tabModeContainer doc; outerContainer := outerContainer doc;
         tab1 := tab1 doc; tab2 := tab2 doc;
         viewerFrame1 := viewerFrame1 doc; viewerFrame2 := Some f |}
  end.

(** One entry of [this.tabs]: the button and the frame it refers to
    ([null] until [init] finds them) and the [loaded] flag. *)
Record TabEntry : Type := {
  entry_button : option TabRef;
  entry_frame : option TabRef;
  entry_loaded : bool
}.

Record PDFTabManager : Type := {
  currentTab : Z;
  tabs_1 : TabEntry;
  tabs_2 : TabEntry
}.

(** [new PDFTabManager()] *)
Definition new_PDFTabManager : PDFTabManager :=
  {| currentTab := 1;
     tabs_1 := {| entry_button := None; entry_frame := None; entry_loaded := false |};
     tabs_2 := {| entry_button := None; entry_frame := None; entry_loaded := false |} |}.

(** [this.tabs[n]]: the object has the keys 1 and 2. *)
Definition tabs_get (n : Z) (m : PDFTabManager) : option TabEntry :=
  if (n =? 1)%Z then Some (tabs_1 m)
  else if (n =? 2)%Z then Some (tabs_2 m)
  else None.

Definition classList_remove (token : string) (l : list string) : list string :=
  filter (fun t => negb (String.eqb t token)) l.

Definition classList_add (token : string) (l : list string) : list string :=
  if existsb (String.eqb token) l then l else l ++ [token].

Definition set_frame_display (v : string) (r : option TabRef) (doc : TabDocument)
  : TabDocument :=
  match r with
  | None => doc
  | Some ref =>
      match get_frame ref doc with
      | None => doc
      | Some f => set_frame ref {| frame_display := v; frame_src := frame_src f |} doc
      end
  end.

Definition deactivate_button (r : option TabRef) (doc : TabDocument) : TabDocument :=
  match r with
  | None => doc
  | Some ref =>
      match get_button ref doc with
      | None => doc
      | Some b =>
          set_button ref
            {| button_classList := classList_remove "active" (button_classList b);
               button_opacity := "0.7";
               button_borderBottom := "2px solid transparent";
               button_fontWeight := "normal";
               button_click := button_click b |} doc
      end
  end.

Definition activate_button (r : option TabRef) (doc : TabDocument) : TabDocument :=
  match r with
  | None => doc
  | Some ref =>
      match get_button ref doc with
      | None => doc
      | Some b =>
          set_button ref
            {| button_classList := classList_add "active" (button_classList b);
               button_opacity := "1";
               button_borderBottom := "2px solid var(--progressBar-color, #0a84ff)";
               button_fontWeight := "500";
               button_click := button_click b |} doc
      end
  end.

Definition mark_loaded (n : Z) (m : PDFTabManager) : PDFTabManager :=
  let loaded e := {| entry_button := entry_button e; entry_frame := entry_frame e;
                     entry_loaded := true |} in
  {| currentTab := n;
     tabs_1 := if (n =? 1)%Z then loaded (tabs_1 m) else tabs_1 m;
     tabs_2 := if (n =? 1)%Z then tabs_2 m
               else if (n =? 2)%Z then loaded (tabs_2 m) else tabs_2 m |}.

(** [switchToTab(tabNumber)].  Reading a property of [this.tabs[n]] for an
    [n] that is no key throws a TypeError; what was done before stays. *)
Definition switchToTab (tabNumber : Z) (m : PDFTabManager) (doc : TabDocument)
  : completion (PDFTabManager * TabDocument) * (PDFTabManager * TabDocument) :=
  if (currentTab m =? tabNumber)%Z then (Normal (m, doc), (m, doc))
  else
    match tabs_get (currentTab m) m with
    | None => (Throw TypeError, (m, doc))
    | Some current =>
        let doc1 := set_frame_display "none" (entry_frame current) doc in
        match tabs_get tabNumber m with
        | None => (Throw TypeError, (m, doc1))
        | Some target =>
            let doc2 := set_frame_display "block" (entry_frame target) doc1 in
            let doc3 := deactivate_button (entry_button current) doc2 in
            let doc4 := activate_button (entry_button target) doc3 in
            let m' := mark_loaded tabNumber m in
            (Normal (m', doc4), (m', doc4))
        end
    end.

(** The state a call of [switchToTab] leaves, thrown or not. *)
Definition after_switch (tabNumber : Z) (st : PDFTabManager * TabDocument)
  : PDFTabManager * TabDocument :=
  snd (switchToTab tabNumber (fst st) (snd st)).

(** What the platform provides to [init]: the URL classes and
    [encodeURIComponent].  [new_URL] gives [None] when the constructor
    throws. *)
Record Platform : Type := {
  URL : Type;
  URLSearchParams_get : string -> string -> option string;
  new_URL : string -> string -> option URL;
  searchParams_has : URL -> string -> bool;
  searchParams_set : URL -> string -> string -> URL;
  URL_toString : URL -> string;
  encodeURIComponent : string -> string
}.

(** [window] as [init] reads it. *)
Record TabWindow : Type := {
  isInIframe : bool;
  location_search : string;
  location_origin : string;
  location_pathname : string;
  location_href : string
}.

Definition DEFAULT_PDF : string := "compressed.tracemonkey-pldi-09.pdf".

Definition nonempty (s : string) : bool :=
  match s with
  | EmptyString => false
  | String _ _ => true
  end.

(** [o || d] for a string or [null]. *)
Definition or_default (o : option string) (d : string) : string :=
  match o with
  | Some s => if nonempty s then s else d
  | None => d
  end.

(** Truthiness of a string or [null]. *)
Definition truthy_string (o : option string) : bool :=
  match o with
  | Some s => nonempty s
  | None => false
  end.

Definition is_char (c : ascii) (d : ascii) : bool := Ascii.eqb c d.

(** [s.includes(c)] for a one-character [c]. *)
Fixpoint includes_char (c : ascii) (s : string) : bool :=
  match s with
  | EmptyString => false
  | String d rest => is_char c d || includes_char c rest
  end.

(** The text before the first [c]. *)
Fixpoint until_char (c : ascii) (s : string) : string :=
  match s with
  | EmptyString => EmptyString
  | String d rest => if is_char c d then EmptyString else String d (until_char c rest)
  end.

(** [s.split('?')[1] || '']: the text between the first and the second
    question mark. *)
Fixpoint split_second (s : string) : string :=
  match s with
  | EmptyString => EmptyString
  | String d rest =>
      if is_char "?"%char d then until_char "?"%char rest else split_second rest
  end.

(** The prefix of [s] through its last slash, when it has one. *)
Fixpoint through_last_slash (s : string) : option string :=
  match s with
  | EmptyString => None
  | String d rest =>
      match through_last_slash rest with
      | Some p => Some (String d p)
      | None => if is_char "/"%char d then Some (String d EmptyString) else None
      end
  end.

(** [pathname.replace(/\/[^/]*$/, '/')] *)
Definition replace_last_segment (pathname : string) : string :=
  match through_last_slash pathname with
  | Some p => p
  | None => pathname
  end.

Definition baseUrl (win : TabWindow) : string :=
  (location_origin win ++ replace_last_segment (location_pathname win))%string.

Definition viewer_url (P : Platform) (win : TabWindow) (pdfFile : string) : string :=
  (baseUrl win ++ "viewer.html?file=" ++ encodeURIComponent P pdfFile
   ++ "&disableAutoFetch=true")%string.

(** The file chosen for a tab: the URL parameter, else the [file]
    parameter of the frame's [src], else the default. *)
Definition choose_pdf (P : Platform) (param : option string) (frame : TabFrame)
  : string :=
  if negb (truthy_string param) && nonempty (frame_src frame)
  then or_default (URLSearchParams_get P (split_second (frame_src frame)) "file")
                  DEFAULT_PDF
  else if negb (truthy_string param) then DEFAULT_PDF
  else or_default param DEFAULT_PDF.

(** [ensureDisableAutoFetch(frame, pdfFile)] for a frame that exists. *)
Definition ensureDisableAutoFetch (P : Platform) (win : TabWindow)
  (frame : TabFrame) (pdfFile : string) : TabFrame :=
  if nonempty (frame_src frame)
  then
    match new_URL P (frame_src frame) (location_href win) with
    | Some url =>
        if searchParams_has P url "disableAutoFetch" then frame
        else {| frame_display := frame_display frame;
                frame_src := URL_toString P
                               (searchParams_set P url "disableAutoFetch" "true") |}
    | None =>
        let separator := if includes_char "?"%char (frame_src frame) then "&" else "?" in
        {| frame_display := frame_display frame;
           frame_src := (frame_src frame ++ separator ++ "disableAutoFetch=true")%string |}
    end
  else {| frame_display := frame_display frame;
          frame_src := viewer_url P win pdfFile |}.

(** What [ensureDisableAutoFetch(frame, pdfFile)] writes with
    [console.log]: one line naming the new [src] whenever it sets one. *)
Definition ensureDisableAutoFetch_log (P : Platform) (win : TabWindow)
  (frame : TabFrame) (pdfFile : string) : list string :=
  let src' := frame_src (ensureDisableAutoFetch P win frame pdfFile) in
  if nonempty (frame_src frame)
  then
    match new_URL P (frame_src frame) (location_href win) with
    | Some url =>
        if searchParams_has P url "disableAutoFetch" then []
        else [("Tab Manager: Added disableAutoFetch to iframe, URL: " ++ src')%string]
    | None =>
        [("Tab Manager: Added disableAutoFetch to iframe (fallback), URL: "
          ++ src')%string]
    end
  else [("Tab Manager: Set iframe src with disableAutoFetch, URL: " ++ src')%string].

(** The part of [init] that gives one frame its [src]. *)
Definition init_frame_src (P : Platform) (win : TabWindow) (paramName : string)
  (frame : TabFrame) : TabFrame :=
  let param := URLSearchParams_get P (location_search win) paramName in
  let pdf := choose_pdf P param frame in
  if truthy_string param
  then {| frame_display := frame_display frame; frame_src := viewer_url P win pdf |}
  else ensureDisableAutoFetch P win frame pdf.

(** What that part writes with [console.log]; [label] is "PDF1" or
    "PDF2". *)
Definition init_frame_log (P : Platform) (win : TabWindow) (paramName label : string)
  (frame : TabFrame) : list string :=
  let param := URLSearchParams_get P (location_search win) paramName in
  let pdf := choose_pdf P param frame in
  if truthy_string param
  then [("Tab Manager: " ++ label ++ " iframe src set: " ++ viewer_url P win pdf)%string]
  else ensureDisableAutoFetch_log P win frame pdf.

Definition set_box_display (v : string) (box : option string) : option string :=
  match box with
  | Some _ => Some v
  | None => None
  end.

Definition add_click (n : Z) (b : TabButton) : TabButton :=
  {| button_classList := button_classList b;
     button_opacity := button_opacity b;
     button_borderBottom := button_borderBottom b;
     button_fontWeight := button_fontWeight b;
     button_click := button_click b ++ [n] |}.

Definition found {A : Type} (r : TabRef) (o : option A) : option TabRef :=
  match o with
  | Some _ => Some r
  | None => None
  end.

(** The result of [init()]: the manager, the document, the number of
    calls of [console.error] and the lines written with [console.log], in
    order. *)
Record InitResult : Type := {
  init_manager : PDFTabManager;
  init_document : TabDocument;
  init_errors : nat;
  init_logs : list string
}.

(** [init()] *)
Definition tab_init (P : Platform) (win : TabWindow) (m : PDFTabManager)
  (doc : TabDocument) : InitResult :=
  if isInIframe win
  then
    {| init_manager := m;
       init_document :=
         {| tabModeContainer := set_box_display "none" (tabModeContainer doc);
            outerContainer := set_box_display "block" (outerContainer doc);
            tab1 := tab1 doc; tab2 := tab2 doc;
            viewerFrame1 := viewerFrame1 doc; viewerFrame2 := viewerFrame2 doc |};
       init_errors := 0%nat;
       init_logs := [] |}
  else
    let doc1 :=
      {| tabModeContainer := set_box_display "block" (tabModeContainer doc);
         outerContainer := set_box_display "none" (outerContainer doc);
         tab1 := tab1 doc; tab2 := tab2 doc;
         viewerFrame1 := viewerFrame1 doc; viewerFrame2 := viewerFrame2 doc |} in
    let m1 :=
      {| currentTab := currentTab m;
         tabs_1 := {| entry_button := found FirstTab (tab1 doc);
                      entry_frame := found FirstTab (viewerFrame1 doc);
                      entry_loaded := entry_loaded (tabs_1 m) |};
         tabs_2 := {| entry_button := found SecondTab (tab2 doc);
                      entry_frame := found SecondTab (viewerFrame2 doc);
                      entry_loaded := entry_loaded (tabs_2 m) |} |} in
    match tab1 doc, tab2 doc, viewerFrame1 doc, viewerFrame2 doc with
    | Some b1, Some b2, Some f1, Some f2 =>
        let doc2 :=
          {| tabModeContainer := tabModeContainer doc1;
             outerContainer := outerContainer doc1;
             tab1 := Some (add_click 1 b1); tab2 := Some (add_click 2 b2);
             viewerFrame1 := Some (init_frame_src P win "pdf1" f1);
             viewerFrame2 := Some (init_frame_src P win "pdf2" f2) |} in
        let st := after_switch 1 (m1, doc2) in
        {| init_manager := fst st; init_document := snd st; init_errors := 0%nat;
           init_logs := init_frame_log P win "pdf1" "PDF1" f1
                        ++ init_frame_log P win "pdf2" "PDF2" f2 |}
    | _, _, _, _ =>
        {| init_manager := m1; init_document := doc1; init_errors := 1%nat;
           init_logs := [] |}
    end.

(** A click on a tab button runs its listeners in order. *)
Definition click_button (r : TabRef) (st : PDFTabManager * TabDocument)
  : PDFTabManager * TabDocument :=
  match get_button r (snd st) with
  | None => st
  | Some b => fold_left (fun st' n => after_switch n st') (button_click b) st
  end.

(** The manager refers to the four elements and they exist. *)
Definition tabs_bound (st : PDFTabManager * TabDocument) : Prop :=
  tabs_1 (fst st) = {| entry_button := Some FirstTab; entry_frame := Some FirstTab;
                       entry_loaded := entry_loaded (tabs_1 (fst st)) |}
  /\ tabs_2 (fst st) = {| entry_button := Some SecondTab; entry_frame := Some SecondTab;
                          entry_loaded := entry_loaded (tabs_2 (fst st)) |}
  /\ tab1 (snd st) <> None /\ tab2 (snd st) <> None
  /\ viewerFrame1 (snd st) <> None /\ viewerFrame2 (snd st) <> None.

Definition tab_ref (n : Z) : TabRef := if (n =? 1)%Z then FirstTab else SecondTab.

Definition other_ref (r : TabRef) : TabRef :=
  match r with
  | FirstTab => SecondTab
  | SecondTab => FirstTab
  end.

Definition frame_shows (v : string) (r : TabRef) (doc : TabDocument) : Prop :=
  exists f, get_frame r doc = Some f /\ frame_display f = v.

Definition button_active (r : TabRef) (doc : TabDocument) : Prop :=
  exists b, get_button r doc = Some b /\ In "active" (button_classList b).

(** Exactly the current tab is shown and marked. *)
Definition tabs_consistent (st : PDFTabManager * TabDocument) : Prop :=
  let cur := tab_ref (currentTab (fst st)) in
  frame_shows "block" cur (snd st)
  /\ frame_shows "none" (other_ref cur) (snd st)
  /\ button_active cur (snd st)
  /\ ~ button_active (other_ref cur) (snd st).

(** ** Fixtures for the tab switcher *)

Definition plain_button : TabButton :=
  {| button_classList := ["tabButton"]; button_opacity := EmptyString;
     button_borderBottom := EmptyString; button_fontWeight := EmptyString;
     button_click := [] |}.

Definition sample_tab_document : TabDocument :=
  {| tabModeContainer := Some "none"; outerContainer := Some "block";
     tab1 := Some plain_button; tab2 := Some plain_button;
     viewerFrame1 := Some {| frame_display := "block"; frame_src := EmptyString |};
     viewerFrame2 := Some {| frame_display := "none"; frame_src := "b.html?file=b.pdf" |} |}.

(** A platform whose URL constructor always throws and whose query strings
    hold no parameter. *)
Definition bare_platform : Platform :=
  {| URL := unit;
     URLSearchParams_get := fun _ _ => None;
     new_URL := fun _ _ => None;
     searchParams_has := fun _ _ => false;
     searchParams_set := fun u _ _ => u;
     URL_toString := fun _ => EmptyString;
     encodeURIComponent := fun s => s |}.

Definition sample_tab_window : TabWindow :=
  {| isInIframe := false; location_search := EmptyString;
     location_origin := "http://localhost:8888";
     location_pathname := "/web/viewer.html";
     location_href := "http://localhost:8888/web/viewer.html" |}.

Definition initialised_tabs : PDFTabManager * TabDocument :=
  let r := tab_init bare_platform sample_tab_window new_PDFTabManager
                    sample_tab_document in
  (init_manager r, init_document r).

(** What of a document no switch touches: the two containers, the frames'
    [src] and the buttons' listeners. *)
Definition untouched_by_switch (doc doc' : TabDocument) : Prop :=
  tabModeContainer doc' = tabModeContainer doc
  /\ outerContainer doc' = outerContainer doc
  /\ (forall r, option_map frame_src (get_frame r doc')
               = option_map frame_src (get_frame r doc))
  /\ (forall r, option_map button_click (get_button r doc')
               = option_map button_click (get_button r doc)).

(** What of a manager a switch keeps: the references of its entries, and
    a [loaded] flag once it is set. *)
Definition entries_kept (m m' : PDFTabManager) : Prop :=
  entry_button (tabs_1 m') = entry_button (tabs_1 m)
  /\ entry_frame (tabs_1 m') = entry_frame (tabs_1 m)
  /\ entry_button (tabs_2 m') = entry_button (tabs_2 m)
  /\ entry_frame (tabs_2 m') = entry_frame (tabs_2 m)
  /\ (entry_loaded (tabs_1 m) = true -> entry_loaded (tabs_1 m') = true)
  /\ (entry_loaded (tabs_2 m) = true -> entry_loaded (tabs_2 m') = true).

(** ** The icon generator *)

Record Icon : Type := {
  icon_name : string;
  icon_size : nat
}.

(** [iOSIconSizes] *)
Definition iOSIconSizes : list Icon :=
  [ {| icon_name := "Icon-App-20x20@2x.png"; icon_size := 40 |};
    {| icon_name := "Icon-App-20x20@3x.png"; icon_size := 60 |};
    {| icon_name := "Icon-App-29x29@2x.png"; icon_size := 58 |};
    {| icon_name := "Icon-App-29x29@3x.png"; icon_size := 87 |};
    {| icon_name := "Icon-App-40x40@2x.png"; icon_size := 80 |};
    {| icon_name := "Icon-App-40x40@3x.png"; icon_size := 120 |};
    {| icon_name := "Icon-App-60x60@2x.png"; icon_size := 120 |};
    {| icon_name := "Icon-App-60x60@3x.png"; icon_size := 180 |};
    {| icon_name := "Icon-App-20x20@1x.png"; icon_size := 20 |};
    {| icon_name := "Icon-App-20x20@2x.png"; icon_size := 40 |};
    {| icon_name := "Icon-App-29x29@1x.png"; icon_size := 29 |};
    {| icon_name := "Icon-App-29x29@2x.png"; icon_size := 58 |};
    {| icon_name := "Icon-App-40x40@1x.png"; icon_size := 40 |};
    {| icon_name := "Icon-App-40x40@2x.png"; icon_size := 80 |};
    {| icon_name := "Icon-App-76x76@1x.png"; icon_size := 76 |};
    {| icon_name := "Icon-App-76x76@2x.png"; icon_size := 152 |};
    {| icon_name := "Icon-App-83.5x83.5@2x.png"; icon_size := 167 |};
    {| icon_name := "Icon-App-1024x1024@1x.png"; icon_size := 1024 |} ]%nat.

(** [s.includes(needle)] *)
Fixpoint includes (needle s : string) : bool :=
  String.prefix needle s
  || match s with
     | EmptyString => false
     | String _ rest => includes needle rest
     end.

(** [getIconIdiom(filename)] *)
Definition getIconIdiom (filename : string) : string :=
  if includes "83.5" filename then "ipad"
  else if includes "76" filename then "ipad"
  else if includes "1024" filename then "ios-marketing"
  else if includes "@1x" filename then "ipad"
  else "iphone".

(** [getIconScale(filename)] *)
Definition getIconScale (filename : string) : string :=
  if includes "@3x" filename then "3x"
  else if includes "@2x" filename then "2x"
  else "1x".

(** [\d] *)
Definition is_digit (c : ascii) : bool :=
  (48 <=? nat_of_ascii c)%nat && (nat_of_ascii c <=? 57)%nat.

(** The longest run of digits [s] starts with, and what follows it. *)
Fixpoint take_digits (s : string) : string * string :=
  match s with
  | EmptyString => (EmptyString, EmptyString)
  | String c rest =>
      if is_digit c
      then let (d, r) := take_digits rest in (String c d, r)
      else (EmptyString, s)
  end.

(** [\d+(?:\.\d+)?] at the start of [s], greedy: the text matched and
    what follows it. *)
Definition match_number (s : string) : option (string * string) :=
  let (d, r) := take_digits s in
  if nonempty d
  then
    match r with
    | String c r' =>
        if Ascii.eqb c "."%char
        then let (f, r'') := take_digits r' in
             if nonempty f then Some ((d ++ "." ++ f)%string, r'') else Some (d, r)
        else Some (d, r)
    | EmptyString => Some (d, r)
    end
  else None.

(** [(\d+(?:\.\d+)?)x(\d+(?:\.\d+)?)] at the start of [s]: the two
    groups.  A shorter first number is followed by a digit or a dot, never
    by the "x", so the greedy first number is the only one to try. *)
Definition match_size_here (s : string) : option (string * string) :=
  match match_number s with
  | Some (a, String c r) =>
      if Ascii.eqb c "x"%char
      then match match_number r with
           | Some (b, _) => Some (a, b)
           | None => None
           end
      else None
  | _ => None
  end.

(** [filename.match(...)]: the leftmost match. *)
Fixpoint match_size (s : string) : option (string * string) :=
  match match_size_here s with
  | Some m => Some m
  | None =>
      match s with
      | EmptyString => None
      | String _ rest => match_size rest
      end
  end.

(** [getIconSize(filename)] *)
Definition getIconSize (filename : string) : string :=
  match match_size filename with
  | Some (a, b) => (a ++ "x" ++ b)%string
  | None => "20x20"
  end.

(** An entry of [images] in Contents.json. *)
Record ImageEntry : Type := {
  image_filename : string;
  image_idiom : string;
  image_scale : string;
  image_size : string
}.

(** The [contents] object of [generateContentsJson]. *)
Definition contents_images : list ImageEntry :=
  map (fun icon =>
         {| image_filename := icon_name icon;
            image_idiom := getIconIdiom (icon_name icon);
            image_scale := getIconScale (icon_name icon);
            image_size := getIconSize (icon_name icon) |})
      iOSIconSizes.

(** What [generateIcon] did when it did not throw. *)
Inductive IconAction : Type :=
| Copied
| Resized.

(** [generateIcon(inputPath, outputPath, size, sourceMetadata)]: a source
    of exactly the wanted size is copied, any other is resized.  [io_ok]
    tells whether the file operations of this call succeed; when they do
    not the function throws. *)
Definition generateIcon (io_ok : bool) (size : nat) (sourceMetadata : nat * nat)
  : option IconAction :=
  if io_ok
  then Some (if (fst sourceMetadata =? size)%nat && (snd sourceMetadata =? size)%nat
             then Copied else Resized)
  else None.

(** The counters of [main] and the files written, latest last. *)
Record IconRun : Type := {
  successCount : nat;
  failCount : nat;
  copiedCount : nat;
  written : list (string * IconAction)
}.

(** What the script finds outside: the file system and the image library.
    [icon_io_ok i] tells whether the file operations for the [i]-th row of
    the table succeed.  Console output is not part of the model. *)
Record IconEnv : Type := {
  existsSync : string -> bool;
  mkdir_ok : string -> bool;
  metadata : string -> option (nat * nat);
  icon_io_ok : nat -> bool;
  contents_io_ok : bool;
  path_join : string -> string -> string;
  script_dirname : string
}.

(** The loop of [main] over the table. *)
Fixpoint icon_loop (env : IconEnv) (outputDir : string) (sourceMetadata : nat * nat)
  (icons : list Icon) (index : nat) (run : IconRun) : IconRun :=
  match icons with
  | [] => run
  | icon :: rest =>
      let outputPath := path_join env outputDir (icon_name icon) in
      let wasCopied := (fst sourceMetadata =? icon_size icon)%nat
                       && (snd sourceMetadata =? icon_size icon)%nat in
      let run' :=
        match generateIcon (icon_io_ok env index) (icon_size icon) sourceMetadata with
        | Some action =>
            {| successCount := S (successCount run);
               failCount := failCount run;
               copiedCount := if wasCopied then S (copiedCount run)
                              else copiedCount run;
               written := written run ++ [(outputPath, action)] |}
        | None =>
            {| successCount := successCount run;
               failCount := S (failCount run);
               copiedCount := copiedCount run;
               written := written run |}
        end in
      icon_loop env outputDir sourceMetadata rest (S index) run'
  end.

(** How [main] ends: with [process.exit(1)] before any icon is made, or
    after the loop, with Contents.json written or, when that write fails,
    with the exit code 1 of the last [catch]. *)
Inductive MainResult : Type :=
| ExitUsage
| ExitMissingInput
| ExitMkdirFailed
| ExitUnreadableInput
| Finished (run : IconRun) (smallSourceWarning : bool)
           (contentsPath : string) (images : list ImageEntry)
| ExitContentsFailed (run : IconRun).

Definition empty_run : IconRun :=
  {| successCount := 0; failCount := 0; copiedCount := 0; written := [] |}.

(** [args[1] || join(__dirname, 'ios-icons')], on the arguments after the
    first. *)
Definition output_dir (env : IconEnv) (more : list string) : string :=
  match more with
  | dir :: _ =>
      if nonempty dir then dir else path_join env (script_dirname env) "ios-icons"
  | [] => path_join env (script_dirname env) "ios-icons"
  end.

(** [main()], on [process.argv.slice(2)]. *)
Definition icon_main (env : IconEnv) (args : list string) : MainResult :=
  match args with
  | [] => ExitUsage
  | inputPath :: more =>
      let outputDir := output_dir env more in
      if negb (existsSync env inputPath) then ExitMissingInput
      else if negb (mkdir_ok env outputDir) then ExitMkdirFailed
      else
        match metadata env inputPath with
        | None => ExitUnreadableInput
        | Some sourceMetadata =>
            let run := icon_loop env outputDir sourceMetadata iOSIconSizes 0 empty_run in
            let warning := (fst sourceMetadata <? 1024)%nat
                           || (snd sourceMetadata <? 1024)%nat in
            if contents_io_ok env
            then Finished run warning (path_join env outputDir "Contents.json")
                          contents_images
            else ExitContentsFailed run
        end
  end.

(** A numeral as the pattern of [getIconSize] reads it: digits, or digits,
    a dot and digits. *)
Fixpoint all_digits (s : string) : bool :=
  match s with
  | EmptyString => true
  | String c rest => is_digit c && all_digits rest
  end.

Definition digit_string (s : string) : Prop := nonempty s = true /\ all_digits s = true.

Definition numeral (s : string) : Prop :=
  digit_string s
  \/ exists d f, digit_string d /\ digit_string f /\ s = (d ++ "." ++ f)%string.

(** No digit occurs in [s]. *)
Fixpoint digit_free (s : string) : bool :=
  match s with
  | EmptyString => true
  | String c rest => negb (is_digit c) && digit_free rest
  end.

(** [s] is empty or starts with something that is neither a digit nor a
    dot. *)
Definition ends_numeral (s : string) : bool :=
  match s with
  | EmptyString => true
  | String c _ => negb (is_digit c) && negb (Ascii.eqb c "."%char)
  end.

(** The rows of the table whose side is [side]. *)
Definition rows_of_size (side : nat) : list Icon :=
  filter (fun icon => (icon_size icon =? side)%nat) iOSIconSizes.

(** An environment in which everything succeeds, paths are joined with a
    slash and every source is 1024 pixels square. *)
Definition kind_env : IconEnv :=
  {| existsSync := fun _ => true;
     mkdir_ok := fun _ => true;
     metadata := fun _ => Some (1024%nat, 1024%nat);
     icon_io_ok := fun _ => true;
     contents_io_ok := true;
     path_join := fun a b => (a ++ "/" ++ b)%string;
     script_dirname := "/tools" |}.

(** ** Requests that cannot throw *)

(** A call whose location, if it has one, is neither [null] nor
    [undefined]. *)
Definition location_given (c : Call) : Prop :=
  match c with
  | ShowHighlight _ location => nullish location = false
  | _ => True
  end.

Definition callback_location_given (tm : Timer) : Prop :=
  match callback tm with
  | CreateOverlay _ location => nullish location = false
  | RemoveOverlay => True
  end.

(** ** Basic facts *)

Lemma Math_min_comm (a b : number) : num_eq (Math_min a b) (Math_min b a).
Proof.
  destruct a as [|p], b as [|q]; cbn [Math_min num_eq]; trivial.
  apply Q.min_comm.
Qed.

Lemma Math_abs_sub_swap (a b : number) :
  num_eq (Math_abs (num_sub a b)) (Math_abs (num_sub b a)).
Proof.
  destruct a as [|p], b as [|q]; cbn [num_sub Math_abs num_eq]; trivial.
  rewrite Qabs_Qminus. reflexivity.
Qed.

Lemma overlay_style_swap (p q : number * number) :
  same_box (overlay_style p q) (overlay_style q p).
Proof.
  unfold same_box, overlay_style; simpl.
  repeat split; auto using Math_min_comm, Math_abs_sub_swap.
Qed.

Lemma corner_points_rect (vp : PageViewport) (x y width height : Q) :
  corner_points vp (PNumber (Fin x)) (PNumber (Fin y))
                (PNumber (Fin width)) (PNumber (Fin height))
  = (fin_point (convertToViewportPoint vp x (y + height)),
     fin_point (convertToViewportPoint vp (x + width) y)).
Proof.
  unfold corner_points, viewport_point, fin_point; simpl.
  destruct (convertToViewportPoint vp x (y + height)),
           (convertToViewportPoint vp (x + width) y); reflexivity.
Qed.

Lemma nth_error_snoc {A : Type} (l : list A) (a : A) :
  nth_error (l ++ [a]) (List.length l) = Some a.
Proof.
  rewrite nth_error_app2 by apply Nat.le_refl.
  rewrite Nat.sub_diag. reflexivity.
Qed.

(** What [createOverlayElement] does on a page view with a container
    and a location record of four finite numbers. *)
Lemma createOverlayElement_rect (vp : PageViewport) (x y width height : Q)
  (container : nat) (w : World) :
  let topLeft := fin_point (convertToViewportPoint vp x (y + height)) in
  let bottomRight := fin_point (convertToViewportPoint vp (x + width) y) in
  let overlay := List.length (elements w) in
  let el := {| className := "filterHighlightOverlay";
               style := overlay_style topLeft bottomRight |} in
  createOverlayElement {| div := Some container; viewport := vp |}
                       (rect x y width height) w
  = Normal (Some overlay,
            requestAnimationFrame overlay
              (with_children (children w ++ [(container, overlay)])
                 (with_elements (elements w ++ [el]) w))).
Proof.
  intros. unfold createOverlayElement. cbn [div viewport rect location_record
    destructure_location get_prop String.eqb Ascii.eqb Bool.eqb].
  rewrite corner_points_rect. reflexivity.
Qed.

(** C1: with the identity transform the rectangle
    [{x:10, y:-50, width:20, height:-30}] has left 10, right 30, bottom -50
    and top -80; the corners handed to the style are (10,-80) and
    (30,-50); the overlay appended to the page container has position
    (10,-80) and size (20,30). *)
Theorem identity_transform_example :
  (forall (vp : PageViewport) (x y width height : Q),
     corner_points vp (PNumber (Fin x)) (PNumber (Fin y))
                   (PNumber (Fin width)) (PNumber (Fin height))
     = (fin_point (convertToViewportPoint vp x (y + height)),
        fin_point (convertToViewportPoint vp (x + width) y)))
  /\ corner_points identity_viewport (PNumber (Fin 10)) (PNumber (Fin (-50)))
                   (PNumber (Fin 20)) (PNumber (Fin (-30)))
     = ((Fin 10, Fin (-80)), (Fin 30, Fin (-50)))
  /\ forall (container : nat) (w : World),
       exists el w',
         createOverlayElement {| div := Some container; viewport := identity_viewport |}
                              (rect 10 (-50) 20 (-30)) w
         = Normal (Some (List.length (elements w)), w')
         /\ nth_error (elements w') (List.length (elements w)) = Some el
         /\ children w' = children w ++ [(container, List.length (elements w))]
         /\ style_left (style el) = Px (Fin 10)
         /\ style_top (style el) = Px (Fin (-80))
         /\ style_width (style el) = Px (Fin 20)
         /\ style_height (style el) = Px (Fin 30).
Proof.
  split; [exact corner_points_rect|]. split; [reflexivity|].
  intros container w. eexists. eexists.
  split; [apply createOverlayElement_rect|].
  cbn [requestAnimationFrame with_frames with_children with_elements
       elements children].
  split; [apply nth_error_snoc|].
  repeat split.
Qed.

(** C2: for every rectangle and every viewport transform the overlay's
    left and top are the component-wise minimum of the two transformed
    corner points and its width and height the absolute component-wise
    differences, hence non-negative; and exchanging the two points, whatever
    they are, gives the same box. *)
Theorem overlay_box_min_abs :
  (forall (vp : PageViewport) (x y width height : Q) (container : nat) (w : World),
     let topLeft := convertToViewportPoint vp x (y + height) in
     let bottomRight := convertToViewportPoint vp (x + width) y in
     exists el w',
       createOverlayElement {| div := Some container; viewport := vp |}
                            (rect x y width height) w
       = Normal (Some (List.length (elements w)), w')
       /\ nth_error (elements w') (List.length (elements w)) = Some el
       /\ style el = overlay_style (fin_point topLeft) (fin_point bottomRight)
       /\ style_left (style el) = Px (Fin (Qmin (fst topLeft) (fst bottomRight)))
       /\ style_top (style el) = Px (Fin (Qmin (snd topLeft) (snd bottomRight)))
       /\ style_width (style el) = Px (Fin (Qabs (fst bottomRight - fst topLeft)))
       /\ style_height (style el) = Px (Fin (Qabs (snd bottomRight - snd topLeft)))
       /\ 0 <= Qabs (fst bottomRight - fst topLeft)
       /\ 0 <= Qabs (snd bottomRight - snd topLeft))
  /\ (forall p q : number * number,
        same_box (overlay_style p q) (overlay_style q p)).
Proof.
  split; [|exact overlay_style_swap].
  intros vp x y width height container w topLeft bottomRight.
  eexists. eexists.
  split; [apply createOverlayElement_rect|].
  cbn [requestAnimationFrame with_frames with_children with_elements
       elements children].
  split; [apply nth_error_snoc|].
  cbn [style overlay_style style_left style_top style_width style_height
       fin_point fst snd Math_min Math_abs num_sub].
  repeat split; apply Qabs_nonneg.
Qed.

(** ** Elements, nodes and the timer queue *)

Lemma update_element_nth (r : nat) (f : Element -> Element) :
  forall (els : list Element) (e : Element),
    nth_error els r = Some e ->
    nth_error (update_element r f els) r = Some (f e).
Proof.
  induction r as [|r IH]; intros [|e0 els] e H; simpl in *; try discriminate.
  - congruence.
  - auto.
Qed.



Lemma remove_node_gone (r : nat) (ch : list (nat * nat)) :
  ~ In r (map snd (remove_node r ch)).
Proof.
  unfold remove_node. intros H. apply in_map_iff in H.
  destruct H as [[c x] [Hx Hin]]. simpl in Hx. subst x.
  apply filter_In in Hin. destruct Hin as [_ Hb]. simpl in Hb.
  rewrite Nat.eqb_refl in Hb. discriminate.
Qed.

Lemma insert_timer_In (t tm : Timer) (ts : list Timer) :
  In tm (insert_timer t ts) <-> tm = t \/ In tm ts.
Proof.
  induction ts as [|u ts IH]; simpl.
  - intuition.
  - destruct (due u <=? due t)%nat; simpl; rewrite ?IH; intuition.
Qed.

Lemma insert_timer_Forall (P : Timer -> Prop) (t : Timer) (ts : list Timer) :
  P t -> Forall P ts -> Forall P (insert_timer t ts).
Proof.
  intros Ht Hts. apply Forall_forall. intros tm Hin.
  apply insert_timer_In in Hin. destruct Hin as [->|Hin]; trivial.
  now apply (proj1 (Forall_forall P ts) Hts).
Qed.

Lemma insert_timer_sorted (t : Timer) (ts : list Timer) :
  StronglySorted due_le ts -> StronglySorted due_le (insert_timer t ts).
Proof.
  induction ts as [|u ts IH]; intros Hs; simpl.
  - constructor; constructor.
  - inversion Hs as [|? ? Hs' Hall]; subst.
    destruct (due u <=? due t)%nat eqn:E.
    + apply Nat.leb_le in E. constructor; auto.
      apply insert_timer_Forall; trivial.
    + apply Nat.leb_gt in E. constructor; trivial.
      constructor.
      * unfold due_le. lia.
      * eapply Forall_impl; [|exact Hall].
        unfold due_le. intros a Ha. lia.
Qed.

(** No callback sets or drops a timer, moves the clock or touches the
    global object. *)
Lemma createOverlayElement_frame (pv : PageView) (location : jsvalue)
  (w w' : World) (r : option nat) :
  createOverlayElement pv location w = Normal (r, w') ->
  timers w' = timers w /\ now w' = now w /\ window w' = window w
  /\ uncaught w' = uncaught w /\ currentOverlay w' = currentOverlay w.
Proof.
  unfold createOverlayElement.
  destruct (div pv) as [c|]; [|intros H; inversion H; subst; auto].
  destruct (destructure_location location) as [[[[x y] wd] h]|e]; [|discriminate].
  destruct (corner_points _ _ _ _ _) as [tl br].
  intros H; inversion H; subst; simpl; auto.
Qed.

Lemma run_callback_frame (cb : Callback) (w : World) :
  timers (run_callback cb w) = timers w /\ now (run_callback cb w) = now w
  /\ window (run_callback cb w) = window w.
Proof.
  destruct cb as [p l|]; simpl.
  - unfold create_callback.
    destruct (getPageView (window w) p) as [pv|]; auto.
    destruct (createOverlayElement pv l w) as [[[o|] w']|e] eqn:E; simpl; auto;
      apply createOverlayElement_frame in E; intuition.
  - unfold remove_callback. destruct (currentOverlay w); simpl; auto.
Qed.

Lemma clearHighlight_none (w : World) :
  currentOverlay w = None -> clearHighlight w = w.
Proof. unfold clearHighlight. now intros ->. Qed.

Lemma clearHighlight_some (w : World) (o : nat) :
  currentOverlay w = Some o ->
  clearHighlight w
  = setTimeout RemoveOverlay FADE_DELAY
      (with_elements (update_element o (set_opacity "0") (elements w)) w).
Proof. unfold clearHighlight. now intros ->. Qed.

Lemma clearHighlight_frame (w : World) :
  children (clearHighlight w) = children w
  /\ currentOverlay (clearHighlight w) = currentOverlay w
  /\ now (clearHighlight w) = now w
  /\ window (clearHighlight w) = window w
  /\ uncaught (clearHighlight w) = uncaught w
  /\ frames (clearHighlight w) = frames w.
Proof.
  unfold clearHighlight. destruct (currentOverlay w) eqn:E; simpl; auto 10.
Qed.

Lemma clearHighlight_timers (w : World) :
  timers (clearHighlight w)
  = match currentOverlay w with
    | Some _ => insert_timer (fade_timer w) (timers w)
    | None => timers w
    end.
Proof.
  unfold clearHighlight. destruct (currentOverlay w); reflexivity.
Qed.

Lemma showHighlight_timers (pageNumber : Z) (location : jsvalue) (w : World) :
  timers (showHighlight pageNumber location w)
  = insert_timer (settle_timer pageNumber location w) (timers (clearHighlight w)).
Proof.
  unfold showHighlight, setTimeout, settle_timer. simpl.
  now destruct (clearHighlight_frame w) as (_ & _ & -> & _).
Qed.

(** After [fire_due] with enough fuel no pending timer is due. *)
Lemma fire_due_complete (t : nat) :
  forall (fuel : nat) (w : World),
    (List.length (timers w) <= fuel)%nat ->
    timers_sorted w ->
    Forall (fun tm => (t < due tm)%nat) (timers (fire_due fuel t w))
    /\ timers_sorted (fire_due fuel t w).
Proof.
  unfold timers_sorted.
  induction fuel as [|fuel IH]; intros w Hlen Hs; simpl.
  - destruct (timers w); [split; [constructor|trivial]|simpl in Hlen; lia].
  - destruct (timers w) as [|tm rest] eqn:Et.
    + rewrite Et. split; [constructor|constructor].
    + inversion Hs as [|? ? Hs' Hall]; subst.
      destruct (due tm <=? t)%nat eqn:E.
      * apply IH.
        -- destruct (run_callback_frame (callback tm)
                       (with_now (Nat.max (now w) (due tm)) (with_timers rest w)))
             as (-> & _). simpl. simpl in Hlen. lia.
        -- destruct (run_callback_frame (callback tm)
                       (with_now (Nat.max (now w) (due tm)) (with_timers rest w)))
             as (-> & _). simpl. trivial.
      * apply Nat.leb_gt in E. rewrite Et. split; [|trivial].
        constructor; trivial.
        eapply Forall_impl; [|exact Hall]. unfold due_le. intros a Ha. lia.
Qed.

(** Only timers that were pending can be pending after [fire_due]. *)
Lemma fire_due_pending (t : nat) :
  forall (fuel : nat) (w : World) (tm : Timer),
    In tm (timers (fire_due fuel t w)) -> In tm (timers w).
Proof.
  induction fuel as [|fuel IH]; intros w tm; simpl; trivial.
  destruct (timers w) as [|u rest] eqn:Et; [now rewrite Et|].
  destruct (due u <=? t)%nat; [|now rewrite Et].
  intros H. apply IH in H.
  destruct (run_callback_frame (callback u)
              (with_now (Nat.max (now w) (due u)) (with_timers rest w)))
    as (Ht & _).
  rewrite Ht in H. simpl in H. now right.
Qed.

Lemma fire_due_keeps (t : nat) (tm : Timer) :
  (t < due tm)%nat ->
  forall (fuel : nat) (w : World),
    In tm (timers w) -> In tm (timers (fire_due fuel t w)).
Proof.
  intros Hlt. induction fuel as [|fuel IH]; intros w Hin; simpl; trivial.
  destruct (timers w) as [|u rest] eqn:Et; [now rewrite Et|].
  destruct (due u <=? t)%nat eqn:E; [|now rewrite Et].
  apply Nat.leb_le in E. apply IH.
  destruct (run_callback_frame (callback u)
              (with_now (Nat.max (now w) (due u)) (with_timers rest w)))
    as (-> & _).
  simpl. destruct Hin as [->|Hin]; [lia|trivial].
Qed.

Lemma do_call_sorted (c : Call) (w : World) :
  timers_sorted w -> timers_sorted (do_call c w).
Proof.
  unfold timers_sorted. intros Hs. destruct c as [p l| |]; cbn [do_call].
  - rewrite showHighlight_timers, clearHighlight_timers.
    destruct (currentOverlay w); auto using insert_timer_sorted.
  - rewrite clearHighlight_timers.
    destruct (currentOverlay w); auto using insert_timer_sorted.
  - trivial.
Qed.

Lemma advance_sorted (t : nat) (w : World) :
  timers_sorted w -> timers_sorted (advance t w).
Proof.
  intros Hs. unfold advance, timers_sorted. simpl.
  now apply fire_due_complete.
Qed.



(** ** One overlay at a time *)

(** C3 (the code departs from it): two requests 100 ms apart on a viewer
    showing nothing leave two overlay nodes in the document once both
    settle delays have passed.  Only the second is the current overlay;
    clearing removes that one and the first stays. *)
Theorem two_quick_calls_leave_two_overlays :
  let w := advance 700 (run two_quick_calls fresh_world) in
  overlay_count w = 2%nat
  /\ children w = [(0%nat, 0%nat); (0%nat, 1%nat)]
  /\ currentOverlay w = Some 1%nat
  /\ timers w = []
  /\ children (advance 2000 (clearHighlight w)) = [(0%nat, 0%nat)]
  /\ timers (advance 2000 (clearHighlight w)) = [].
Proof. vm_compute. repeat split. Qed.

(** ** Clearing *)

Lemma clearHighlight_quiet (w : World) (o : nat) :
  currentOverlay w = Some o ->
  timers w = [] ->
  clearHighlight w
  = with_timers [fade_timer w]
      (with_elements (update_element o (set_opacity "0") (elements w)) w).
Proof.
  intros Ho Ht. rewrite (clearHighlight_some w o Ho).
  unfold setTimeout, fade_timer. simpl. now rewrite Ht.
Qed.

Lemma advance_before_fade (w : World) (o : nat) (t : nat) :
  currentOverlay w = Some o ->
  timers w = [] ->
  (t < now w + FADE_DELAY)%nat ->
  advance t (clearHighlight w)
  = with_now (Nat.max (now w) t) (clearHighlight w).
Proof.
  intros Ho Ht Hlt. rewrite (clearHighlight_quiet w o Ho Ht).
  unfold advance. cbn [timers with_timers with_elements List.length fire_due
                       fade_timer due].
  destruct (Nat.leb_spec (now w + FADE_DELAY) t) as [Hle|_]; [lia|].
  reflexivity.
Qed.

Lemma advance_to_fade (w : World) (o : nat) :
  currentOverlay w = Some o ->
  timers w = [] ->
  let w' := advance (now w + FADE_DELAY) (clearHighlight w) in
  children w' = remove_node o (children w)
  /\ currentOverlay w' = None
  /\ timers w' = []
  /\ elements w' = update_element o (set_opacity "0") (elements w).
Proof.
  intros Ho Ht. rewrite (clearHighlight_quiet w o Ho Ht).
  unfold advance. cbn [timers with_timers with_elements List.length fire_due
                       fade_timer due callback].
  rewrite Nat.leb_refl.
  cbn [run_callback]. unfold remove_callback.
  cbn [with_now with_timers with_elements currentOverlay]. rewrite Ho.
  cbn. auto.
Qed.

(** C7: a call of [clearHighlight] with an overlay sets the overlay's
    opacity to "0" and leaves the node attached in that turn; the
    removal is the work of a timer callback due 300 ms later.  With no
    other timer pending the node stays attached, faded, at every earlier
    clock value and is detached when the clock reaches the due time. *)
Theorem fade_then_remove_in_later_turn :
  forall (w : World) (o : nat) (e : Element),
    currentOverlay w = Some o ->
    nth_error (elements w) o = Some e ->
    let w1 := clearHighlight w in
    opacity_of o w1 = Some "0"
    /\ children w1 = children w
    /\ In {| due := (now w + 300)%nat; callback := RemoveOverlay |} (timers w1)
    /\ (forall t : nat, (t < now w + 300)%nat ->
          In {| due := (now w + 300)%nat; callback := RemoveOverlay |}
             (timers (advance t w1)))
    /\ (timers w = [] ->
        (forall t : nat, (t < now w + 300)%nat ->
           children (advance t w1) = children w
           /\ opacity_of o (advance t w1) = Some "0")
        /\ children (advance (now w + 300) w1) = remove_node o (children w)
        /\ ~ attached o (advance (now w + 300) w1)
        /\ currentOverlay (advance (now w + 300) w1) = None).
Proof.
  intros w o e Ho He w1.
  assert (Hop : opacity_of o w1 = Some "0").
  { unfold w1, opacity_of. rewrite (clearHighlight_some w o Ho). cbn.
    now rewrite (update_element_nth o _ _ e He). }
  assert (Hin : In {| due := (now w + 300)%nat; callback := RemoveOverlay |}
                   (timers w1)).
  { unfold w1. rewrite clearHighlight_timers, Ho.
    apply insert_timer_In. now left. }
  split; [exact Hop|].
  split; [apply clearHighlight_frame|].
  split; [exact Hin|].
  split.
  { intros t Hlt. unfold advance. cbn [timers with_now].
    apply fire_due_keeps; trivial. }
  intros Ht. split; [|split; [|split]].
  - intros t Hlt. unfold w1.
    rewrite (advance_before_fade w o t Ho Ht Hlt).
    split; [apply clearHighlight_frame|exact Hop].
  - apply (advance_to_fade w o Ho Ht).
  - unfold attached.
    destruct (advance_to_fade w o Ho Ht) as (Hc & _).
    unfold w1. change 300%nat with FADE_DELAY. rewrite Hc.
    apply remove_node_gone.
  - apply (advance_to_fade w o Ho Ht).
Qed.

(** C7, on the state with one overlay: requested at 0 ms, shown at
    500 ms, cleared there, still attached at 799 ms, gone at 800 ms. *)
Lemma fade_then_remove_in_later_turn_witness :
  currentOverlay world_with_overlay = Some 0%nat
  /\ timers world_with_overlay = []
  /\ opacity_of 0 (clearHighlight world_with_overlay) = Some "0"
  /\ children (clearHighlight world_with_overlay) = [(0%nat, 0%nat)]
  /\ children (advance 799 (clearHighlight world_with_overlay)) = [(0%nat, 0%nat)]
  /\ children (advance 800 (clearHighlight world_with_overlay)) = [].
Proof.
  split; [reflexivity|]. split; [reflexivity|].
  destruct (fade_then_remove_in_later_turn world_with_overlay 0%nat
              {| className := "filterHighlightOverlay";
                 style := overlay_style (Fin 10, Fin (-80)) (Fin 30, Fin (-50)) |}
              eq_refl eq_refl) as (H1 & H2 & _ & _ & H5).
  destruct (H5 eq_refl) as (H6 & H7 & _).
  split; [exact H1|]. split; [exact H2|].
  split; [exact (proj1 (H6 799%nat ltac:(vm_compute; lia)))|exact H7].
Defined.

(** ** Unresolved page views *)

Lemma showHighlight_frame (pageNumber : Z) (location : jsvalue) (w : World) :
  elements (showHighlight pageNumber location w) = elements (clearHighlight w)
  /\ children (showHighlight pageNumber location w) = children w
  /\ currentOverlay (showHighlight pageNumber location w) = currentOverlay w
  /\ uncaught (showHighlight pageNumber location w) = uncaught w
  /\ now (showHighlight pageNumber location w) = now w
  /\ window (showHighlight pageNumber location w) = window w.
Proof.
  unfold showHighlight, setTimeout. cbn.
  destruct (clearHighlight_frame w) as (Hc & Ho & Hn & Hw & Hu & _).
  auto 10.
Qed.

Lemma create_callback_unresolved (pageNumber : Z) (location : jsvalue) (w : World) :
  getPageView (window w) pageNumber = None ->
  create_callback pageNumber location w = w.
Proof. unfold create_callback. now intros ->. Qed.

(** C4, as stated, fails: on a state that shows an overlay, a request for
    page 7 of a one-page viewer fades that overlay in the turn of the call
    and the overlay is gone from the document afterwards. *)
Lemma showHighlight_unresolved_page_clears_overlay :
  getPageView (window world_with_overlay) 7 = None
  /\ children world_with_overlay = [(0%nat, 0%nat)]
  /\ opacity_of 0 world_with_overlay = Some EmptyString
  /\ opacity_of 0 (showHighlight 7 sample_location world_with_overlay) = Some "0"
  /\ ~ same_document world_with_overlay
         (showHighlight 7 sample_location world_with_overlay)
  /\ children (advance 2000 (showHighlight 7 sample_location world_with_overlay)) = [].
Proof.
  split; [reflexivity|]. split; [reflexivity|]. split; [reflexivity|].
  split; [reflexivity|]. split; [|reflexivity].
  intros [He _]. vm_compute in He. discriminate He.
Qed.

(** C4, amended: for a page number with no page view, [showHighlight]
    throws nothing and creates no overlay: its settle callback leaves the
    state as it is.  The one thing the call does to the document is to
    clear the overlay shown before it, as [clearHighlight] does; with no
    overlay shown (and none about to be created) the document and the
    current overlay are the same at every later clock value. *)
Theorem showHighlight_unresolved_page :
  forall (w : World) (pageNumber : Z) (location : jsvalue),
    getPageView (window w) pageNumber = None ->
    let w1 := showHighlight pageNumber location w in
    elements w1 = elements (clearHighlight w)
    /\ children w1 = children w
    /\ uncaught w1 = uncaught w
    /\ (forall w' : World, window w' = window w ->
          create_callback pageNumber location w' = w')
    /\ (currentOverlay w = None -> same_document w w1)
    /\ (currentOverlay w = None -> timers w = [] ->
        forall t : nat,
          same_document w (advance t w1)
          /\ currentOverlay (advance t w1) = None
          /\ uncaught (advance t w1) = uncaught w).
Proof.
  intros w pageNumber location Hnone w1.
  destruct (showHighlight_frame pageNumber location w) as (He & Hc & Ho & Hu & Hn & Hw).
  split; [exact He|]. split; [exact Hc|]. split; [exact Hu|].
  split.
  { intros w' Hw'. apply create_callback_unresolved. now rewrite Hw'. }
  split.
  { intros Hno. split; [|exact Hc].
    unfold w1. rewrite He. now rewrite (clearHighlight_none w Hno). }
  intros Hno Ht t.
  assert (E : w1 = with_timers [settle_timer pageNumber location w] w).
  { unfold w1, showHighlight. rewrite (clearHighlight_none w Hno).
    unfold setTimeout, settle_timer. now rewrite Ht. }
  rewrite E. unfold advance.
  cbn [timers with_timers List.length fire_due settle_timer due callback].
  destruct (now w + SETTLE_DELAY <=? t)%nat.
  - cbn [run_callback]. rewrite create_callback_unresolved by exact Hnone.
    cbn. unfold same_document. cbn. auto.
  - unfold same_document. cbn. auto.
Qed.

(** C4, on a one-page viewer showing nothing, page 7 requested. *)
Lemma showHighlight_unresolved_page_witness :
  getPageView (window fresh_world) 7 = None
  /\ children (showHighlight 7 sample_location fresh_world) = []
  /\ uncaught (showHighlight 7 sample_location fresh_world) = []
  /\ same_document fresh_world
       (advance 1000 (showHighlight 7 sample_location fresh_world))
  /\ uncaught (advance 1000 (showHighlight 7 sample_location fresh_world)) = [].
Proof.
  split; [reflexivity|].
  destruct (showHighlight_unresolved_page fresh_world 7 sample_location eq_refl)
    as (_ & H2 & H3 & _ & _ & H6).
  destruct (H6 eq_refl eq_refl 1000%nat) as (H7 & _ & H8).
  split; [exact H2|]. split; [exact H3|]. split; [exact H7|exact H8].
Defined.

(** ** Locations that are not rectangles *)

(** C5, as stated, fails: with a [null] location the settle callback
    throws a TypeError; with an object that has none of the four
    properties an overlay is created all the same. *)
Lemma malformed_location_not_silent :
  uncaught (advance 500 (showHighlight 1 (VPrim PNull) fresh_world)) = [TypeError]
  /\ overlay_count (advance 500 (showHighlight 1 (VObject []) fresh_world)) = 1%nat
  /\ currentOverlay (advance 500 (showHighlight 1 (VObject []) fresh_world))
     = Some 0%nat.
Proof. vm_compute. repeat split. Qed.

Lemma destructure_nullish (location : jsvalue) :
  if nullish location
  then destructure_location location = Throw TypeError
  else exists x y width height,
         destructure_location location = Normal (x, y, width, height).
Proof.
  destruct location as [[| |n]|props|items]; cbn; eauto.
Qed.

(** C5, amended: the overlay does not check the location.  The turn of
    the call never throws.  In the settle callback, on a page view with
    a container, a [null] or [undefined] location throws a TypeError
    before anything is created, and every other value, rectangle or not,
    gets an overlay created, attached and made current; on a page view
    without container nothing is created and nothing thrown. *)
Theorem location_not_validated :
  forall (w : World) (pageNumber : Z) (location : jsvalue) (pageView : PageView),
    getPageView (window w) pageNumber = Some pageView ->
    uncaught (showHighlight pageNumber location w) = uncaught w
    /\ match div pageView with
       | None => create_callback pageNumber location w = w
       | Some container =>
           let w' := create_callback pageNumber location w in
           if nullish location
           then w' = with_uncaught (uncaught w ++ [TypeError]) w
           else children w' = children w ++ [(container, List.length (elements w))]
                /\ List.length (elements w') = S (List.length (elements w))
                /\ currentOverlay w' = Some (List.length (elements w))
                /\ uncaught w' = uncaught w
       end.
Proof.
  intros w pageNumber location pageView Hpv.
  split; [apply showHighlight_frame|].
  unfold create_callback. rewrite Hpv. unfold createOverlayElement.
  destruct (div pageView) as [container|]; [|reflexivity].
  pose proof (destructure_nullish location) as Hd.
  destruct (nullish location).
  - cbn zeta. now rewrite Hd.
  - destruct Hd as (x & y & width & height & ->).
    destruct (corner_points _ _ _ _ _) as [tl br].
    cbn. rewrite length_app. cbn. repeat split; lia.
Qed.

(** C5, on a one-page viewer: page 1 with a [null] location. *)
Lemma location_not_validated_witness :
  getPageView (window fresh_world) 1
  = Some {| div := Some 0%nat; viewport := identity_viewport |}
  /\ create_callback 1 (VPrim PNull) fresh_world
     = with_uncaught [TypeError] fresh_world.
Proof.
  split; [reflexivity|].
  exact (proj2 (location_not_validated fresh_world 1 (VPrim PNull)
                  {| div := Some 0%nat; viewport := identity_viewport |} eq_refl)).
Defined.

(** ** The panel item *)

(** The test [location && Array.isArray(location) && location.length === 4]
    holds exactly of the arrays of four entries. *)
Lemma location_test_four_entries (v : jsvalue) :
  truthy v && Array_isArray v && length_is_4 v = true <-> four_entries v.
Proof.
  unfold four_entries, length_is_4. split.
  - destruct v as [p|props|items]; cbn.
    + rewrite andb_false_r. discriminate.
    + discriminate.
    + destruct items as [|a [|b [|c [|d [|e items]]]]]; cbn; try discriminate.
      intros _. now exists a, b, c, d.
  - intros (x & y & width & height & ->). reflexivity.
Qed.

(** The two ways [#navigateToHighlight] can go. *)
Lemma navigateToHighlight_cases (highlightData : HighlightData)
  (linkService : LinkService) :
  (exists (viewer : PDFViewer) (x y width height : prim),
     pdfViewer linkService = Some viewer
     /\ location highlightData = VArray [x; y; width; height]
     /\ navigateToHighlight highlightData linkService
        = [ScrollPageIntoView
             {| scroll_pageNumber := page highlightData;
                destArray :=
                  [DNull; DName "XYZ";
                   DNumber (num_add (ToNumber x) (js_half width));
                   DNumber (num_half (num_add (js_add y height) (ToNumber y)));
                   DNull];
                allowNegativeOffset := true;
                center := "both" |};
           Dispatch "filterhighlightselected"
             {| evt_pageNumber := page highlightData;
                evt_location := location_record x y width height |}])
  \/ ((pdfViewer linkService = None \/ ~ four_entries (location highlightData))
      /\ navigateToHighlight highlightData linkService
         = [GoToPage (page highlightData)]).
Proof.
  unfold navigateToHighlight.
  destruct (pdfViewer linkService) as [viewer|]; [|right; auto].
  destruct (truthy (location highlightData) && Array_isArray (location highlightData)
            && length_is_4 (location highlightData)) eqn:E.
  - apply location_test_four_entries in E.
    destruct E as (x & y & width & height & E).
    left. exists viewer, x, y, width, height. rewrite E. auto.
  - right. split; [|reflexivity]. right. intros H.
    apply location_test_four_entries in H. congruence.
Qed.

(** C9: the panel item dispatches "filterhighlightselected" exactly when
    the link service has a viewer and the location is an array of four
    entries; in every other case it only calls [goToPage(page)].  What it
    dispatches carries the page and a location record made of the four
    entries, and that record is what the overlay is asked to show. *)
Theorem dispatch_iff_viewer_and_four_entries :
  forall (highlightData : HighlightData) (linkService : LinkService),
    let effects := navigateToHighlight highlightData linkService in
    ((exists evt, In (Dispatch "filterhighlightselected" evt) effects)
     <-> (pdfViewer linkService <> None /\ four_entries (location highlightData)))
    /\ ((pdfViewer linkService = None \/ ~ four_entries (location highlightData))
        <-> effects = [GoToPage (page highlightData)])
    /\ (forall (name : string) (evt : HighlightEvent),
          In (Dispatch name evt) effects ->
          name = "filterhighlightselected"
          /\ evt_pageNumber evt = page highlightData
          /\ exists x y width height : prim,
               location highlightData = VArray [x; y; width; height]
               /\ evt_location evt = location_record x y width height
               /\ forall w : World,
                    click highlightData linkService w
                    = showHighlight (page highlightData)
                        (location_record x y width height) w).
Proof.
  intros highlightData linkService effects. unfold effects.
  destruct (navigateToHighlight_cases highlightData linkService)
    as [(viewer & x & y & width & height & Hv & Hl & Hn)|[Hcase Hn]].
  - assert (H4 : four_entries (location highlightData)).
    { rewrite Hl. now exists x, y, width, height. }
    split; [|split].
    + split.
      * intros _. split; [congruence|exact H4].
      * intros _. eexists. rewrite Hn. right. left. reflexivity.
    + split.
      * intros [Hnone|Hnot]; [congruence|contradiction].
      * rewrite Hn. discriminate.
    + intros name evt Hin. rewrite Hn in Hin.
      destruct Hin as [Hin|[Hin|[]]]; [discriminate|].
      inversion Hin; subst name evt. cbn.
      split; [reflexivity|]. split; [reflexivity|].
      exists x, y, width, height.
      split; [exact Hl|]. split; [reflexivity|].
      intros w. unfold click. rewrite Hn. reflexivity.
  - split; [|split].
    + split.
      * intros [evt Hin]. rewrite Hn in Hin.
        destruct Hin as [Hin|[]]. discriminate.
      * intros [Hv H4]. destruct Hcase; contradiction.
    + split; [intros _; exact Hn|intros _; exact Hcase].
    + intros name evt Hin. rewrite Hn in Hin.
      destruct Hin as [Hin|[]]. discriminate.
Qed.

(** C10: for a location of four finite numbers [x, y, width, height] and a
    link service with a viewer, the panel item asks the viewer to scroll
    page [page] to the XYZ destination whose coordinates are
    [x + width / 2] and the mean of top [y + height] and bottom [y], which
    is [y + height / 2]; the zoom entry is [null]. *)
Theorem scroll_destination_is_centre :
  forall (pageNumber : Z) (txt : string) (x y width height : Q)
         (linkService : LinkService) (viewer : PDFViewer),
    pdfViewer linkService = Some viewer ->
    (exists rest : list Effect,
       navigateToHighlight
         {| page := pageNumber; text := txt;
            location := VArray [PNumber (Fin x); PNumber (Fin y);
                                PNumber (Fin width); PNumber (Fin height)] |}
         linkService
       = ScrollPageIntoView
           {| scroll_pageNumber := pageNumber;
              destArray := [DNull; DName "XYZ";
                            DNumber (Fin (x + width / 2));
                            DNumber (Fin ((y + height + y) / 2));
                            DNull];
              allowNegativeOffset := true;
              center := "both" |} :: rest)
    /\ (y + height + y) / 2 == y + height / 2
    /\ num_eq (Fin ((y + height + y) / 2)) (Fin (y + height / 2)).
Proof.
  intros pageNumber txt x y width height linkService viewer Hv.
  assert (Hc : (y + height + y) / 2 == y + height / 2) by field.
  split; [|split; [exact Hc|exact Hc]].
  unfold navigateToHighlight. rewrite Hv. cbn. eexists. reflexivity.
Qed.

(** C10, on the sample highlight of page 3. *)
Lemma scroll_destination_is_centre_witness :
  exists rest : list Effect,
    navigateToHighlight
      {| page := 3; text := "note";
         location := VArray [PNumber (Fin 10); PNumber (Fin (-50));
                             PNumber (Fin 20); PNumber (Fin (-30))] |}
      {| pdfViewer := Some {| _pages := None |} |}
    = ScrollPageIntoView
        {| scroll_pageNumber := 3;
           destArray := [DNull; DName "XYZ";
                         DNumber (Fin (10 + 20 / 2));
                         DNumber (Fin ((-50 + -30 + -50) / 2));
                         DNull];
           allowNegativeOffset := true;
           center := "both" |} :: rest.
Proof.
  exact (proj1 (scroll_destination_is_centre 3 "note" 10 (-50) 20 (-30)
                  {| pdfViewer := Some {| _pages := None |} |}
                  {| _pages := None |} eq_refl)).
Defined.

(** ** Resolving the page view *)

(** X1: with a viewer that has pages, [#getPageView] returns the page at
    position [pageNumber - 1] for every page number from 1 to the number
    of pages, and [null] below 1 and beyond the last page. *)
Theorem getPageView_bounds :
  forall (win : Window) (app : Application) (viewer : PDFViewer)
         (pages : list PageView) (pageNumber : Z),
    PDFViewerApplication win = Some app ->
    app_pdfViewer app = Some viewer ->
    _pages viewer = Some pages ->
    ((1 <= pageNumber <= Z.of_nat (List.length pages))%Z ->
       exists pageView,
         getPageView win pageNumber = Some pageView
         /\ nth_error pages (Z.to_nat (pageNumber - 1)) = Some pageView)
    /\ ((pageNumber < 1 \/ Z.of_nat (List.length pages) < pageNumber)%Z ->
          getPageView win pageNumber = None).
Proof.
  intros win app viewer pages pageNumber Happ Hv Hp.
  unfold getPageView. rewrite Happ, Hv, Hp. split.
  - intros [Hlo Hhi].
    destruct (Z.leb_spec 0 (pageNumber - 1)) as [_|Hneg]; [|lia].
    destruct (nth_error pages (Z.to_nat (pageNumber - 1))) as [pv|] eqn:E.
    + now exists pv.
    + apply nth_error_None in E. lia.
  - intros [Hlo|Hhi].
    + destruct (Z.leb_spec 0 (pageNumber - 1)) as [Hge|_]; [lia|reflexivity].
    + destruct (Z.leb_spec 0 (pageNumber - 1)) as [_|_]; [|reflexivity].
      apply nth_error_None. lia.
Qed.

(** X1, on a one-page viewer: page 1 is found, pages 0 and 2 are not. *)
Lemma getPageView_bounds_witness :
  (exists pageView,
     getPageView (one_page_window identity_viewport) 1 = Some pageView
     /\ nth_error [ {| div := Some 0%nat; viewport := identity_viewport |} ] 0
        = Some pageView)
  /\ getPageView (one_page_window identity_viewport) 0 = None
  /\ getPageView (one_page_window identity_viewport) 2 = None.
Proof.
  pose proof (getPageView_bounds (one_page_window identity_viewport) _ _ _ 1
                eq_refl eq_refl eq_refl) as H1.
  pose proof (getPageView_bounds (one_page_window identity_viewport) _ _ _ 0
                eq_refl eq_refl eq_refl) as H0.
  pose proof (getPageView_bounds (one_page_window identity_viewport) _ _ _ 2
                eq_refl eq_refl eq_refl) as H2.
  split; [apply (proj1 H1); cbn; lia|].
  split; [apply (proj2 H0); left; lia|apply (proj2 H2); right; cbn; lia].
Defined.

(** The sidebar's viewer is consulted only when the application has no
    viewer of its own.  An application viewer without pages gives [null]
    for every page, whatever the sidebar holds; with no application viewer
    the answer is the one the sidebar's viewer gives; with no application
    the answer is [null]. *)
Theorem getPageView_viewer_choice :
  forall (sidebar : option PDFSidebar) (pageNumber : Z),
    (forall viewer : PDFViewer,
       _pages viewer = None ->
       getPageView {| PDFViewerApplication :=
                        Some {| app_pdfViewer := Some viewer;
                                pdfSidebar := sidebar |} |} pageNumber
       = None)
    /\ (forall viewer : PDFViewer,
          getPageView {| PDFViewerApplication :=
                           Some {| app_pdfViewer := Some viewer;
                                   pdfSidebar := sidebar |} |} pageNumber
          = getPageView {| PDFViewerApplication :=
                             Some {| app_pdfViewer := Some viewer;
                                     pdfSidebar := None |} |} pageNumber)
    /\ (forall viewer : PDFViewer,
          getPageView {| PDFViewerApplication :=
                           Some {| app_pdfViewer := None;
                                   pdfSidebar :=
                                     Some {| sidebar_pdfViewer := Some viewer |} |} |}
                      pageNumber
          = getPageView {| PDFViewerApplication :=
                             Some {| app_pdfViewer := Some viewer;
                                     pdfSidebar := None |} |} pageNumber)
    /\ getPageView {| PDFViewerApplication := None |} pageNumber = None
    /\ getPageView {| PDFViewerApplication :=
                        Some {| app_pdfViewer := None; pdfSidebar := None |} |}
                   pageNumber = None.
Proof.
  intros sidebar pageNumber. unfold getPageView. cbn.
  split; [intros viewer ->; reflexivity|].
  repeat split.
Qed.

(** ** Invariants of the reachable states *)

Lemma update_element_length (r : nat) (f : Element -> Element) :
  forall els, List.length (update_element r f els) = List.length els.
Proof.
  induction r as [|r IH]; intros [|e els]; simpl; auto.
Qed.

Lemma map_snd_remove_node (r : nat) (ch : list (nat * nat)) :
  map snd (remove_node r ch) = filter (fun x => negb (x =? r)%nat) (map snd ch).
Proof.
  unfold remove_node. induction ch as [|c ch IH]; simpl; trivial.
  destruct (negb (snd c =? r)%nat); simpl; now rewrite IH.
Qed.

Lemma well_formed_ext (w w' : World) :
  List.length (elements w') = List.length (elements w) ->
  children w' = children w ->
  frames w' = frames w ->
  currentOverlay w' = currentOverlay w ->
  well_formed w -> well_formed w'.
Proof.
  unfold well_formed. intros -> -> -> ->. trivial.
Qed.

Lemma well_formed_clearHighlight (w : World) :
  well_formed w -> well_formed (clearHighlight w).
Proof.
  apply well_formed_ext; try apply clearHighlight_frame.
  unfold clearHighlight. destruct (currentOverlay w); trivial.
  cbn. apply update_element_length.
Qed.

Lemma well_formed_showHighlight (pageNumber : Z) (location : jsvalue) (w : World) :
  well_formed w -> well_formed (showHighlight pageNumber location w).
Proof.
  intros H. apply well_formed_clearHighlight in H. revert H.
  apply well_formed_ext; reflexivity.
Qed.

Lemma fold_update_length (f : Element -> Element) (rs : list nat) :
  forall els,
    List.length (fold_left (fun els r => update_element r f els) rs els)
    = List.length els.
Proof.
  induction rs as [|r rs IH]; intros els; simpl; trivial.
  rewrite IH. apply update_element_length.
Qed.

Lemma well_formed_run_frame (w : World) :
  well_formed w -> well_formed (run_frame w).
Proof.
  unfold well_formed, run_frame. cbn. rewrite fold_update_length.
  intros (Hc & Hn & _ & Ho). auto.
Qed.

Lemma well_formed_remove_callback (w : World) :
  well_formed w -> well_formed (remove_callback w).
Proof.
  unfold well_formed, remove_callback.
  intros (Hc & Hn & Hf & Ho).
  destruct (currentOverlay w) as [o|]; cbn.
  - repeat split; trivial; try discriminate.
    + unfold remove_node. apply Forall_forall. intros c Hin.
      apply filter_In in Hin. destruct Hin as [Hin _].
      exact (proj1 (Forall_forall _ _) Hc c Hin).
    + rewrite map_snd_remove_node. now apply NoDup_filter.
  - repeat split; trivial; discriminate.
Qed.

Lemma well_formed_create_callback (pageNumber : Z) (location : jsvalue) (w : World) :
  well_formed w -> well_formed (create_callback pageNumber location w).
Proof.
  intros Hwf. unfold create_callback.
  destruct (getPageView (window w) pageNumber) as [pv|]; trivial.
  unfold createOverlayElement.
  destruct (div pv) as [c|]; trivial.
  destruct (destructure_location location) as [[[[x y] wd] h]|e]; [|exact Hwf].
  destruct (corner_points _ _ _ _ _) as [tl br].
  destruct Hwf as (Hc & Hn & Hf & Ho).
  unfold well_formed. cbn. rewrite length_app. cbn.
  split; [|split; [|split]].
  - apply Forall_app. split.
    + eapply Forall_impl; [|exact Hc]. cbn. intros a Ha. lia.
    + constructor; [cbn; lia|constructor].
  - rewrite map_app. cbn. apply NoDup_app; trivial.
    + constructor; [intros []|constructor].
    + intros r Hin [<-|[]]. apply in_map_iff in Hin.
      destruct Hin as (c0 & Hs & Hin).
      pose proof (proj1 (Forall_forall _ _) Hc c0 Hin) as Hlt. cbn in Hlt. lia.
  - apply Forall_app. split.
    + eapply Forall_impl; [|exact Hf]. cbn. intros a Ha. lia.
    + constructor; [lia|constructor].
  - intros o Heq. inversion Heq; subst o. rewrite map_app. cbn.
    apply in_or_app. right. now left.
Qed.

Lemma well_formed_run_callback (cb : Callback) (w : World) :
  well_formed w -> well_formed (run_callback cb w).
Proof.
  destruct cb; cbn [run_callback];
    auto using well_formed_create_callback, well_formed_remove_callback.
Qed.

Lemma well_formed_fire_due (t : nat) :
  forall (fuel : nat) (w : World),
    well_formed w -> well_formed (fire_due fuel t w).
Proof.
  induction fuel as [|fuel IH]; intros w Hwf; simpl; trivial.
  destruct (timers w) as [|tm rest]; trivial.
  destruct (due tm <=? t)%nat; trivial.
  apply IH, well_formed_run_callback. exact Hwf.
Qed.

Lemma window_fire_due (t : nat) :
  forall (fuel : nat) (w : World), window (fire_due fuel t w) = window w.
Proof.
  induction fuel as [|fuel IH]; intros w; simpl; trivial.
  destruct (timers w) as [|tm rest]; trivial.
  destruct (due tm <=? t)%nat; trivial.
  rewrite IH. now destruct (run_callback_frame (callback tm)
    (with_now (Nat.max (now w) (due tm)) (with_timers rest w))) as (_ & _ & ->).
Qed.

(** X2: in every state a new overlay can reach through calls and the
    passing of time, every attached node and every queued fade-in refers
    to an existing element, no element is attached twice, the current
    overlay is attached whenever there is one, the timer queue is in firing
    order and the global object is the one the overlay started with. *)
Theorem reachable_well_formed :
  forall (win : Window) (w : World),
    reachable win w ->
    well_formed w /\ timers_sorted w /\ window w = win.
Proof.
  intros win w H. induction H as [|c w H (Hwf & Hs & Hw)|t w H (Hwf & Hs & Hw)].
  - split; [|split; [constructor|reflexivity]].
    unfold well_formed. cbn. repeat split; try constructor. discriminate.
  - split; [|split].
    + destruct c; cbn [do_call];
        auto using well_formed_showHighlight, well_formed_clearHighlight,
                   well_formed_run_frame.
    + now apply do_call_sorted.
    + destruct c as [p l| |]; cbn [do_call]; trivial.
      * now destruct (showHighlight_frame p l w)
          as (_ & _ & _ & _ & _ & ->).
      * now destruct (clearHighlight_frame w) as (_ & _ & _ & -> & _).
  - split; [|split].
    + unfold advance. apply (well_formed_ext (fire_due (List.length (timers w)) t w));
        try reflexivity.
      now apply well_formed_fire_due.
    + now apply advance_sorted.
    + unfold advance. cbn. now rewrite window_fire_due.
Qed.

(** X2, on the state with one overlay. *)
Lemma reachable_well_formed_witness :
  well_formed world_with_overlay
  /\ timers_sorted world_with_overlay
  /\ window world_with_overlay = one_page_window identity_viewport.
Proof.
  apply reachable_well_formed.
  unfold world_with_overlay.
  apply reach_advance.
  apply (reach_call _ (ShowHighlight 1 sample_location)).
  apply reach_initial.
Defined.

(** ** Calls that wait for each other *)

Lemma advance_nil (t : nat) (w : World) :
  timers w = [] -> advance t w = with_now (Nat.max (now w) t) w.
Proof.
  intros H. unfold advance. rewrite H. reflexivity.
Qed.

Lemma advance_cons_late (t : nat) (w : World) (tm : Timer) (rest : list Timer) :
  timers w = tm :: rest -> (t < due tm)%nat ->
  advance t w = with_now (Nat.max (now w) t) w.
Proof.
  intros H Hlt. unfold advance. rewrite H. cbn [List.length fire_due].
  rewrite H. destruct (Nat.leb_spec (due tm) t) as [Hle|_]; [lia|reflexivity].
Qed.

Lemma advance_cons_due (t : nat) (w : World) (tm : Timer) (rest : list Timer) :
  timers w = tm :: rest -> (due tm <= t)%nat ->
  advance t w
  = advance t (run_callback (callback tm)
                 (with_now (Nat.max (now w) (due tm)) (with_timers rest w))).
Proof.
  intros H Hle. unfold advance at 1. rewrite H. cbn [List.length fire_due].
  rewrite H. apply Nat.leb_le in Hle. rewrite Hle.
  unfold advance.
  now destruct (run_callback_frame (callback tm)
    (with_now (Nat.max (now w) (due tm)) (with_timers rest w))) as (-> & _).
Qed.

Lemma now_fire_due (t : nat) :
  forall (fuel : nat) (w : World),
    (now (fire_due fuel t w) <= Nat.max (now w) t)%nat.
Proof.
  induction fuel as [|fuel IH]; intros w; simpl; [lia|].
  destruct (timers w) as [|tm rest]; [lia|].
  destruct (Nat.leb_spec (due tm) t) as [Hle|_]; [|lia].
  etransitivity; [apply IH|].
  destruct (run_callback_frame (callback tm)
    (with_now (Nat.max (now w) (due tm)) (with_timers rest w))) as (_ & -> & _).
  cbn. lia.
Qed.

Lemma now_advance (t : nat) (w : World) :
  (now w <= t)%nat -> now (advance t w) = t.
Proof.
  intros H. unfold advance. cbn.
  pose proof (now_fire_due t (List.length (timers w)) w). lia.
Qed.

(** The settle callback either leaves the document and the current
    overlay alone or attaches one new element and makes it current. *)
Lemma create_callback_cases (pageNumber : Z) (location : jsvalue) (w : World) :
  let w' := create_callback pageNumber location w in
  timers w' = timers w
  /\ ((children w' = children w /\ currentOverlay w' = currentOverlay w)
      \/ (exists container,
            children w' = children w ++ [(container, List.length (elements w))]
            /\ currentOverlay w' = Some (List.length (elements w)))).
Proof.
  cbn zeta. split; [apply (run_callback_frame (CreateOverlay pageNumber location))|].
  unfold create_callback.
  destruct (getPageView (window w) pageNumber) as [pv|]; [|now left].
  unfold createOverlayElement.
  destruct (div pv) as [c|]; [|now left].
  destruct (destructure_location location) as [[[[x y] wd] h]|e]; [|now left].
  destruct (corner_points _ _ _ _ _) as [tl br].
  right. exists c. cbn. auto.
Qed.

Lemma create_callback_timers (pageNumber : Z) (location : jsvalue) (w : World) :
  timers (create_callback pageNumber location w) = timers w.
Proof. apply (run_callback_frame (CreateOverlay pageNumber location)). Qed.

Lemma settled_count (w : World) : settled w -> (overlay_count w <= 1)%nat.
Proof.
  unfold settled, overlay_count. intros [_ H].
  destruct (currentOverlay w); [destruct H as [c ->]|rewrite H]; cbn; lia.
Qed.

Lemma settled_with_now (n : nat) (w : World) : settled w -> settled (with_now n w).
Proof. trivial. Qed.

(** After the settle callback has run on an empty document with nothing
    pending, the state is settled. *)
Lemma create_callback_settles (pageNumber : Z) (location : jsvalue) (w : World) :
  timers w = [] -> children w = [] -> currentOverlay w = None ->
  settled (create_callback pageNumber location w).
Proof.
  intros Ht Hc Ho.
  destruct (create_callback_cases pageNumber location w) as (Ht' & [[Hc' Ho']|(c & Hc' & Ho')]);
    unfold settled; rewrite Ht', Ho', Hc'.
  - rewrite Ho, Hc, Ht. auto.
  - rewrite Hc, Ht. split; trivial. now exists c.
Qed.

(** The world in which the settle callback of a request runs, when the
    request was made in a settled state. *)
Lemma showHighlight_phases (pageNumber : Z) (location : jsvalue) (w : World) :
  settled w ->
  let w1 := showHighlight pageNumber location w in
  (forall t, (t < now w + FADE_DELAY)%nat ->
     children (advance t w1) = children w)
  /\ (forall t, (now w + FADE_DELAY <= t)%nat -> (t < now w + SETTLE_DELAY)%nat ->
        children (advance t w1) = [])
  /\ (forall t, (now w + SETTLE_DELAY <= t)%nat ->
        exists (W : World) (n : nat),
          advance t w1 = with_now n (create_callback pageNumber location W)
          /\ timers W = [] /\ children W = [] /\ currentOverlay W = None
          /\ List.length (elements W) = List.length (elements w)
          /\ window W = window w /\ uncaught W = uncaught w).
Proof.
  intros [Ht Hs] w1.
  destruct (currentOverlay w) as [o|] eqn:Ho.
  - destruct Hs as [c Hc].
    assert (E1 : timers w1 = [fade_timer w; settle_timer pageNumber location w]).
    { unfold w1. rewrite showHighlight_timers, clearHighlight_timers, Ho, Ht.
      cbn [insert_timer fade_timer settle_timer due].
      destruct (Nat.leb_spec (now w + FADE_DELAY) (now w + SETTLE_DELAY)) as [_|Hgt];
        [reflexivity|unfold FADE_DELAY, SETTLE_DELAY in Hgt; lia]. }
    destruct (showHighlight_frame pageNumber location w)
      as (He1 & Hc1 & Ho1 & Hu1 & Hn1 & Hw1).
    fold w1 in He1, Hc1, Ho1, Hu1, Hn1, Hw1. clearbody w1.
    remember (run_callback (callback (fade_timer w))
                (with_now (Nat.max (now w1) (due (fade_timer w)))
                   (with_timers [settle_timer pageNumber location w] w1)))
      as W1 eqn:HW1.
    assert (EW1 : timers W1 = [settle_timer pageNumber location w]
                  /\ children W1 = [] /\ currentOverlay W1 = None
                  /\ elements W1 = elements w1 /\ window W1 = window w
                  /\ uncaught W1 = uncaught w).
    { rewrite HW1. cbn [callback fade_timer run_callback]. unfold remove_callback.
      cbn [currentOverlay with_now with_timers]. rewrite Ho1, Ho. cbn.
      rewrite Hc1, Hc, Hw1, Hu1. cbn. rewrite Nat.eqb_refl. cbn. auto 10. }
    destruct EW1 as (Et1 & Ec1 & Eo1 & Ee1 & Ew1 & Eu1).
    split; [|split].
    + intros t Hlt.
      rewrite (advance_cons_late t w1 _ _ E1) by (cbn; lia). exact Hc1.
    + intros t Hge Hlt.
      rewrite (advance_cons_due t w1 _ _ E1) by (cbn; lia). rewrite <- HW1.
      rewrite (advance_cons_late t W1 _ _ Et1) by (cbn; lia). exact Ec1.
    + intros t Hge.
      rewrite (advance_cons_due t w1 _ _ E1) by (cbn; unfold SETTLE_DELAY, FADE_DELAY in *; lia).
      rewrite <- HW1.
      rewrite (advance_cons_due t W1 _ _ Et1) by (cbn; lia).
      cbn [callback settle_timer run_callback].
      rewrite advance_nil by (rewrite create_callback_timers; reflexivity).
      eexists. eexists. split; [reflexivity|]. cbn.
      rewrite Ec1, Eo1, Ee1, Ew1, Eu1, He1.
      repeat split; trivial.
      rewrite (clearHighlight_some w o Ho). cbn. apply update_element_length.
  - assert (E1 : w1 = with_timers [settle_timer pageNumber location w] w).
    { unfold w1, showHighlight. rewrite (clearHighlight_none w Ho).
      unfold setTimeout, settle_timer. now rewrite Ht. }
    split; [|split].
    + intros t Hlt. rewrite E1.
      rewrite (advance_cons_late t _ (settle_timer pageNumber location w) [])
        by (trivial; cbn; unfold SETTLE_DELAY, FADE_DELAY in *; lia).
      reflexivity.
    + intros t Hge Hlt. rewrite E1.
      rewrite (advance_cons_late t _ (settle_timer pageNumber location w) [])
        by (trivial; cbn; lia).
      exact Hs.
    + intros t Hge. rewrite E1.
      rewrite (advance_cons_due t _ (settle_timer pageNumber location w) [])
        by (trivial; cbn; lia).
      cbn [callback settle_timer run_callback].
      rewrite advance_nil by (rewrite create_callback_timers; reflexivity).
      eexists. eexists. split; [reflexivity|]. cbn. auto 10.
Qed.

Lemma clearHighlight_phases (w : World) :
  settled w ->
  (forall t, (t < now w + FADE_DELAY)%nat ->
     children (advance t (clearHighlight w)) = children w)
  /\ (forall t, (now w + FADE_DELAY <= t)%nat ->
        timers (advance t (clearHighlight w)) = []
        /\ children (advance t (clearHighlight w)) = []
        /\ currentOverlay (advance t (clearHighlight w)) = None).
Proof.
  intros [Ht Hs]. destruct (currentOverlay w) as [o|] eqn:Ho.
  - destruct Hs as [c Hc].
    pose proof (clearHighlight_quiet w o Ho Ht) as E.
    split.
    + intros t Hlt. rewrite (advance_before_fade w o t Ho Ht Hlt).
      apply clearHighlight_frame.
    + intros t Hge.
      rewrite (advance_cons_due t (clearHighlight w) (fade_timer w) [])
        by (rewrite ?E; trivial).
      rewrite advance_nil
        by (now destruct (run_callback_frame (callback (fade_timer w))
              (with_now (Nat.max (now (clearHighlight w)) (due (fade_timer w)))
                 (with_timers [] (clearHighlight w)))) as (-> & _)).
      cbn [callback fade_timer run_callback]. unfold remove_callback.
      cbn [currentOverlay with_now with_timers].
      destruct (clearHighlight_frame w) as (Hc' & -> & _). rewrite Ho. cbn.
      rewrite Hc', Hc. cbn. rewrite Nat.eqb_refl. auto.
  - rewrite (clearHighlight_none w Ho). split.
    + intros t _. now rewrite advance_nil.
    + intros t _. rewrite advance_nil by trivial. cbn. auto.
Qed.

(** A call made in a settled state never brings a second overlay into the
    document, and the state is settled again once the call's delay has
    passed. *)
Lemma settled_call_timeline (c : Call) (w : World) :
  settled w ->
  (forall t, (overlay_count (advance t (do_call c w)) <= 1)%nat)
  /\ (forall t, (now w + busy_time c <= t)%nat -> settled (advance t (do_call c w))).
Proof.
  intros Hs. pose proof (settled_count w Hs) as Hcount.
  destruct c as [p l| |]; cbn [do_call busy_time].
  - destruct (showHighlight_phases p l w Hs) as (Ha & Hb & Hc).
    assert (Hlate : forall t, (now w + SETTLE_DELAY <= t)%nat ->
                      settled (advance t (showHighlight p l w))).
    { intros t Hge. destruct (Hc t Hge) as (W & n & -> & Ht & Hch & Ho & _).
      apply settled_with_now. now apply create_callback_settles. }
    split; [|exact Hlate].
    intros t. unfold overlay_count in *.
    destruct (Nat.lt_ge_cases t (now w + FADE_DELAY)) as [H1|H1].
    + now rewrite (Ha t H1).
    + destruct (Nat.lt_ge_cases t (now w + SETTLE_DELAY)) as [H2|H2].
      * rewrite (Hb t H1 H2). cbn. lia.
      * apply (settled_count _ (Hlate t H2)).
  - destruct (clearHighlight_phases w Hs) as (Ha & Hb).
    split.
    + intros t. unfold overlay_count in *.
      destruct (Nat.lt_ge_cases t (now w + FADE_DELAY)) as [H1|H1].
      * now rewrite (Ha t H1).
      * destruct (Hb t H1) as (_ & -> & _). cbn. lia.
    + intros t Hge. destruct (Hb t Hge) as (Ht & Hc & Ho).
      unfold settled. now rewrite Ht, Ho, Hc.
  - assert (Hf : settled (run_frame w)) by exact Hs.
    split.
    + intros t. rewrite advance_nil by apply Hf. exact Hcount.
    + intros t _. rewrite advance_nil by apply Hf. exact Hf.
Qed.

Lemma spaced_run (script : list (nat * Call)) :
  forall (w : World) (ready : nat),
    (now w <= ready)%nat ->
    (forall t, (overlay_count (advance t w) <= 1)%nat) ->
    (forall t, (ready <= t)%nat -> settled (advance t w)) ->
    spaced ready script ->
    (forall t, (overlay_count (advance t (run script w)) <= 1)%nat)
    /\ exists ready', forall t, (ready' <= t)%nat -> settled (advance t (run script w)).
Proof.
  induction script as [|[t0 c] script IH]; intros w ready Hnow Hcount Hset Hsp.
  - split; [exact Hcount|]. now exists ready.
  - cbn [spaced] in Hsp. destruct Hsp as [Hle Hsp]. cbn [run].
    pose proof (Hset t0 Hle) as Hs0.
    assert (Hn0 : now (advance t0 w) = t0) by (apply now_advance; lia).
    destruct (settled_call_timeline c (advance t0 w) Hs0) as [Hc1 Hs1].
    apply (IH (do_call c (advance t0 w)) (t0 + busy_time c)%nat); trivial.
    + assert (now (do_call c (advance t0 w)) = now (advance t0 w)) as ->.
      { destruct c as [p l| |]; cbn [do_call]; trivial.
        - apply showHighlight_frame.
        - apply clearHighlight_frame. }
      lia.
    + intros t Hge. apply Hs1. lia.
Qed.

Lemma spaced_prefix (pre post : list (nat * Call)) :
  forall ready, spaced ready (pre ++ post) -> spaced ready pre.
Proof.
  induction pre as [|[t c] pre IH]; intros ready; cbn; trivial.
  intros [H1 H2]. split; eauto.
Qed.

(** X3: when every call comes after the one before has settled (500 ms
    after a [showHighlight], 300 ms after a [clearHighlight]), the document
    never holds more than one overlay: not at the end of the script, not
    at any clock value after any of its calls. *)
Theorem spaced_calls_one_overlay :
  forall (w : World) (script : list (nat * Call)),
    settled w ->
    spaced (now w) script ->
    forall (pre post : list (nat * Call)) (t : nat),
      script = pre ++ post ->
      (overlay_count (advance t (run pre w)) <= 1)%nat.
Proof.
  intros w script Hs Hsp pre post t ->.
  apply spaced_prefix in Hsp.
  apply (spaced_run pre w (now w)); trivial.
  - intros t'. rewrite advance_nil by apply Hs. now apply settled_count.
  - intros t' _. rewrite advance_nil by apply Hs. exact Hs.
Qed.

(** X3, on two requests 500 ms apart, seen at 2 s. *)
Lemma spaced_calls_one_overlay_witness :
  (overlay_count
     (advance 2000
        (run [(0%nat, ShowHighlight 1 sample_location);
              (500%nat, ShowHighlight 1 sample_location)] fresh_world)) <= 1)%nat.
Proof.
  apply (spaced_calls_one_overlay fresh_world
           [(0%nat, ShowHighlight 1 sample_location);
            (500%nat, ShowHighlight 1 sample_location)]
           (conj eq_refl eq_refl)
           (conj (le_n 0) (conj (le_n 500) I))
           _ [] 2000%nat).
  reflexivity.
Defined.

(** The settle callback on a resolved page view with a container and a
    location that can be destructured. *)
Lemma create_callback_creates (w : World) (pageNumber : Z) (location : jsvalue)
  (pageView : PageView) (container : nat) :
  getPageView (window w) pageNumber = Some pageView ->
  div pageView = Some container ->
  nullish location = false ->
  children (create_callback pageNumber location w)
  = children w ++ [(container, List.length (elements w))]
  /\ currentOverlay (create_callback pageNumber location w)
     = Some (List.length (elements w))
  /\ uncaught (create_callback pageNumber location w) = uncaught w.
Proof.
  intros Hpv Hdiv Hnull. unfold create_callback. rewrite Hpv.
  unfold createOverlayElement. rewrite Hdiv.
  pose proof (destructure_nullish location) as Hd. rewrite Hnull in Hd.
  destruct Hd as (x & y & width & height & ->).
  destruct (corner_points _ _ _ _ _) as [tl br]. cbn. auto.
Qed.

(** X4: a request made in a settled state replaces the overlay.  The old
    node stays until the fade delay has passed, the document is empty from
    then until the settle delay has passed, and from then on, if the page
    view resolves, has a container and the location is not null or
    undefined, the document holds the new element alone, which is the
    current overlay, with nothing pending. *)
Theorem showHighlight_replaces_overlay :
  forall (w : World) (pageNumber : Z) (location : jsvalue)
         (pageView : PageView) (container : nat),
    settled w ->
    getPageView (window w) pageNumber = Some pageView ->
    div pageView = Some container ->
    nullish location = false ->
    let w1 := showHighlight pageNumber location w in
    (forall t, (t < now w + 300)%nat -> children (advance t w1) = children w)
    /\ (forall t, (now w + 300 <= t)%nat -> (t < now w + 500)%nat ->
          children (advance t w1) = [])
    /\ (forall t, (now w + 500 <= t)%nat ->
          children (advance t w1) = [(container, List.length (elements w))]
          /\ currentOverlay (advance t w1) = Some (List.length (elements w))
          /\ timers (advance t w1) = []
          /\ uncaught (advance t w1) = uncaught w).
Proof.
  intros w pageNumber location pageView container Hs Hpv Hdiv Hnull. cbn zeta.
  destruct (showHighlight_phases pageNumber location w Hs) as (Ha & Hb & Hc).
  split; [exact Ha|]. split; [exact Hb|].
  intros t Hge. destruct (Hc t Hge) as (W & n & -> & Ht & Hch & Ho & Hlen & Hwin & Hu).
  rewrite <- Hwin in Hpv.
  destruct (create_callback_creates W pageNumber location pageView container
              Hpv Hdiv Hnull) as (H1 & H2 & H3).
  cbn. rewrite H1, H2, H3, Hch, Hlen, Hu.
  rewrite create_callback_timers. auto.
Qed.

(** X4, on the state with one overlay: a second request for page 1. *)
Lemma showHighlight_replaces_overlay_witness :
  settled world_with_overlay
  /\ children (advance 700 (showHighlight 1 sample_location world_with_overlay))
     = [(0%nat, 0%nat)]
  /\ children (advance 900 (showHighlight 1 sample_location world_with_overlay))
     = []
  /\ children (advance 1000 (showHighlight 1 sample_location world_with_overlay))
     = [(0%nat, 1%nat)]
  /\ currentOverlay (advance 1000 (showHighlight 1 sample_location world_with_overlay))
     = Some 1%nat.
Proof.
  assert (Hs : settled world_with_overlay).
  { split; [reflexivity|]. now exists 0%nat. }
  split; [exact Hs|].
  destruct (showHighlight_replaces_overlay world_with_overlay 1 sample_location
              {| div := Some 0%nat; viewport := identity_viewport |} 0%nat
              Hs eq_refl eq_refl eq_refl) as (Ha & Hb & Hc).
  split; [exact (Ha 700%nat ltac:(vm_compute; lia))|].
  split; [exact (Hb 900%nat ltac:(vm_compute; lia) ltac:(vm_compute; lia))|].
  destruct (Hc 1000%nat ltac:(vm_compute; lia)) as (H1 & H2 & _).
  split; [exact H1|exact H2].
Defined.

(** X5: [clearHighlight] does not call off a request that is waiting for
    its settle delay.  With nothing shown, a [clearHighlight] that comes
    before the delay of a [showHighlight] has passed changes nothing, and
    the overlay appears all the same. *)
Theorem clearHighlight_does_not_cancel_pending :
  forall (w : World) (pageNumber : Z) (location : jsvalue)
         (pageView : PageView) (container : nat) (tc t : nat),
    settled w ->
    currentOverlay w = None ->
    getPageView (window w) pageNumber = Some pageView ->
    div pageView = Some container ->
    nullish location = false ->
    (tc < now w + 500)%nat ->
    (now w + 500 <= t)%nat ->
    let w2 := clearHighlight (advance tc (showHighlight pageNumber location w)) in
    w2 = advance tc (showHighlight pageNumber location w)
    /\ children (advance t w2) = [(container, List.length (elements w))]
    /\ currentOverlay (advance t w2) = Some (List.length (elements w)).
Proof.
  intros w pageNumber location pageView container tc t [Ht Hs] Ho Hpv Hdiv Hnull
         Htc Hge.
  rewrite Ho in Hs. cbn zeta.
  assert (E1 : showHighlight pageNumber location w
               = with_timers [settle_timer pageNumber location w] w).
  { unfold showHighlight. rewrite (clearHighlight_none w Ho).
    unfold setTimeout, settle_timer. now rewrite Ht. }
  rewrite E1.
  rewrite (advance_cons_late tc _ (settle_timer pageNumber location w) [])
    by (trivial; cbn; unfold SETTLE_DELAY; lia).
  rewrite clearHighlight_none by exact Ho.
  split; [reflexivity|].
  rewrite (advance_cons_due t _ (settle_timer pageNumber location w) [])
    by (trivial; cbn; unfold SETTLE_DELAY; lia).
  cbn [callback settle_timer run_callback].
  rewrite advance_nil by (rewrite create_callback_timers; reflexivity).
  cbn [children currentOverlay with_now].
  match goal with
  | |- context [create_callback pageNumber location ?W] =>
      destruct (create_callback_creates W pageNumber location pageView container
                  Hpv Hdiv Hnull) as (H1 & H2 & _)
  end.
  rewrite H1, H2. cbn. rewrite Hs. auto.
Qed.

(** X5, on a one-page viewer: request at 0 ms, clear at 200 ms, look at
    500 ms. *)
Lemma clearHighlight_does_not_cancel_pending_witness :
  children (advance 500
              (clearHighlight (advance 200 (showHighlight 1 sample_location fresh_world))))
  = [(0%nat, 0%nat)].
Proof.
  exact (proj1 (proj2 (clearHighlight_does_not_cancel_pending fresh_world 1
           sample_location {| div := Some 0%nat; viewport := identity_viewport |}
           0%nat 200%nat 500%nat (conj eq_refl eq_refl) eq_refl eq_refl eq_refl eq_refl
           ltac:(vm_compute; lia) ltac:(vm_compute; lia)))).
Defined.

(** ** Fade-in *)

Lemma update_element_other (r r' : nat) (f : Element -> Element) :
  r <> r' ->
  forall els, nth_error (update_element r f els) r' = nth_error els r'.
Proof.
  revert r'. induction r as [|r IH]; intros [|r'] Hne [|e els]; simpl; trivial.
  - contradiction.
  - apply IH. congruence.
Qed.

Lemma fold_update_nth (v : string) (rs : list nat) (r : nat) :
  forall els,
    nth_error (fold_left (fun els r => update_element r (set_opacity v) els) rs els) r
    = if existsb (Nat.eqb r) rs
      then option_map (set_opacity v) (nth_error els r)
      else nth_error els r.
Proof.
  induction rs as [|r0 rs IH]; intros els; simpl; trivial.
  rewrite IH. destruct (Nat.eqb_spec r r0) as [->|Hne]; simpl.
  - destruct (nth_error els r0) as [e|] eqn:E.
    + rewrite (update_element_nth r0 _ _ e E). simpl.
      destruct (existsb (Nat.eqb r0) rs); reflexivity.
    + assert (nth_error (update_element r0 (set_opacity v) els) r0 = None) as ->.
      { apply nth_error_None. rewrite update_element_length.
        now apply nth_error_None. }
      destruct (existsb (Nat.eqb r0) rs); reflexivity.
  - rewrite update_element_other by congruence. reflexivity.
Qed.

(** X6: an overlay is created without inline opacity and queued for the
    next animation frame.  The frame sets the opacity of every queued
    element to "1", whatever it was (also "0" set by a [clearHighlight] in
    between), leaves every other element as it is, empties the queue, and
    touches neither the attached nodes, nor the current overlay, nor the
    timers. *)
Theorem animation_frame_fades_in :
  (forall (w : World) (pageNumber : Z) (location : jsvalue)
          (pageView : PageView) (container : nat),
     getPageView (window w) pageNumber = Some pageView ->
     div pageView = Some container ->
     nullish location = false ->
     let w' := create_callback pageNumber location w in
     opacity_of (List.length (elements w)) w' = Some EmptyString
     /\ frames w' = frames w ++ [List.length (elements w)])
  /\ (forall (w : World) (r : nat) (e : Element),
        nth_error (elements w) r = Some e ->
        (In r (frames w) -> opacity_of r (run_frame w) = Some "1")
        /\ (~ In r (frames w) -> nth_error (elements (run_frame w)) r = Some e))
  /\ (forall w : World,
        frames (run_frame w) = []
        /\ children (run_frame w) = children w
        /\ currentOverlay (run_frame w) = currentOverlay w
        /\ timers (run_frame w) = timers w
        /\ uncaught (run_frame w) = uncaught w).
Proof.
  split; [|split].
  - intros w pageNumber location pageView container Hpv Hdiv Hnull. cbn zeta.
    unfold create_callback. rewrite Hpv. unfold createOverlayElement. rewrite Hdiv.
    pose proof (destructure_nullish location) as Hd. rewrite Hnull in Hd.
    destruct Hd as (x & y & width & height & ->).
    destruct (corner_points _ _ _ _ _) as [tl br].
    unfold opacity_of. cbn. rewrite nth_error_snoc. auto.
  - intros w r e He. unfold opacity_of, run_frame. cbn.
    rewrite fold_update_nth, He. split.
    + intros Hin.
      assert (existsb (Nat.eqb r) (frames w) = true) as ->.
      { apply existsb_exists. exists r. split; trivial. apply Nat.eqb_refl. }
      reflexivity.
    + intros Hnot.
      destruct (existsb (Nat.eqb r) (frames w)) eqn:E; trivial.
      apply existsb_exists in E. destruct E as (x & Hin & Hx).
      apply Nat.eqb_eq in Hx. subst x. contradiction.
  - intros w. cbn. auto.
Qed.

(** X6, on the state with one overlay, cleared before its frame came. *)
Lemma animation_frame_fades_in_witness :
  opacity_of 0 world_with_overlay = Some EmptyString
  /\ opacity_of 0 (clearHighlight world_with_overlay) = Some "0"
  /\ opacity_of 0 (run_frame (clearHighlight world_with_overlay)) = Some "1".
Proof.
  split; [reflexivity|]. split; [reflexivity|].
  destruct animation_frame_fades_in as (_ & H & _).
  apply (proj1 (H (clearHighlight world_with_overlay) 0%nat _ eq_refl)).
  left. reflexivity.
Defined.

(** ** From the panel to the overlay *)

Lemma create_callback_rect_element (w : World) (pageNumber : Z)
  (x y width height : Q) (pageView : PageView) (container : nat) :
  getPageView (window w) pageNumber = Some pageView ->
  div pageView = Some container ->
  nth_error (elements (create_callback pageNumber (rect x y width height) w))
            (List.length (elements w))
  = Some {| className := "filterHighlightOverlay";
            style := overlay_style
                       (fin_point (convertToViewportPoint (viewport pageView)
                                     x (y + height)))
                       (fin_point (convertToViewportPoint (viewport pageView)
                                     (x + width) y)) |}.
Proof.
  intros Hpv Hdiv. unfold create_callback. rewrite Hpv.
  destruct pageView as [d vp]. cbn in Hdiv. subst d.
  rewrite createOverlayElement_rect. cbn. apply nth_error_snoc.
Qed.

Lemma click_no_dispatch (highlightData : HighlightData) (linkService : LinkService)
  (w : World) :
  pdfViewer linkService = None \/ ~ four_entries (location highlightData) ->
  click highlightData linkService w = w.
Proof.
  intros H. unfold click.
  destruct (navigateToHighlight_cases highlightData linkService)
    as [(viewer & x & y & width & height & Hv & Hl & _)|[_ ->]]; [|reflexivity].
  destruct H as [H|H]; [congruence|].
  exfalso. apply H. rewrite Hl. now exists x, y, width, height.
Qed.

Lemma click_dispatch (highlightData : HighlightData) (linkService : LinkService)
  (viewer : PDFViewer) (x y width height : prim) (w : World) :
  pdfViewer linkService = Some viewer ->
  location highlightData = VArray [x; y; width; height] ->
  click highlightData linkService w
  = showHighlight (page highlightData) (location_record x y width height) w.
Proof.
  intros Hv Hl. unfold click, navigateToHighlight. rewrite Hv, Hl. reflexivity.
Qed.

(** X7: a click on a panel item whose link service has no viewer, or whose
    location is not an array of four entries, does nothing to the overlay.
    A click on an item with four finite numbers [x, y, width, height], made
    when the overlay is settled and the item's page is rendered, leaves,
    from 500 ms on, exactly one overlay in the page's container: the box
    spanned by the transformed corners [(x, y + height)] and
    [(x + width, y)]. *)
Theorem click_shows_overlay :
  forall (highlightData : HighlightData) (linkService : LinkService) (w : World),
    (pdfViewer linkService = None \/ ~ four_entries (location highlightData) ->
       click highlightData linkService w = w)
    /\ (forall (viewer : PDFViewer) (x y width height : Q)
               (pageView : PageView) (container : nat) (t : nat),
          pdfViewer linkService = Some viewer ->
          location highlightData
          = VArray [PNumber (Fin x); PNumber (Fin y);
                    PNumber (Fin width); PNumber (Fin height)] ->
          settled w ->
          getPageView (window w) (page highlightData) = Some pageView ->
          div pageView = Some container ->
          (now w + 500 <= t)%nat ->
          let w' := advance t (click highlightData linkService w) in
          children w' = [(container, List.length (elements w))]
          /\ currentOverlay w' = Some (List.length (elements w))
          /\ nth_error (elements w') (List.length (elements w))
             = Some {| className := "filterHighlightOverlay";
                       style := overlay_style
                                  (fin_point (convertToViewportPoint
                                                (viewport pageView) x (y + height)))
                                  (fin_point (convertToViewportPoint
                                                (viewport pageView) (x + width) y)) |}).
Proof.
  intros highlightData linkService w. split; [apply click_no_dispatch|].
  intros viewer x y width height pageView container t Hv Hl Hs Hpv Hdiv Hge.
  cbn zeta. rewrite (click_dispatch _ _ viewer _ _ _ _ w Hv Hl).
  change (location_record (PNumber (Fin x)) (PNumber (Fin y))
            (PNumber (Fin width)) (PNumber (Fin height)))
    with (rect x y width height).
  destruct (showHighlight_phases (page highlightData) (rect x y width height) w Hs)
    as (_ & _ & Hc).
  destruct (Hc t Hge) as (W & n & -> & Ht & Hch & Ho & Hlen & Hwin & _).
  rewrite <- Hwin in Hpv.
  destruct (create_callback_creates W (page highlightData) (rect x y width height)
              pageView container Hpv Hdiv eq_refl) as (H1 & H2 & _).
  cbn [children currentOverlay elements with_now].
  rewrite H1, H2, Hch, <- Hlen.
  split; [reflexivity|]. split; [reflexivity|].
  exact (create_callback_rect_element W (page highlightData) x y width height
           pageView container Hpv Hdiv).
Qed.

(** X7, on the sample highlight of page 1, clicked on a new viewer. *)
Lemma click_shows_overlay_witness :
  children
    (advance 500
       (click {| page := 1; text := "note";
                 location := VArray [PNumber (Fin 10); PNumber (Fin (-50));
                                     PNumber (Fin 20); PNumber (Fin (-30))] |}
              {| pdfViewer := Some {| _pages := None |} |} fresh_world))
  = [(0%nat, 0%nat)]
  /\ click {| page := 1; text := "note"; location := VPrim PNull |}
           {| pdfViewer := Some {| _pages := None |} |} fresh_world
     = fresh_world.
Proof.
  split.
  - refine (proj1 (proj2 (click_shows_overlay
                            {| page := 1; text := "note";
                               location := VArray [PNumber (Fin 10); PNumber (Fin (-50));
                                                   PNumber (Fin 20); PNumber (Fin (-30))] |}
                            {| pdfViewer := Some {| _pages := None |} |} fresh_world)
              {| _pages := None |} 10 (-50) 20 (-30)
              {| div := Some 0%nat; viewport := identity_viewport |} 0%nat 500%nat
              eq_refl eq_refl (conj eq_refl eq_refl) eq_refl eq_refl _)).
    vm_compute. lia.
  - apply (proj1 (click_shows_overlay
                    {| page := 1; text := "note"; location := VPrim PNull |}
                    {| pdfViewer := Some {| _pages := None |} |} fresh_world)).
    right. intros (x & y & wd & h & H). discriminate H.
Defined.

(** ** The filter panel *)

Lemma fold_destroy_frame (items : list FilterView) :
  forall s : FilterViewer,
    let s' := fold_left (fun s' item => view_destroy item s') items s in
    panel_highlightsData s' = panel_highlightsData s
    /\ panel_filterItems s' = panel_filterItems s
    /\ panel_next_node s' = panel_next_node s
    /\ panel_console s' = panel_console s
    /\ (panel_children s = [] -> panel_children s' = []).
Proof.
  induction items as [|v items IH]; intros s; cbn; [auto 10|].
  destruct (IH (view_destroy v s)) as (H1 & H2 & H3 & H4 & H5).
  cbn in *. rewrite H1, H2, H3, H4. repeat split; trivial.
  intros Hc. apply H5. now rewrite Hc.
Qed.

Lemma views_for_data (highlights : list HighlightData) :
  forall index node, map view_highlightData (views_for index node highlights) = highlights.
Proof.
  induction highlights as [|h hs IH]; intros index node; cbn; [|rewrite IH]; auto.
Qed.

Lemma views_for_ids (highlights : list HighlightData) :
  forall index node,
    map view_id (views_for index node highlights)
    = seq (index + 1) (List.length highlights).
Proof.
  induction highlights as [|h hs IH]; intros index node; cbn; trivial.
  rewrite IH. reflexivity.
Qed.

Lemma views_for_anchors (highlights : list HighlightData) :
  forall index node,
    map view_anchor (views_for index node highlights)
    = seq node (List.length highlights).
Proof.
  induction highlights as [|h hs IH]; intros index node; cbn; trivial.
  now rewrite IH.
Qed.

(** The loop of [#render()] over a run of records followed by [tail]. *)
Lemma render_items_records (getAnchorUrl : string -> string)
  (highlights : list HighlightData) (tail : list (option HighlightData)) :
  forall (index : nat) (s : FilterViewer),
    render_items getAnchorUrl (map Some highlights ++ tail) index s
    = render_items getAnchorUrl tail (index + List.length highlights)
        {| panel_children :=
             panel_children s
             ++ map (anchor_of getAnchorUrl)
                    (views_for index (panel_next_node s) highlights);
           panel_highlightsData := panel_highlightsData s;
           panel_filterItems :=
             panel_filterItems s ++ views_for index (panel_next_node s) highlights;
           panel_next_node := (panel_next_node s + List.length highlights)%nat;
           panel_console := panel_console s |}.
Proof.
  induction highlights as [|h hs IH]; intros index s.
  - cbn. rewrite !app_nil_r, !Nat.add_0_r. now destruct s.
  - cbn [map app render_items new_PDFFilterView]. rewrite IH.
    cbn. rewrite <- !app_assoc. cbn.
    now rewrite <- !Nat.add_succ_comm.
Qed.

(** What [#render()] starts from: an empty container and no views. *)
Lemma panel_render_cleared (getAnchorUrl : string -> string) (s : FilterViewer) :
  panel_render getAnchorUrl s
  = let s3 := {| panel_children := [];
                 panel_highlightsData := panel_highlightsData s;
                 panel_filterItems := [];
                 panel_next_node := panel_next_node s;
                 panel_console := panel_console s |} in
    match panel_highlightsData s with
    | JNull | JArray [] => (with_panel_children [NoHighlightsMessage] s3, false)
    | JArray entries => render_items getAnchorUrl entries 0 s3
    end.
Proof.
  unfold panel_render. cbn zeta.
  destruct (fold_destroy_frame (panel_filterItems (with_panel_children [] s))
              (with_panel_children [] s)) as (H1 & H2 & H3 & H4 & H5).
  cbn in H1, H2, H3, H4, H5. specialize (H5 eq_refl).
  set (s2 := fold_left _ _ _) in *.
  assert (E : with_panel_items [] s2
              = {| panel_children := [];
                   panel_highlightsData := panel_highlightsData s;
                   panel_filterItems := [];
                   panel_next_node := panel_next_node s;
                   panel_console := panel_console s |}).
  { unfold with_panel_items. now rewrite H1, H3, H4, H5. }
  rewrite E. reflexivity.
Qed.

Lemma render_items_all (getAnchorUrl : string -> string)
  (highlights : list HighlightData) (index : nat) (s : FilterViewer) :
  render_items getAnchorUrl (map Some highlights) index s
  = ({| panel_children :=
          panel_children s
          ++ map (anchor_of getAnchorUrl)
                 (views_for index (panel_next_node s) highlights);
        panel_highlightsData := panel_highlightsData s;
        panel_filterItems :=
          panel_filterItems s ++ views_for index (panel_next_node s) highlights;
        panel_next_node := (panel_next_node s + List.length highlights)%nat;
        panel_console := panel_console s |}, false).
Proof.
  pose proof (render_items_records getAnchorUrl highlights [] index s) as H.
  rewrite app_nil_r in H. exact H.
Qed.

(** [#render()] on an array of records. *)
Lemma panel_render_records (getAnchorUrl : string -> string)
  (highlights : list HighlightData) (s : FilterViewer) :
  panel_highlightsData s = JArray (map Some highlights) ->
  panel_render getAnchorUrl s
  = ({| panel_children :=
          match highlights with
          | [] => [NoHighlightsMessage]
          | _ => map (anchor_of getAnchorUrl)
                     (views_for 0 (panel_next_node s) highlights)
          end;
        panel_highlightsData := JArray (map Some highlights);
        panel_filterItems := views_for 0 (panel_next_node s) highlights;
        panel_next_node := (panel_next_node s + List.length highlights)%nat;
        panel_console := panel_console s |}, false).
Proof.
  intros Hd. rewrite panel_render_cleared, Hd. cbn zeta.
  destruct highlights as [|h hs].
  - cbn. now rewrite Nat.add_0_r.
  - change (map Some (h :: hs)) with (Some h :: map Some hs) at 1.
    cbv iota beta.
    change (Some h :: map Some hs) with (map Some (h :: hs)).
    rewrite render_items_all. reflexivity.
Qed.

(** X8: a load that succeeds replaces the whole content of the panel,
    whatever it showed.  For an array of [n] records the container then
    holds exactly [n] anchors, in the order of the array, with ids 1 to
    [n], each built from its own record, on [n] distinct new nodes, and a
    click on an anchor navigates to its own record and does not follow the
    link; for an empty array or [null] it holds the one message that
    nothing was found, and there are no views.  Nothing is logged. *)
Theorem load_replaces_panel :
  forall (getAnchorUrl : string -> string) (typeErrorMessage statusText : string)
         (highlights : list HighlightData) (s : FilterViewer),
    let array_loaded :=
      loadHighlights getAnchorUrl typeErrorMessage
        (FetchResponse true statusText (JsonValue (JArray (map Some highlights)))) s in
    let null_loaded :=
      loadHighlights getAnchorUrl typeErrorMessage
        (FetchResponse true statusText (JsonValue JNull)) s in
    panel_filterItems array_loaded = views_for 0 (panel_next_node s) highlights
    /\ map view_highlightData (panel_filterItems array_loaded) = highlights
    /\ map view_pageNumber (panel_filterItems array_loaded) = map page highlights
    /\ (forall linkService : LinkService,
          map (fun v => view_onclick v linkService) (panel_filterItems array_loaded)
          = map (fun h => (navigateToHighlight h linkService, false)) highlights)
    /\ map view_id (panel_filterItems array_loaded) = seq 1 (List.length highlights)
    /\ NoDup (map view_anchor (panel_filterItems array_loaded))
    /\ panel_children array_loaded
       = match highlights with
         | [] => [NoHighlightsMessage]
         | _ => map (anchor_of getAnchorUrl) (panel_filterItems array_loaded)
         end
    /\ panel_highlightsData array_loaded = JArray (map Some highlights)
    /\ panel_console array_loaded = panel_console s
    /\ panel_children null_loaded = [NoHighlightsMessage]
    /\ panel_filterItems null_loaded = []
    /\ panel_console null_loaded = panel_console s.
Proof.
  intros getAnchorUrl typeErrorMessage statusText highlights s. cbn zeta.
  unfold loadHighlights.
  rewrite (panel_render_records getAnchorUrl highlights
             (with_panel_data (JArray (map Some highlights)) s) eq_refl).
  rewrite panel_render_cleared.
  cbn [with_panel_data panel_highlightsData panel_next_node panel_console
       panel_filterItems panel_children with_panel_children].
  split; [reflexivity|].
  split; [apply views_for_data|].
  split.
  { unfold view_pageNumber.
    rewrite <- (views_for_data highlights 0 (panel_next_node s)) at 2.
    now rewrite map_map. }
  split.
  { intros linkService. unfold view_onclick.
    rewrite <- (views_for_data highlights 0 (panel_next_node s)) at 2.
    now rewrite map_map. }
  split; [apply (views_for_ids highlights 0)|].
  split; [rewrite views_for_anchors; apply seq_NoDup|].
  repeat split.
Qed.

Lemma iter_catch_children (message : string) (n : nat) (s : FilterViewer) :
  let s' := Nat.iter n (panel_catch message) s in
  panel_children s' = panel_children s ++ repeat (ErrorMessage message) n
  /\ panel_filterItems s' = panel_filterItems s
  /\ panel_highlightsData s' = panel_highlightsData s
  /\ panel_console s' = (panel_console s + n)%nat.
Proof.
  induction n as [|n IH].
  - cbn. now rewrite app_nil_r, Nat.add_0_r.
  - cbn zeta in *.
    change (Nat.iter (S n) (panel_catch message) s)
      with (panel_catch message (Nat.iter n (panel_catch message) s)).
    destruct IH as (H1 & H2 & H3 & H4).
    remember (Nat.iter n (panel_catch message) s) as sn.
    unfold panel_catch, panel_renderError.
    cbn [panel_children panel_filterItems panel_highlightsData panel_console
         with_panel_children].
    rewrite H1, H2, H3, H4, <- app_assoc.
    split; [|split; [|split]]; trivial.
    f_equal. change ([ErrorMessage message]) with (repeat (ErrorMessage message) 1).
    rewrite <- repeat_app. f_equal. lia.
Qed.

(** X9: a load that fails (the request is rejected, the response is not
    ok, or its body is not JSON) keeps whatever the panel showed, views
    and data included, appends one error message after it and logs one
    error.  Failures pile up: after [n] rejected loads the panel ends in
    [n] error messages. *)
Theorem failed_load_appends_error :
  forall (getAnchorUrl : string -> string) (typeErrorMessage : string)
         (s : FilterViewer),
    (forall outcome message,
       outcome = FetchRejected message
       \/ (exists statusText json,
             outcome = FetchResponse false statusText json
             /\ message = ("Failed to load highlights: " ++ statusText)%string)
       \/ (exists statusText, outcome = FetchResponse true statusText (JsonRejected message)) ->
       let s' := loadHighlights getAnchorUrl typeErrorMessage outcome s in
       panel_children s' = panel_children s ++ [ErrorMessage message]
       /\ panel_filterItems s' = panel_filterItems s
       /\ panel_highlightsData s' = panel_highlightsData s
       /\ panel_console s' = S (panel_console s))
    /\ (forall (message : string) (n : nat),
          panel_children
            (Nat.iter n (loadHighlights getAnchorUrl typeErrorMessage
                           (FetchRejected message)) s)
          = panel_children s ++ repeat (ErrorMessage message) n).
Proof.
  intros getAnchorUrl typeErrorMessage s. split.
  - intros outcome message [->|[(st & json & -> & ->)|(st & ->)]]; cbn; auto.
  - intros message n.
    apply (iter_catch_children message n s).
Qed.

(** X9, on a new panel: a 404 answer. *)
Lemma failed_load_appends_error_witness :
  panel_children
    (loadHighlights (fun h => h) "TypeError"
       (FetchResponse false "Not Found" (JsonRejected EmptyString)) new_FilterViewer)
  = [ErrorMessage "Failed to load highlights: Not Found"].
Proof.
  refine (proj1 (proj1 (failed_load_appends_error (fun h => h) "TypeError"
                          new_FilterViewer) _ _ _)).
  right. left. exists "Not Found", (JsonRejected EmptyString). split; reflexivity.
Defined.

(** X10: a [null] entry in the array stops the rendering at that entry.
    The records before it are in the panel, as anchors and as views, the
    entries after it are not, one error message with the engine's text
    follows the anchors, one error is logged, and the array is kept as the
    panel's data. *)
Theorem null_entry_stops_render :
  forall (getAnchorUrl : string -> string) (typeErrorMessage statusText : string)
         (before : list HighlightData) (after : list (option HighlightData))
         (s : FilterViewer),
    let s' := loadHighlights getAnchorUrl typeErrorMessage
                (FetchResponse true statusText
                   (JsonValue (JArray (map Some before ++ None :: after)))) s in
    panel_filterItems s' = views_for 0 (panel_next_node s) before
    /\ panel_children s'
       = map (anchor_of getAnchorUrl) (views_for 0 (panel_next_node s) before)
         ++ [ErrorMessage typeErrorMessage]
    /\ panel_highlightsData s' = JArray (map Some before ++ None :: after)
    /\ panel_console s' = S (panel_console s).
Proof.
  intros getAnchorUrl typeErrorMessage statusText before after s. cbn zeta.
  unfold loadHighlights. rewrite panel_render_cleared.
  cbn [with_panel_data panel_highlightsData panel_next_node panel_console].
  cbn zeta.
  destruct before as [|h hs].
  - cbn. auto.
  - change (map Some (h :: hs) ++ None :: after)
      with (Some h :: (map Some hs ++ None :: after)) at 1.
    cbv iota beta.
    change (Some h :: (map Some hs ++ None :: after))
      with (map Some (h :: hs) ++ None :: after).
    rewrite render_items_records. cbn. auto.
Qed.

Lemma filter_anchor_absent (getAnchorUrl : string -> string) (a : nat)
  (views : list FilterView) :
  ~ In a (map view_anchor views) ->
  filter (fun n => negb (is_anchor_of a n)) (map (anchor_of getAnchorUrl) views)
  = map (anchor_of getAnchorUrl) views.
Proof.
  induction views as [|u views IH]; cbn; trivial.
  intros Hnot. destruct (Nat.eqb_spec (view_anchor u) a) as [E|_].
  - exfalso. apply Hnot. now left.
  - cbn. rewrite IH; trivial. intros Hin. apply Hnot. now right.
Qed.

Lemma filter_anchor_present (getAnchorUrl : string -> string)
  (pre post : list FilterView) (v : FilterView) :
  NoDup (map view_anchor (pre ++ v :: post)) ->
  filter (fun n => negb (is_anchor_of (view_anchor v) n))
         (map (anchor_of getAnchorUrl) (pre ++ v :: post))
  = map (anchor_of getAnchorUrl) (pre ++ post).
Proof.
  intros Hnd. rewrite map_app in Hnd. cbn in Hnd.
  pose proof (NoDup_remove_2 _ _ _ Hnd) as Hnot.
  rewrite !map_app, filter_app. cbn. rewrite Nat.eqb_refl. cbn.
  rewrite !filter_anchor_absent; trivial.
  - intros Hin. apply Hnot. apply in_or_app. now right.
  - intros Hin. apply Hnot. apply in_or_app. now left.
Qed.

(** X11: in a panel that shows a loaded array, [destroy()] on one of the
    views takes exactly that view's anchor out of the container and leaves
    the other anchors as they are and in their order; the view stays in
    the viewer's list of items; a second [destroy()] changes nothing. *)
Theorem destroy_removes_own_anchor :
  forall (getAnchorUrl : string -> string) (typeErrorMessage statusText : string)
         (highlights : list HighlightData) (s : FilterViewer)
         (pre post : list FilterView) (v : FilterView),
    let loaded :=
      loadHighlights getAnchorUrl typeErrorMessage
        (FetchResponse true statusText (JsonValue (JArray (map Some highlights)))) s in
    panel_filterItems loaded = pre ++ v :: post ->
    panel_children loaded = map (anchor_of getAnchorUrl) (pre ++ v :: post)
    /\ panel_children (view_destroy v loaded)
       = map (anchor_of getAnchorUrl) (pre ++ post)
    /\ panel_filterItems (view_destroy v loaded) = pre ++ v :: post
    /\ view_destroy v (view_destroy v loaded) = view_destroy v loaded.
Proof.
  intros getAnchorUrl typeErrorMessage statusText highlights s pre post v loaded Hitems.
  assert (Hc : panel_children loaded = map (anchor_of getAnchorUrl) (pre ++ v :: post)).
  { unfold loaded, loadHighlights in *.
    rewrite (panel_render_records getAnchorUrl highlights
               (with_panel_data (JArray (map Some highlights)) s) eq_refl) in *.
    cbn in Hitems |- *. destruct highlights as [|h hs].
    - cbn in Hitems. destruct pre; discriminate.
    - now rewrite <- Hitems. }
  assert (Hnd : NoDup (map view_anchor (pre ++ v :: post))).
  { rewrite <- Hitems. unfold loaded, loadHighlights.
    rewrite (panel_render_records getAnchorUrl highlights
               (with_panel_data (JArray (map Some highlights)) s) eq_refl).
    cbn. rewrite views_for_anchors. apply seq_NoDup. }
  clearbody loaded.
  split; [exact Hc|].
  assert (Hd : panel_children (view_destroy v loaded)
               = map (anchor_of getAnchorUrl) (pre ++ post)).
  { unfold view_destroy. cbn. rewrite Hc. now apply filter_anchor_present. }
  split; [exact Hd|]. split; [exact Hitems|].
  unfold view_destroy at 1. unfold with_panel_children. rewrite Hd.
  rewrite filter_anchor_absent.
  - destruct (view_destroy v loaded) eqn:E. cbn in *. now rewrite Hd.
  - rewrite map_app in Hnd |- *. cbn in Hnd. now apply NoDup_remove_2 in Hnd.
Qed.

(** X11, on a panel with two highlights: the first view destroyed. *)
Lemma destroy_removes_own_anchor_witness :
  let h1 := {| page := 1; text := "a"; location := VPrim PNull |} in
  let h2 := {| page := 2; text := "b"; location := VPrim PNull |} in
  let v1 := {| view_id := 1; view_highlightData := h1; view_anchor := 0 |} in
  let v2 := {| view_id := 2; view_highlightData := h2; view_anchor := 1 |} in
  panel_children
    (view_destroy v1
       (loadHighlights (fun h => h) "TypeError"
          (FetchResponse true "OK" (JsonValue (JArray [Some h1; Some h2])))
          new_FilterViewer))
  = [anchor_of (fun h => h) v2].
Proof.
  intros h1 h2 v1 v2.
  exact (proj1 (proj2 (destroy_removes_own_anchor (fun h => h) "TypeError" "OK"
                         [h1; h2] new_FilterViewer [] [v2] v1 eq_refl))).
Defined.

(** X12: [reset()] empties the panel whatever it showed, records, message
    or errors: no child is left in the container, no view, no data.  A
    load after a reset shows what it would show on a new viewer: a
    rejected one its error message alone. *)
Theorem reset_empties_panel :
  forall (getAnchorUrl : string -> string) (typeErrorMessage : string)
         (s : FilterViewer),
    panel_reset s
    = {| panel_children := []; panel_highlightsData := JNull;
         panel_filterItems := []; panel_next_node := panel_next_node s;
         panel_console := panel_console s |}
    /\ panel_reset (panel_reset s) = panel_reset s
    /\ (forall message,
          panel_children
            (loadHighlights getAnchorUrl typeErrorMessage (FetchRejected message)
               (panel_reset s))
          = [ErrorMessage message]).
Proof.
  intros getAnchorUrl typeErrorMessage s.
  assert (E : panel_reset s
              = {| panel_children := []; panel_highlightsData := JNull;
                   panel_filterItems := []; panel_next_node := panel_next_node s;
                   panel_console := panel_console s |}).
  { unfold panel_reset. cbn zeta.
    destruct (fold_destroy_frame (panel_filterItems (with_panel_data JNull s))
                (with_panel_data JNull s)) as (H1 & H2 & H3 & H4 & _).
    cbn in H1, H2, H3, H4.
    unfold with_panel_children, with_panel_items. cbn.
    now rewrite H1, H3, H4. }
  split; [exact E|]. split.
  - rewrite E. reflexivity.
  - intros message. rewrite E. reflexivity.
Qed.

(** ** The tab switcher *)

Lemma classList_add_in (token : string) (l : list string) :
  In token (classList_add token l).
Proof.
  unfold classList_add. destruct (existsb (String.eqb token) l) eqn:E.
  - apply existsb_exists in E. destruct E as (x & Hin & Hx).
    apply String.eqb_eq in Hx. now subst x.
  - apply in_or_app. right. now left.
Qed.

Lemma classList_remove_out (token : string) (l : list string) :
  ~ In token (classList_remove token l).
Proof.
  unfold classList_remove. intros H. apply filter_In in H.
  destruct H as [_ H]. rewrite String.eqb_refl in H. discriminate.
Qed.

(** The state in which all four elements exist and are referred to. *)
Lemma tabs_bound_inv (st : PDFTabManager * TabDocument) :
  tabs_bound st ->
  exists cur b1 b2 f1 f2 l1 l2 box1 box2,
    st = ({| currentTab := cur;
             tabs_1 := {| entry_button := Some FirstTab; entry_frame := Some FirstTab;
                          entry_loaded := l1 |};
             tabs_2 := {| entry_button := Some SecondTab; entry_frame := Some SecondTab;
                          entry_loaded := l2 |} |},
          {| tabModeContainer := box1; outerContainer := box2;
             tab1 := Some b1; tab2 := Some b2;
             viewerFrame1 := Some f1; viewerFrame2 := Some f2 |}).
Proof.
  destruct st as [[cur t1 t2] [box1 box2 [b1|] [b2|] [f1|] [f2|]]];
    unfold tabs_bound; cbn; intros (H1 & H2 & H3 & H4 & H5 & H6);
    try contradiction.
  exists cur, b1, b2, f1, f2, (entry_loaded t1), (entry_loaded t2), box1, box2.
  now rewrite H1, H2.
Qed.

(** X13: a switch between the two tabs of a bound manager shows the new
    tab's frame and hides the other, marks the new tab's button "active"
    and unmarks the other, makes the new tab current and loaded, and does
    not throw.  The other tab's [loaded] flag, the frames' [src] and the
    buttons' listeners stay as they were. *)
Theorem switch_shows_exactly_one :
  forall (st : PDFTabManager * TabDocument) (n : Z),
    tabs_bound st ->
    (currentTab (fst st) = 1 \/ currentTab (fst st) = 2)%Z ->
    (n = 1 \/ n = 2)%Z ->
    n <> currentTab (fst st) ->
    let st' := after_switch n st in
    switchToTab n (fst st) (snd st) = (Normal st', st')
    /\ currentTab (fst st') = n
    /\ tabs_consistent st'
    /\ tabs_bound st'
    /\ (forall e', tabs_get n (fst st') = Some e' -> entry_loaded e' = true)
    /\ (forall e e', tabs_get (currentTab (fst st)) (fst st) = Some e ->
          tabs_get (currentTab (fst st)) (fst st') = Some e' ->
          entry_loaded e' = entry_loaded e)
    /\ (forall r f f', get_frame r (snd st) = Some f ->
          get_frame r (snd st') = Some f' -> frame_src f' = frame_src f)
    /\ (forall r b b', get_button r (snd st) = Some b ->
          get_button r (snd st') = Some b' -> button_click b' = button_click b).
Proof.
  intros st n Hb Hcur Hn Hne.
  destruct (tabs_bound_inv st Hb)
    as (cur & b1 & b2 & f1 & f2 & l1 & l2 & box1 & box2 & ->).
  clear Hb. cbn [fst snd currentTab] in *.
  destruct Hcur as [-> | ->], Hn as [-> | ->]; try congruence; clear Hne; cbn.
  all: split; [reflexivity|]; split; [reflexivity|].
  all: split;
    [unfold tabs_consistent, frame_shows, button_active; cbn;
     split; [eexists; split; reflexivity|];
     split; [eexists; split; reflexivity|];
     split; [eexists; split; [reflexivity|apply classList_add_in]|];
     intros (b & Hb & Hin); inversion Hb; subst b; cbn in Hin;
     exact (classList_remove_out _ _ Hin)|].
  all: split; [unfold tabs_bound; cbn; repeat split; discriminate|].
  all: split; [intros e' He; inversion He; subst; reflexivity|].
  all: split; [intros e e' He He'; inversion He; inversion He'; subst; reflexivity|].
  all: split;
    [intros [|] f f' Hf Hf'; cbn in Hf, Hf'; inversion Hf; inversion Hf'; subst;
     reflexivity
    |intros [|] b b' Hb Hb'; cbn in Hb, Hb'; inversion Hb; inversion Hb'; subst;
     reflexivity].
Qed.

(** X13, on the tabs of the sample page: from tab 1 to tab 2. *)
Lemma switch_shows_exactly_one_witness :
  tabs_bound initialised_tabs
  /\ currentTab (fst (after_switch 2 initialised_tabs)) = 2%Z
  /\ tabs_consistent (after_switch 2 initialised_tabs).
Proof.
  assert (Hb : tabs_bound initialised_tabs).
  { unfold tabs_bound. cbn. repeat split; discriminate. }
  split; [exact Hb|].
  destruct (switch_shows_exactly_one initialised_tabs 2 Hb (or_introl eq_refl)
              (or_intror eq_refl) ltac:(discriminate)) as (_ & H2 & H3 & _).
  split; [exact H2|exact H3].
Defined.

(** X14: [switchToTab] with a number that is neither 1 nor 2 throws a
    TypeError, and not before it has hidden the frame of the current tab:
    the manager, the buttons and the other frame are as before, and the
    current tab's frame has display "none". *)
Theorem switch_to_unknown_tab_throws :
  forall (st : PDFTabManager * TabDocument) (n : Z),
    tabs_bound st ->
    (currentTab (fst st) = 1 \/ currentTab (fst st) = 2)%Z ->
    n <> 1%Z -> n <> 2%Z ->
    let cur := tab_ref (currentTab (fst st)) in
    let st' := after_switch n st in
    fst (switchToTab n (fst st) (snd st)) = Throw TypeError
    /\ fst st' = fst st
    /\ frame_shows "none" cur (snd st')
    /\ get_frame (other_ref cur) (snd st') = get_frame (other_ref cur) (snd st)
    /\ (forall r, get_button r (snd st') = get_button r (snd st))
    /\ untouched_by_switch (snd st) (snd st').
Proof.
  intros st n Hb Hcur H1 H2.
  destruct (tabs_bound_inv st Hb)
    as (cur & b1 & b2 & f1 & f2 & l1 & l2 & box1 & box2 & ->).
  clear Hb. cbn [fst snd currentTab] in *.
  unfold after_switch, switchToTab, tabs_get. cbn [fst snd currentTab].
  assert (E1 : (n =? 1)%Z = false) by now apply Z.eqb_neq.
  assert (E2 : (n =? 2)%Z = false) by now apply Z.eqb_neq.
  destruct Hcur as [-> | ->].
  - assert (E : (1 =? n)%Z = false) by (apply Z.eqb_neq; congruence).
    rewrite E, E1, E2. cbn. unfold frame_shows, untouched_by_switch. cbn.
    repeat split; try (intros [|]; reflexivity). eexists. split; reflexivity.
  - assert (E : (2 =? n)%Z = false) by (apply Z.eqb_neq; congruence).
    rewrite E, E1, E2. cbn. unfold frame_shows, untouched_by_switch. cbn.
    repeat split; try (intros [|]; reflexivity). eexists. split; reflexivity.
Qed.

(** X14, on the tabs of the sample page: tab 3 asked for. *)
Lemma switch_to_unknown_tab_throws_witness :
  fst (switchToTab 3 (fst initialised_tabs) (snd initialised_tabs)) = Throw TypeError
  /\ frame_shows "none" FirstTab (snd (after_switch 3 initialised_tabs))
  /\ get_frame SecondTab (snd (after_switch 3 initialised_tabs))
     = Some {| frame_display := "none";
               frame_src := "b.html?file=b.pdf&disableAutoFetch=true" |}.
Proof.
  assert (Hb : tabs_bound initialised_tabs).
  { unfold tabs_bound. cbn. repeat split; discriminate. }
  destruct (switch_to_unknown_tab_throws initialised_tabs 3 Hb (or_introl eq_refl)
              ltac:(discriminate) ltac:(discriminate)) as (H1 & _ & H3 & H4 & _).
  split; [exact H1|]. split; [exact H3|]. exact H4.
Defined.

Lemma set_frame_display_untouched (v : string) (r : option TabRef) (doc : TabDocument) :
  untouched_by_switch doc (set_frame_display v r doc).
Proof.
  unfold untouched_by_switch, set_frame_display.
  destruct r as [[|]|]; cbn.
  - destruct (viewerFrame1 doc) eqn:E; cbn; repeat split; intros [|]; cbn;
      rewrite ?E; reflexivity.
  - destruct (viewerFrame2 doc) eqn:E; cbn; repeat split; intros [|]; cbn;
      rewrite ?E; reflexivity.
  - repeat split.
Qed.

Lemma deactivate_button_untouched (r : option TabRef) (doc : TabDocument) :
  untouched_by_switch doc (deactivate_button r doc).
Proof.
  unfold untouched_by_switch, deactivate_button.
  destruct r as [[|]|]; cbn.
  - destruct (tab1 doc) eqn:E; cbn; repeat split; intros [|]; cbn;
      rewrite ?E; reflexivity.
  - destruct (tab2 doc) eqn:E; cbn; repeat split; intros [|]; cbn;
      rewrite ?E; reflexivity.
  - repeat split.
Qed.

Lemma activate_button_untouched (r : option TabRef) (doc : TabDocument) :
  untouched_by_switch doc (activate_button r doc).
Proof.
  unfold untouched_by_switch, activate_button.
  destruct r as [[|]|]; cbn.
  - destruct (tab1 doc) eqn:E; cbn; repeat split; intros [|]; cbn;
      rewrite ?E; reflexivity.
  - destruct (tab2 doc) eqn:E; cbn; repeat split; intros [|]; cbn;
      rewrite ?E; reflexivity.
  - repeat split.
Qed.

Lemma untouched_trans (d1 d2 d3 : TabDocument) :
  untouched_by_switch d1 d2 -> untouched_by_switch d2 d3 -> untouched_by_switch d1 d3.
Proof.
  unfold untouched_by_switch.
  intros (A1 & A2 & A3 & A4) (B1 & B2 & B3 & B4).
  repeat split; intros; congruence.
Qed.

Lemma untouched_refl (d : TabDocument) : untouched_by_switch d d.
Proof. unfold untouched_by_switch. auto. Qed.

Lemma entries_kept_refl (m : PDFTabManager) : entries_kept m m.
Proof. unfold entries_kept. auto 10. Qed.

Lemma entries_kept_trans (m1 m2 m3 : PDFTabManager) :
  entries_kept m1 m2 -> entries_kept m2 m3 -> entries_kept m1 m3.
Proof.
  unfold entries_kept.
  intros (A1 & A2 & A3 & A4 & A5 & A6) (B1 & B2 & B3 & B4 & B5 & B6).
  repeat split; try congruence; auto.
Qed.

(** One call of [switchToTab], with any number, on any state. *)
Lemma after_switch_invariants (n : Z) (st : PDFTabManager * TabDocument) :
  (currentTab (fst st) = 1 \/ currentTab (fst st) = 2)%Z ->
  (currentTab (fst (after_switch n st)) = 1
   \/ currentTab (fst (after_switch n st)) = 2)%Z
  /\ entries_kept (fst st) (fst (after_switch n st))
  /\ untouched_by_switch (snd st) (snd (after_switch n st)).
Proof.
  destruct st as [m doc]. cbn [fst snd]. intros Hcur.
  unfold after_switch, switchToTab. cbn [fst snd].
  destruct (currentTab m =? n)%Z eqn:En.
  - cbn. auto using entries_kept_refl, untouched_refl.
  - assert (Hget : exists e, tabs_get (currentTab m) m = Some e).
    { unfold tabs_get. destruct Hcur as [-> | ->]; cbn; eauto. }
    destruct Hget as [e ->].
    destruct (tabs_get n m) as [target|] eqn:Eg.
    + assert (Hn : n = 1%Z \/ n = 2%Z).
      { unfold tabs_get in Eg.
        destruct (Z.eqb_spec n 1); [now left|].
        destruct (Z.eqb_spec n 2); [now right|discriminate]. }
      cbn [snd fst].
      split; [destruct Hn as [-> | ->]; cbn; auto|]. split.
      * unfold entries_kept, mark_loaded.
        destruct Hn as [-> | ->]; cbn; auto 10.
      * eapply untouched_trans; [apply set_frame_display_untouched|].
        eapply untouched_trans; [apply set_frame_display_untouched|].
        eapply untouched_trans; [apply deactivate_button_untouched|].
        apply activate_button_untouched.
    + cbn [snd fst]. split; [exact Hcur|]. split; [apply entries_kept_refl|].
      apply set_frame_display_untouched.
Qed.

(** X15: through any sequence of [switchToTab] calls, with any numbers,
    throwing or not, the current tab stays 1 or 2, the entries keep their
    references, a tab once loaded stays loaded, and the containers, the
    frames' [src] and the buttons' listeners are never changed. *)
Theorem switch_sequence_invariants :
  forall (ns : list Z) (st : PDFTabManager * TabDocument),
    (currentTab (fst st) = 1 \/ currentTab (fst st) = 2)%Z ->
    let st' := fold_left (fun s n => after_switch n s) ns st in
    (currentTab (fst st') = 1 \/ currentTab (fst st') = 2)%Z
    /\ entries_kept (fst st) (fst st')
    /\ untouched_by_switch (snd st) (snd st').
Proof.
  induction ns as [|n ns IH]; intros st Hcur; cbn.
  - auto using entries_kept_refl, untouched_refl.
  - destruct (after_switch_invariants n st Hcur) as (H1 & H2 & H3).
    destruct (IH (after_switch n st) H1) as (I1 & I2 & I3).
    split; [exact I1|]. split.
    + eapply entries_kept_trans; eassumption.
    + eapply untouched_trans; eassumption.
Qed.

(** X15, on the tabs of the sample page: tabs 2, 7, 1, 1 asked for. *)
Lemma switch_sequence_invariants_witness :
  currentTab (fst (fold_left (fun s n => after_switch n s) [2; 7; 1; 1]%Z
                              initialised_tabs)) = 1%Z
  /\ entries_kept (fst initialised_tabs)
       (fst (fold_left (fun s n => after_switch n s) [2; 7; 1; 1]%Z initialised_tabs)).
Proof.
  split; [reflexivity|].
  exact (proj1 (proj2 (switch_sequence_invariants [2; 7; 1; 1]%Z initialised_tabs
                         (or_introl eq_refl)))).
Defined.

Lemma init_frame_src_display (P : Platform) (win : TabWindow) (name : string)
  (frame : TabFrame) :
  frame_display (init_frame_src P win name frame) = frame_display frame.
Proof.
  unfold init_frame_src, ensureDisableAutoFetch.
  destruct (truthy_string _); trivial.
  destruct (nonempty (frame_src frame)); trivial.
  destruct (new_URL P _ _) as [url|]; trivial.
  destruct (searchParams_has P url _); trivial.
Qed.

(** X16: [init] outside an iframe, on a page that has the two buttons and
    the two frames, shows the tab container, hides the viewer container,
    binds the manager to the four elements, appends to each button one
    click listener for its own tab and gives each frame its [src].  It
    logs no error, and for each frame, first then second, one
    [console.log] line naming the [src] it has set; it logs no line for a
    frame only when that frame's [src] parses and has [disableAutoFetch]
    already, and then leaves the frame as it was.  Its closing
    [switchToTab(1)] does nothing, the first tab being current from the
    start: no tab is marked loaded, no button gets the class "active" or
    a new style, and the frames are displayed as the page had them. *)
Theorem init_binds_tabs :
  forall (P : Platform) (win : TabWindow) (doc : TabDocument)
         (b1 b2 : TabButton) (f1 f2 : TabFrame),
    isInIframe win = false ->
    tab1 doc = Some b1 -> tab2 doc = Some b2 ->
    viewerFrame1 doc = Some f1 -> viewerFrame2 doc = Some f2 ->
    let r := tab_init P win new_PDFTabManager doc in
    let frame_after :=
      fun (name label : string) (f f' : TabFrame) (log : list string) =>
        let param := URLSearchParams_get P (location_search win) name in
        frame_display f' = frame_display f
        /\ (forall p, param = Some p -> nonempty p = true ->
              frame_src f' = viewer_url P win p
              /\ log = [("Tab Manager: " ++ label ++ " iframe src set: "
                         ++ viewer_url P win p)%string])
        /\ (truthy_string param = false -> frame_src f = EmptyString ->
              frame_src f' = viewer_url P win DEFAULT_PDF
              /\ log = [("Tab Manager: Set iframe src with disableAutoFetch, URL: "
                         ++ viewer_url P win DEFAULT_PDF)%string])
        /\ (truthy_string param = false -> nonempty (frame_src f) = true ->
              (forall url,
                 new_URL P (frame_src f) (location_href win) = Some url ->
                 if searchParams_has P url "disableAutoFetch"
                 then f' = f /\ log = []
                 else frame_src f'
                      = URL_toString P (searchParams_set P url "disableAutoFetch" "true")
                      /\ log = [("Tab Manager: Added disableAutoFetch to iframe, URL: "
                                 ++ URL_toString P
                                      (searchParams_set P url "disableAutoFetch" "true")
                                )%string])
              /\ (new_URL P (frame_src f) (location_href win) = None ->
                  let src' :=
                    (frame_src f
                     ++ (if includes_char "?"%char (frame_src f) then "&" else "?")
                     ++ "disableAutoFetch=true")%string in
                  frame_src f' = src'
                  /\ log = [("Tab Manager: Added disableAutoFetch to iframe (fallback), URL: "
                             ++ src')%string])) in
    init_errors r = 0%nat
    /\ init_manager r
       = {| currentTab := 1;
            tabs_1 := {| entry_button := Some FirstTab; entry_frame := Some FirstTab;
                         entry_loaded := false |};
            tabs_2 := {| entry_button := Some SecondTab; entry_frame := Some SecondTab;
                         entry_loaded := false |} |}
    /\ tabModeContainer (init_document r)
       = option_map (fun _ => "block") (tabModeContainer doc)
    /\ outerContainer (init_document r)
       = option_map (fun _ => "none") (outerContainer doc)
    /\ tab1 (init_document r)
       = Some {| button_classList := button_classList b1;
                 button_opacity := button_opacity b1;
                 button_borderBottom := button_borderBottom b1;
                 button_fontWeight := button_fontWeight b1;
                 button_click := button_click b1 ++ [1%Z] |}
    /\ tab2 (init_document r)
       = Some {| button_classList := button_classList b2;
                 button_opacity := button_opacity b2;
                 button_borderBottom := button_borderBottom b2;
                 button_fontWeight := button_fontWeight b2;
                 button_click := button_click b2 ++ [2%Z] |}
    /\ exists (f1' f2' : TabFrame) (log1 log2 : list string),
         viewerFrame1 (init_document r) = Some f1'
         /\ viewerFrame2 (init_document r) = Some f2'
         /\ init_logs r = log1 ++ log2
         /\ (List.length log1 <= 1)%nat /\ (List.length log2 <= 1)%nat
         /\ frame_after "pdf1" "PDF1" f1 f1' log1
         /\ frame_after "pdf2" "PDF2" f2 f2' log2.
Proof.
  intros P win doc b1 b2 f1 f2 Hw H1 H2 H3 H4 r frame_after.
  assert (Hlen : forall name label f,
            (List.length (init_frame_log P win name label f) <= 1)%nat).
  { intros name label f. unfold init_frame_log, ensureDisableAutoFetch_log.
    destruct (truthy_string _); cbn; [lia|].
    destruct (nonempty (frame_src f)); cbn; [|lia].
    destruct (new_URL P _ _) as [url|]; cbn; [|lia].
    destruct (searchParams_has P url _); cbn; lia. }
  assert (Hfacts : forall name label f,
            frame_after name label f (init_frame_src P win name f)
                        (init_frame_log P win name label f)).
  { intros name label f. unfold frame_after. cbn zeta.
    split; [apply init_frame_src_display|].
    unfold init_frame_src, init_frame_log, choose_pdf.
    split; [|split].
    - intros p -> Hp. unfold truthy_string, or_default. rewrite !Hp. cbn. auto.
    - intros -> Hsrc. unfold ensureDisableAutoFetch_log, ensureDisableAutoFetch.
      rewrite Hsrc. cbn. auto.
    - intros -> Hsrc. unfold ensureDisableAutoFetch_log, ensureDisableAutoFetch.
      rewrite Hsrc. split.
      + intros url ->. destruct (searchParams_has P url _); cbn; auto.
      + intros ->. cbn. auto. }
  subst r. unfold tab_init. rewrite Hw, H1, H2, H3, H4.
  split; [reflexivity|]. split; [reflexivity|].
  split; [cbn; now destruct (tabModeContainer doc)|].
  split; [cbn; now destruct (outerContainer doc)|].
  split; [reflexivity|]. split; [reflexivity|].
  exists (init_frame_src P win "pdf1" f1), (init_frame_src P win "pdf2" f2),
         (init_frame_log P win "pdf1" "PDF1" f1),
         (init_frame_log P win "pdf2" "PDF2" f2).
  split; [reflexivity|]. split; [reflexivity|]. split; [reflexivity|].
  split; [apply Hlen|]. split; [apply Hlen|].
  split; apply Hfacts.
Qed.

(** X16, on the sample page: the first frame has no [src], the second one
    that the bare platform cannot parse. *)
Lemma init_binds_tabs_witness :
  currentTab (fst initialised_tabs) = 1%Z
  /\ entry_loaded (tabs_1 (fst initialised_tabs)) = false
  /\ option_map button_click (get_button FirstTab (snd initialised_tabs)) = Some [1%Z]
  /\ init_logs (tab_init bare_platform sample_tab_window new_PDFTabManager
                  sample_tab_document)
     = ["Tab Manager: Set iframe src with disableAutoFetch, URL: http://localhost:8888/web/viewer.html?file=compressed.tracemonkey-pldi-09.pdf&disableAutoFetch=true";
        "Tab Manager: Added disableAutoFetch to iframe (fallback), URL: b.html?file=b.pdf&disableAutoFetch=true"].
Proof.
  destruct (init_binds_tabs bare_platform sample_tab_window sample_tab_document
              plain_button plain_button
              {| frame_display := "block"; frame_src := EmptyString |}
              {| frame_display := "none"; frame_src := "b.html?file=b.pdf" |}
              eq_refl eq_refl eq_refl eq_refl eq_refl)
    as (_ & Hm & _ & _ & Hb & _ & f1' & f2' & log1 & log2 & _ & _ & Hlog & _ & _
        & (_ & _ & Hl1 & _) & (_ & _ & _ & Hl2)).
  unfold initialised_tabs. cbn [fst snd get_button].
  rewrite Hm, Hb, Hlog.
  destruct (Hl1 eq_refl eq_refl) as [_ ->].
  destruct (proj2 (Hl2 eq_refl eq_refl) eq_refl) as [_ ->].
  repeat split.
Defined.

(** X17: after such an [init] on a page whose buttons had no listener of
    this kind, a click on the second button shows the second frame alone,
    marks the second button alone, and makes the second tab current and
    loaded, the first still not loaded; a click on the first button then
    brings the first tab back, now loaded too; a click on the button of
    the current tab changes nothing. *)
Theorem clicks_after_init :
  forall (P : Platform) (win : TabWindow) (doc : TabDocument)
         (b1 b2 : TabButton) (f1 f2 : TabFrame),
    isInIframe win = false ->
    tab1 doc = Some b1 -> tab2 doc = Some b2 ->
    viewerFrame1 doc = Some f1 -> viewerFrame2 doc = Some f2 ->
    button_click b1 = [] -> button_click b2 = [] ->
    let r := tab_init P win new_PDFTabManager doc in
    let st0 := (init_manager r, init_document r) in
    let st2 := click_button SecondTab st0 in
    let st1 := click_button FirstTab st2 in
    click_button FirstTab st0 = st0
    /\ currentTab (fst st2) = 2%Z
    /\ tabs_consistent st2
    /\ entry_loaded (tabs_2 (fst st2)) = true
    /\ entry_loaded (tabs_1 (fst st2)) = false
    /\ click_button SecondTab st2 = st2
    /\ currentTab (fst st1) = 1%Z
    /\ tabs_consistent st1
    /\ entry_loaded (tabs_1 (fst st1)) = true
    /\ entry_loaded (tabs_2 (fst st1)) = true.
Proof.
  intros P win doc b1 b2 f1 f2 Hw H1 H2 H3 H4 Hc1 Hc2. cbn zeta.
  unfold tab_init. rewrite Hw, H1, H2, H3, H4.
  unfold click_button, add_click. cbn. rewrite Hc1, Hc2. cbn.
  split; [reflexivity|]. split; [reflexivity|].
  split.
  { unfold tabs_consistent, frame_shows, button_active; cbn.
    split; [eexists; split; reflexivity|].
    split; [eexists; split; reflexivity|].
    split; [eexists; split; [reflexivity|apply classList_add_in]|].
    intros (b & Hb & Hin); inversion Hb; subst b; cbn in Hin.
    exact (classList_remove_out _ _ Hin). }
  split; [reflexivity|]. split; [reflexivity|]. split; [reflexivity|].
  split; [reflexivity|].
  split.
  { unfold tabs_consistent, frame_shows, button_active; cbn.
    split; [eexists; split; reflexivity|].
    split; [eexists; split; reflexivity|].
    split; [eexists; split; [reflexivity|apply classList_add_in]|].
    intros (b & Hb & Hin); inversion Hb; subst b; cbn in Hin.
    exact (classList_remove_out _ _ Hin). }
  split; reflexivity.
Qed.

(** X17, on the sample page: the second button clicked. *)
Lemma clicks_after_init_witness :
  currentTab (fst (click_button SecondTab initialised_tabs)) = 2%Z
  /\ tabs_consistent (click_button SecondTab initialised_tabs).
Proof.
  destruct (clicks_after_init bare_platform sample_tab_window sample_tab_document
              plain_button plain_button _ _ eq_refl eq_refl eq_refl eq_refl eq_refl
              eq_refl eq_refl) as (_ & H2 & H3 & _).
  split; [exact H2|exact H3].
Defined.

(** X18: [init] gives up in two cases.  Inside an iframe it hides the tab
    container, shows the viewer container and touches nothing else.
    Outside, when one of the two buttons or two frames is missing, it shows
    the tab container, hides the viewer container, logs one error and no
    other line, and leaves buttons and frames as they were, with no
    listener and no new [src]; the manager then refers to the elements that
    were found, its first tab still current, and a later [switchToTab(2)]
    does not throw. *)
Theorem init_gives_up :
  forall (P : Platform) (win : TabWindow) (m : PDFTabManager) (doc : TabDocument),
    (isInIframe win = true ->
       tab_init P win m doc
       = {| init_manager := m;
            init_document :=
              {| tabModeContainer := set_box_display "none" (tabModeContainer doc);
                 outerContainer := set_box_display "block" (outerContainer doc);
                 tab1 := tab1 doc; tab2 := tab2 doc;
                 viewerFrame1 := viewerFrame1 doc;
                 viewerFrame2 := viewerFrame2 doc |};
            init_errors := 0%nat;
            init_logs := [] |})
    /\ (isInIframe win = false ->
        tab1 doc = None \/ tab2 doc = None
        \/ viewerFrame1 doc = None \/ viewerFrame2 doc = None ->
        let r := tab_init P win m doc in
        init_errors r = 1%nat
        /\ init_logs r = []
        /\ init_document r
           = {| tabModeContainer := set_box_display "block" (tabModeContainer doc);
                outerContainer := set_box_display "none" (outerContainer doc);
                tab1 := tab1 doc; tab2 := tab2 doc;
                viewerFrame1 := viewerFrame1 doc;
                viewerFrame2 := viewerFrame2 doc |}
        /\ currentTab (init_manager r) = currentTab m
        /\ entry_button (tabs_1 (init_manager r)) = found FirstTab (tab1 doc)
        /\ entry_frame (tabs_1 (init_manager r)) = found FirstTab (viewerFrame1 doc)
        /\ entry_button (tabs_2 (init_manager r)) = found SecondTab (tab2 doc)
        /\ entry_frame (tabs_2 (init_manager r)) = found SecondTab (viewerFrame2 doc)
        /\ (currentTab m = 1%Z ->
            exists st, switchToTab 2 (init_manager r) (init_document r)
                       = (Normal st, st)
                       /\ currentTab (fst st) = 2%Z)).
Proof.
  intros P win m doc. split.
  - intros Hw. unfold tab_init. now rewrite Hw.
  - intros Hw Hmiss. cbn zeta. unfold tab_init. rewrite Hw.
    destruct (tab1 doc) as [b1|], (tab2 doc) as [b2|],
             (viewerFrame1 doc) as [f1|], (viewerFrame2 doc) as [f2|];
      try (destruct Hmiss as [H|[H|[H|H]]]; discriminate H);
      cbn; repeat split;
      intros Hcur; unfold switchToTab; cbn; rewrite Hcur; cbn;
      eexists; split; reflexivity.
Qed.

(** X18, on the sample page without its second frame. *)
Lemma init_gives_up_witness :
  init_errors
    (tab_init bare_platform sample_tab_window new_PDFTabManager
       {| tabModeContainer := Some "none"; outerContainer := Some "block";
          tab1 := Some plain_button; tab2 := Some plain_button;
          viewerFrame1 := Some {| frame_display := "block"; frame_src := EmptyString |};
          viewerFrame2 := None |})
  = 1%nat.
Proof.
  refine (proj1 (proj2 (init_gives_up bare_platform sample_tab_window
                          new_PDFTabManager _) eq_refl _)).
  right. right. right. reflexivity.
Defined.

(** X19: the [src] a frame has after [init].  With a non-empty URL
    parameter it is the viewer URL for that file.  Without one, a frame
    with no [src] gets the viewer URL for the default file; a frame with a
    [src] keeps its file, whatever the [file] parameter of that [src] says:
    the [src] stays as it is when it already has [disableAutoFetch], gets
    the parameter set when the URL can be parsed, and otherwise gets
    "disableAutoFetch=true" appended after "&" or "?". *)
Theorem frame_src_after_init :
  forall (P : Platform) (win : TabWindow) (name : string) (frame : TabFrame),
    let param := URLSearchParams_get P (location_search win) name in
    let src' := frame_src (init_frame_src P win name frame) in
    (forall p, param = Some p -> nonempty p = true -> src' = viewer_url P win p)
    /\ (truthy_string param = false -> frame_src frame = EmptyString ->
        src' = viewer_url P win DEFAULT_PDF)
    /\ (truthy_string param = false -> nonempty (frame_src frame) = true ->
        (forall url, new_URL P (frame_src frame) (location_href win) = Some url ->
           src' = if searchParams_has P url "disableAutoFetch"
                  then frame_src frame
                  else URL_toString P (searchParams_set P url "disableAutoFetch" "true"))
        /\ (new_URL P (frame_src frame) (location_href win) = None ->
            src' = (frame_src frame
                    ++ (if includes_char "?"%char (frame_src frame) then "&" else "?")
                    ++ "disableAutoFetch=true")%string)).
Proof.
  intros P win name frame. cbn zeta. unfold init_frame_src, choose_pdf.
  split; [|split].
  - intros p -> Hp. unfold truthy_string, or_default. rewrite !Hp. reflexivity.
  - intros -> Hsrc. unfold ensureDisableAutoFetch. rewrite Hsrc. reflexivity.
  - intros -> Hsrc. unfold ensureDisableAutoFetch. rewrite Hsrc. split.
    + intros url ->. now destruct (searchParams_has P url _).
    + intros ->. reflexivity.
Qed.

(** X19, on the sample page: the second frame's [src] cannot be parsed by
    the bare platform and already holds a question mark. *)
Lemma frame_src_after_init_witness :
  frame_src (init_frame_src bare_platform sample_tab_window "pdf2"
               {| frame_display := "none"; frame_src := "b.html?file=b.pdf" |})
  = "b.html?file=b.pdf&disableAutoFetch=true".
Proof.
  exact (proj2 (proj2 (proj2 (frame_src_after_init bare_platform sample_tab_window
           "pdf2" {| frame_display := "none"; frame_src := "b.html?file=b.pdf" |}))
           eq_refl eq_refl) eq_refl).
Defined.

Lemma through_last_slash_none (s : string) :
  includes_char "/"%char s = false -> through_last_slash s = None.
Proof.
  induction s as [|d s IH]; cbn; trivial.
  intros H. apply orb_false_iff in H. destruct H as [Hd Hs].
  rewrite (IH Hs). now rewrite Hd.
Qed.

Lemma through_last_slash_app (dir file : string) :
  includes_char "/"%char file = false ->
  through_last_slash (dir ++ "/" ++ file) = Some (dir ++ "/")%string.
Proof.
  intros Hf. induction dir as [|d dir IH]; cbn.
  - now rewrite (through_last_slash_none file Hf).
  - cbn in IH. now rewrite IH.
Qed.

Lemma until_char_app (c : ascii) (a rest : string) :
  includes_char c a = false ->
  until_char c (a ++ String c rest) = a.
Proof.
  induction a as [|d a IH]; cbn.
  - unfold is_char. now rewrite Ascii.eqb_refl.
  - intros H. apply orb_false_iff in H. destruct H as [Hd Ha].
    unfold is_char in *. rewrite Hd. now rewrite IH.
Qed.

Lemma until_char_all (c : ascii) (a : string) :
  includes_char c a = false -> until_char c a = a.
Proof.
  induction a as [|d a IH]; cbn; trivial.
  intros H. apply orb_false_iff in H. destruct H as [Hd Ha].
  unfold is_char in *. rewrite Hd. now rewrite IH.
Qed.

Lemma split_second_skip (a rest : string) :
  includes_char "?"%char a = false ->
  split_second (a ++ String "?"%char rest) = until_char "?"%char rest.
Proof.
  induction a as [|d a IH]; cbn; trivial.
  intros H. apply orb_false_iff in H. destruct H as [Hd Ha].
  unfold is_char in *. rewrite Hd. now apply IH.
Qed.

(** X20: the two pieces of text [init] cuts out.  The base URL keeps a
    path through its last slash and leaves a path without slash as it is;
    the query read from a frame's [src] is the text between the first and
    the second question mark, the whole rest when there is no second one,
    and empty when there is no question mark. *)
Theorem init_text_cuts :
  (forall dir file : string,
     includes_char "/"%char file = false ->
     replace_last_segment (dir ++ "/" ++ file) = (dir ++ "/")%string)
  /\ (forall path : string,
        includes_char "/"%char path = false -> replace_last_segment path = path)
  /\ (forall a b c : string,
        includes_char "?"%char a = false -> includes_char "?"%char b = false ->
        split_second (a ++ "?" ++ b) = b
        /\ split_second (a ++ "?" ++ b ++ "?" ++ c) = b)
  /\ (forall s : string, includes_char "?"%char s = false -> split_second s = EmptyString).
Proof.
  split; [|split; [|split]].
  - intros dir file Hf. unfold replace_last_segment.
    now rewrite through_last_slash_app.
  - intros path Hp. unfold replace_last_segment.
    now rewrite through_last_slash_none.
  - intros a b c Ha Hb. split.
    + change (a ++ "?" ++ b)%string with (a ++ String "?"%char b)%string.
      rewrite split_second_skip by exact Ha. now apply until_char_all.
    + change (a ++ "?" ++ b ++ "?" ++ c)%string
        with (a ++ String "?"%char (b ++ String "?"%char c))%string.
      rewrite split_second_skip by exact Ha. now apply until_char_app.
  - intros s. induction s as [|d s IH]; cbn; trivial.
    intros H. apply orb_false_iff in H. destruct H as [Hd Hs].
    unfold is_char in *. rewrite Hd. now apply IH.
Qed.

(** X20, on the sample page's address and second frame. *)
Lemma init_text_cuts_witness :
  replace_last_segment "/web/viewer.html" = "/web/"
  /\ split_second "b.html?file=b.pdf" = "file=b.pdf".
Proof.
  destruct init_text_cuts as (H1 & _ & H3 & _).
  split.
  - exact (H1 "/web" "viewer.html" eq_refl).
  - exact (proj1 (H3 "b.html" "file=b.pdf" EmptyString eq_refl eq_refl)).
Defined.

(** ** The icon generator *)

Lemma take_digits_app (d r : string) :
  all_digits d = true ->
  take_digits r = (EmptyString, r) ->
  take_digits (d ++ r) = (d, r).
Proof.
  intros Hd Hr. induction d as [|c d IH]; cbn; trivial.
  cbn in Hd. apply andb_true_iff in Hd. destruct Hd as [Hc Hd].
  rewrite Hc, (IH Hd). reflexivity.
Qed.

Lemma take_digits_nondigit (c : ascii) (r : string) :
  is_digit c = false -> take_digits (String c r) = (EmptyString, String c r).
Proof. intros H. cbn. now rewrite H. Qed.

Lemma take_digits_after (post : string) :
  ends_numeral post = true -> take_digits post = (EmptyString, post).
Proof.
  destruct post as [|c post]; cbn; trivial.
  intros H. apply andb_true_iff in H. destruct H as [H _].
  apply negb_true_iff in H. now rewrite H.
Qed.

Lemma string_app_assoc (a b c : string) : ((a ++ b) ++ c = a ++ (b ++ c))%string.
Proof. induction a as [|x a IH]; cbn; [|rewrite IH]; reflexivity. Qed.

(** The pattern's number at the start of a numeral followed by text that
    cannot continue it. *)
Lemma match_number_numeral (a r : string) :
  numeral a ->
  take_digits r = (EmptyString, r) ->
  match r with
  | String c _ => Ascii.eqb c "."%char = false
  | EmptyString => True
  end ->
  match_number (a ++ r) = Some (a, r).
Proof.
  intros [[Hne Hd]|(d & f & [Hne Hd] & [Hnf Hf] & ->)] Hr Hdot.
  - unfold match_number. rewrite (take_digits_app a r Hd Hr), Hne.
    destruct r as [|c r']; trivial. now rewrite Hdot.
  - replace ((d ++ "." ++ f) ++ r)%string
      with (d ++ String "."%char (f ++ r))%string
      by (rewrite string_app_assoc; reflexivity).
    unfold match_number.
    rewrite (take_digits_app d (String "."%char (f ++ r)) Hd) by reflexivity.
    rewrite Hne, Ascii.eqb_refl.
    rewrite (take_digits_app f r Hf Hr), Hnf. reflexivity.
Qed.

Lemma match_size_here_nondigit (c : ascii) (s : string) :
  is_digit c = false -> match_size_here (String c s) = None.
Proof.
  intros H. unfold match_size_here, match_number.
  now rewrite (take_digits_nondigit c s H).
Qed.

Lemma match_size_skip (pre s : string) :
  digit_free pre = true -> match_size (pre ++ s) = match_size s.
Proof.
  induction pre as [|c pre IH]; cbn [append]; trivial.
  intros H. cbn in H. apply andb_true_iff in H. destruct H as [Hc Hp].
  apply negb_true_iff in Hc.
  cbn [match_size]. rewrite (match_size_here_nondigit c _ Hc). now apply IH.
Qed.

Lemma match_size_first (s : string) (m : string * string) :
  match_size_here s = Some m -> match_size s = Some m.
Proof. intros H. destruct s; cbn [match_size]; now rewrite H. Qed.

(** X21: [getIconSize] reads the size back from a file name built as the
    names of the table are: after a prefix without digits, a numeral, an
    "x", a numeral, and then nothing or something that is neither a digit
    nor a dot; a numeral is a run of digits, or two of them around a dot.
    A name without any digit gives "20x20". *)
Theorem getIconSize_reads_back :
  (forall pre a b post : string,
     digit_free pre = true -> numeral a -> numeral b -> ends_numeral post = true ->
     getIconSize (pre ++ a ++ "x" ++ b ++ post) = (a ++ "x" ++ b)%string)
  /\ (forall s : string, digit_free s = true -> getIconSize s = "20x20").
Proof.
  split.
  - intros pre a b post Hpre Ha Hb Hpost. unfold getIconSize.
    rewrite (match_size_skip pre _ Hpre).
    assert (Hhere : match_size_here (a ++ "x" ++ b ++ post) = Some (a, b)).
    { unfold match_size_here.
      rewrite (match_number_numeral a ("x" ++ b ++ post) Ha) by reflexivity.
      cbn [append]. rewrite Ascii.eqb_refl.
      rewrite (match_number_numeral b post Hb (take_digits_after post Hpost)).
      - reflexivity.
      - destruct post as [|c post]; trivial. cbn in Hpost.
        apply andb_true_iff in Hpost. destruct Hpost as [_ H].
        now apply negb_true_iff in H. }
    now rewrite (match_size_first _ _ Hhere).
  - intros s Hs. unfold getIconSize.
    assert (E : match_size s = None).
    { induction s as [|c s IH]; [reflexivity|].
      cbn in Hs. apply andb_true_iff in Hs. destruct Hs as [Hc Hs].
      apply negb_true_iff in Hc. cbn [match_size].
      rewrite (match_size_here_nondigit c s Hc). now apply IH. }
    now rewrite E.
Qed.

(** X21, on the name of the iPad Pro icon and on a name without digits. *)
Lemma getIconSize_reads_back_witness :
  getIconSize "Icon-App-83.5x83.5@2x.png" = "83.5x83.5"
  /\ getIconSize "logo.png" = "20x20".
Proof.
  destruct getIconSize_reads_back as [H1 H2]. split.
  - apply (H1 "Icon-App-" "83.5" "83.5" "@2x.png"); try reflexivity;
      right; exists "83", "5"; repeat split.
  - now apply H2.
Defined.

Lemma icon_loop_counts (env : IconEnv) (outputDir : string) (meta : nat * nat)
  (icons : list Icon) :
  forall (index : nat) (run : IconRun),
    let r := icon_loop env outputDir meta icons index run in
    (successCount r + failCount r
     = successCount run + failCount run + List.length icons)%nat
    /\ (List.length (written r) + successCount run
        = List.length (written run) + successCount r)%nat
    /\ (successCount run <= successCount r)%nat
    /\ (copiedCount run <= copiedCount r)%nat
    /\ (copiedCount r + successCount run <= copiedCount run + successCount r)%nat
    /\ (copiedCount r
        <= copiedCount run
           + List.length (filter (fun icon => (icon_size icon =? fst meta)%nat) icons))%nat
    /\ (fst meta <> snd meta -> copiedCount r = copiedCount run).
Proof.
  induction icons as [|icon icons IH]; intros index run; cbn zeta.
  - cbn. repeat split; lia.
  - cbn [icon_loop]. unfold generateIcon.
    match goal with
    | |- context [icon_loop env outputDir meta icons (S index) ?R] =>
        destruct (IH (S index) R) as (H1 & H2 & H3 & H4 & H5 & H6 & H7);
        remember R as run' eqn:ER
    end.
    cbn zeta in *.
    assert (Hstep :
      (successCount run' + failCount run' = S (successCount run + failCount run))%nat
      /\ (List.length (written run') + successCount run
          = List.length (written run) + successCount run')%nat
      /\ (successCount run <= successCount run')%nat
      /\ (copiedCount run <= copiedCount run')%nat
      /\ (copiedCount run' + successCount run <= copiedCount run + successCount run')%nat
      /\ (copiedCount run'
          <= copiedCount run + (if (icon_size icon =? fst meta)%nat then 1 else 0))%nat
      /\ (fst meta <> snd meta -> copiedCount run' = copiedCount run)).
    { rewrite ER. destruct (icon_io_ok env index); cbn.
      - rewrite length_app. cbn.
        destruct (Nat.eqb_spec (fst meta) (icon_size icon)) as [E1|E1];
          destruct (Nat.eqb_spec (snd meta) (icon_size icon)) as [E2|E2];
          destruct (Nat.eqb_spec (icon_size icon) (fst meta)) as [E3|E3];
          cbn; repeat split; try lia.
      - destruct (icon_size icon =? fst meta)%nat; repeat split; lia. }
    destruct Hstep as (S1 & S2 & S3 & S4 & S5 & S6 & S7).
    cbn [List.length filter].
    split; [lia|]. split; [lia|]. split; [lia|]. split; [lia|]. split; [lia|].
    split.
    + destruct (icon_size icon =? fst meta)%nat; cbn [List.length]; lia.
    + intros Hne. rewrite (H7 Hne). now apply S7.
Qed.

(** X22: once [main] has its input, its output directory and the metadata
    of the source, no failure of an icon stops it: every row of the table
    is counted exactly once, as a success or as a failure, every success is
    one file written, and Contents.json is written after the loop however
    many icons failed.  Only successes are counted as copies, at most one
    per row whose side is the source's width, and none unless the source
    is square. *)
Theorem main_accounts_for_every_row :
  forall (env : IconEnv) (inputPath : string) (more : list string) (meta : nat * nat),
    existsSync env inputPath = true ->
    mkdir_ok env (output_dir env more) = true ->
    metadata env inputPath = Some meta ->
    exists run : IconRun,
      icon_main env (inputPath :: more)
      = (if contents_io_ok env
         then Finished run ((fst meta <? 1024)%nat || (snd meta <? 1024)%nat)
                       (path_join env (output_dir env more) "Contents.json")
                       contents_images
         else ExitContentsFailed run)
      /\ (successCount run + failCount run = 18)%nat
      /\ List.length (written run) = successCount run
      /\ (copiedCount run <= successCount run)%nat
      /\ (copiedCount run <= List.length (rows_of_size (fst meta)))%nat
      /\ (fst meta <> snd meta -> copiedCount run = 0%nat).
Proof.
  intros env inputPath more meta He Hm Hmeta.
  exists (icon_loop env (output_dir env more) meta iOSIconSizes 0 empty_run).
  split.
  - unfold icon_main. cbn zeta. rewrite He, Hm, Hmeta. cbn [negb].
    now destruct (contents_io_ok env).
  - destruct (icon_loop_counts env (output_dir env more) meta iOSIconSizes 0 empty_run)
      as (H1 & H2 & H3 & H4 & H5 & H6 & H7).
    cbn zeta in *. cbn [successCount failCount copiedCount written empty_run
                        List.length] in *.
    change (List.length iOSIconSizes) with 18%nat in H1.
    unfold rows_of_size.
    repeat split; lia.
Qed.

(** X22, on an environment where everything succeeds and the source is
    1024 pixels square: 18 successes, one of them a copy. *)
Lemma main_accounts_for_every_row_witness :
  exists run : IconRun,
    icon_main kind_env ["logo.png"]
    = Finished run false "/tools/ios-icons/Contents.json" contents_images
    /\ (successCount run + failCount run = 18)%nat
    /\ (copiedCount run <= 1)%nat.
Proof.
  destruct (main_accounts_for_every_row kind_env "logo.png" [] (1024%nat, 1024%nat)
              eq_refl eq_refl eq_refl) as (run & H1 & H2 & _ & _ & H5 & _).
  exists run. split; [exact H1|]. split; [exact H2|exact H5].
Defined.

(** The entries of Contents.json.  There is one per row of the table,
    18 in all, under 15 different file names, three names standing in two
    rows each.  Every file name is "Icon-App-", the size read from it,
    "@", the scale read from it and ".png".  The idiom depends on the name
    alone, so the rows that share a name share an idiom: an image of
    scale 2x is marked ipad only at 76x76 and 83.5x83.5. *)
Theorem contents_json_entries :
  List.length contents_images = 18%nat
  /\ map image_filename contents_images = map icon_name iOSIconSizes
  /\ List.length (nodup string_dec (map image_filename contents_images)) = 15%nat
  /\ Forall (fun e => image_filename e
                      = ("Icon-App-" ++ image_size e ++ "@" ++ image_scale e ++ ".png")%string)
            contents_images
  /\ Forall (fun e => image_scale e = "2x" -> image_idiom e = "ipad" ->
                      image_size e = "76x76" \/ image_size e = "83.5x83.5")
            contents_images.
Proof.
  split; [reflexivity|]. split; [reflexivity|]. split; [vm_compute; reflexivity|].
  split.
  - vm_compute. repeat constructor.
  - vm_compute. repeat (constructor; [intros H1 H2; try discriminate H1;
                                       try discriminate H2; auto|]).
    constructor.
Qed.

(** ** No uncaught error *)

Lemma create_callback_uncaught (pageNumber : Z) (location : jsvalue) (w : World) :
  nullish location = false ->
  uncaught (create_callback pageNumber location w) = uncaught w.
Proof.
  intros Hnull. unfold create_callback.
  destruct (getPageView (window w) pageNumber) as [pv|]; trivial.
  unfold createOverlayElement. destruct (div pv) as [c|]; trivial.
  pose proof (destructure_nullish location) as Hd. rewrite Hnull in Hd.
  destruct Hd as (x & y & width & height & ->).
  destruct (corner_points _ _ _ _ _) as [tl br]. reflexivity.
Qed.

Lemma run_callback_uncaught (tm : Timer) (w : World) :
  callback_location_given tm ->
  uncaught (run_callback (callback tm) w) = uncaught w.
Proof.
  unfold callback_location_given. destruct (callback tm) as [p l|]; cbn.
  - apply create_callback_uncaught.
  - intros _. unfold remove_callback. destruct (currentOverlay w); reflexivity.
Qed.

Lemma fire_due_uncaught (t : nat) :
  forall (fuel : nat) (w : World),
    Forall callback_location_given (timers w) ->
    uncaught (fire_due fuel t w) = uncaught w
    /\ Forall callback_location_given (timers (fire_due fuel t w)).
Proof.
  induction fuel as [|fuel IH]; intros w Hall; cbn; [auto|].
  destruct (timers w) as [|tm rest] eqn:Et; [rewrite Et; auto|].
  destruct (due tm <=? t)%nat; [|rewrite Et; auto].
  inversion Hall as [|? ? Htm Hrest]; subst.
  destruct (IH (run_callback (callback tm)
                  (with_now (Nat.max (now w) (due tm)) (with_timers rest w))))
    as [H1 H2].
  - now destruct (run_callback_frame (callback tm)
      (with_now (Nat.max (now w) (due tm)) (with_timers rest w))) as (-> & _).
  - split; [|exact H2]. rewrite H1. now rewrite run_callback_uncaught.
Qed.

Lemma do_call_uncaught (c : Call) (w : World) :
  location_given c ->
  Forall callback_location_given (timers w) ->
  uncaught (do_call c w) = uncaught w
  /\ Forall callback_location_given (timers (do_call c w)).
Proof.
  intros Hc Hall. destruct c as [p l| |]; cbn [do_call].
  - split; [apply showHighlight_frame|].
    rewrite showHighlight_timers, clearHighlight_timers.
    apply insert_timer_Forall; [exact Hc|].
    destruct (currentOverlay w); trivial.
    apply insert_timer_Forall; [exact I|exact Hall].
  - split; [apply clearHighlight_frame|].
    rewrite clearHighlight_timers. destruct (currentOverlay w); trivial.
    apply insert_timer_Forall; [exact I|exact Hall].
  - split; [reflexivity|exact Hall].
Qed.

Lemma run_uncaught (script : list (nat * Call)) :
  forall w : World,
    Forall (fun tc => location_given (snd tc)) script ->
    Forall callback_location_given (timers w) ->
    uncaught (run script w) = uncaught w
    /\ Forall callback_location_given (timers (run script w)).
Proof.
  induction script as [|[t c] script IH]; intros w Hs Hall; cbn [run]; [auto|].
  inversion Hs as [|? ? Hc Hrest]; subst. cbn [snd] in Hc.
  destruct (fire_due_uncaught t (List.length (timers w)) w Hall) as [F1 F2].
  assert (A1 : uncaught (advance t w) = uncaught w) by (unfold advance; cbn; exact F1).
  assert (A2 : Forall callback_location_given (timers (advance t w)))
    by (unfold advance; cbn; exact F2).
  destruct (do_call_uncaught c (advance t w) Hc A2) as [D1 D2].
  destruct (IH (do_call c (advance t w)) Hrest D2) as [R1 R2].
  split; [congruence|exact R2].
Qed.

(** X23: the overlay throws only on a location that is [null] or
    [undefined].  Through any script of calls whose locations are given,
    at any spacing and whether the pages resolve or not, no error is ever
    left uncaught; and what the panel dispatches is always such a
    location. *)
Theorem no_uncaught_error_on_given_locations :
  (forall (win : Window) (script : list (nat * Call)) (t : nat),
     Forall (fun tc => location_given (snd tc)) script ->
     uncaught (advance t (run script (initial win))) = [])
  /\ (forall (highlightData : HighlightData) (linkService : LinkService)
             (name : string) (evt : HighlightEvent),
        In (Dispatch name evt) (navigateToHighlight highlightData linkService) ->
        location_given (ShowHighlight (evt_pageNumber evt) (evt_location evt))).
Proof.
  split.
  - intros win script t Hs.
    destruct (run_uncaught script (initial win) Hs (Forall_nil _)) as [R1 R2].
    destruct (fire_due_uncaught t (List.length (timers (run script (initial win))))
                (run script (initial win)) R2) as [F1 _].
    unfold advance. cbn. now rewrite F1, R1.
  - intros highlightData linkService name evt Hin.
    destruct (navigateToHighlight_cases highlightData linkService)
      as [(viewer & x & y & width & height & _ & _ & Hn)|[_ Hn]];
      rewrite Hn in Hin.
    + destruct Hin as [Hin|[Hin|[]]]; [discriminate|].
      inversion Hin; subst. reflexivity.
    + destruct Hin as [Hin|[]]. discriminate.
Qed.

(** X23, on the two quick requests of the sample page. *)
Lemma no_uncaught_error_on_given_locations_witness :
  uncaught (advance 700 (run two_quick_calls fresh_world)) = [].
Proof.
  apply (proj1 no_uncaught_error_on_given_locations
           (one_page_window identity_viewport) two_quick_calls 700%nat).
  repeat constructor.
Defined.

(** ** Clearing twice *)












(** ** The two delays *)




